(** * OSM mining pipeline: query construction, normalisation, storage

    A shallow embedding of the TypeScript sources under [osm-mining/src]
    ([queryBuilder], [osmFetcher], [mongoStorage], [types]) together with
    the properties stated for them.

    Conventions of the embedding.
    - The coordinates of a position, the numbers the program computes
      on, are IEEE 754 binary64 values ([Number.t]); sums and quotients
      round as the doubles of JavaScript do.  A number that is only
      tested and printed (an id, a bound of the bounding box) is carried
      by the rational it denotes ([Qc], canonical fractions).
    - [Number::toString] is not defined by the repository; the functions
      that render numbers take it as the section variable
      [Number_toString].
    - [new Date()] reads a clock.  The clock is an oracle [clock : nat ->
      Date] and the state carries the number of readings made so far.
    - A thrown exception is the [Throw] result of [Completion]. *)

From Stdlib Require Import ZArith QArith Qcanon Lqa String Ascii List Lia
  DecimalString SpecFloat.
From stdpp Require Import base numbers option list gmap strings.

Local Open Scope string_scope.
Local Open Scope list_scope.

(** ** Strings of the source text *)

(** The line feed and the double quote of the template literals. *)
Definition nl : string := String "010"%char EmptyString.
Definition dq : string := String "034"%char EmptyString.

(** [Array.prototype.join] on an array of strings. *)
Fixpoint join (sep : string) (xs : list string) : string :=
  match xs with
  | [] => EmptyString
  | [x] => x
  | x :: rest => x +:+ sep +:+ join sep rest
  end.

(** ** queryBuilder *)

Module QueryBuilder.

Record BoundingBox := {
  south : Qc;
  west : Qc;
  north : Qc;
  east : Qc
}.

(** [TagConfig]: every tag list is optional. *)
Record TagConfig := {
  tourismTags : option (list string);
  amenityTags : option (list string);
  historicTags : option (list string);
  naturalTags : option (list string);
  leisureTags : option (list string)
}.

(** The object built by [new OverpassQueryBuilder(bbox)]. *)
Record OverpassQueryBuilder := { bbox : BoundingBox }.

Section Builder.

Variable Number_toString : Qc -> string.

Definition getBboxString (this : OverpassQueryBuilder) : string :=
  let b := bbox this in
  Number_toString (south b) +:+ "," +:+ Number_toString (west b) +:+ ","
    +:+ Number_toString (north b) +:+ "," +:+ Number_toString (east b).

(** [`node["key"="${tag}"](${bboxStr});`] and the [way] clause. *)
Definition clause (kind key tag bboxStr : string) : string :=
  kind +:+ "[" +:+ dq +:+ key +:+ dq +:+ "=" +:+ dq +:+ tag +:+ dq +:+ "]("
    +:+ bboxStr +:+ ");".

Definition nodeClause := clause "node".
Definition wayClause := clause "way".

(** The separator of [join] in every builder: a line feed and two blanks. *)
Definition sep : string := nl +:+ "  ".

(** The template literal around the clauses; only the timeout differs
    between the single-dimension builders and the comprehensive one. *)
Definition header (timeout : string) : string :=
  nl +:+ "[out:json][timeout:" +:+ timeout +:+ "];" +:+ nl +:+ "(" +:+ nl
     +:+ "  ".

Definition footer : string :=
  nl +:+ ");" +:+ nl +:+ "out body;" +:+ nl +:+ ">;" +:+ nl
     +:+ "out skel qt;" +:+ nl.

(** Body shared by the five single-dimension builders, which differ in
    the tag key only. *)
Definition buildKeyQuery (key : string) (this : OverpassQueryBuilder)
    (tags : list string) : string :=
  let bboxStr := getBboxString this in
  let tagFilters := join sep (map (fun tag => nodeClause key tag bboxStr) tags) in
  let wayFilters := join sep (map (fun tag => wayClause key tag bboxStr) tags) in
  header "180" +:+ tagFilters +:+ nl +:+ "  " +:+ wayFilters +:+ footer.

Definition buildTourismQuery := buildKeyQuery "tourism".
Definition buildAmenityQuery := buildKeyQuery "amenity".
Definition buildHistoricQuery := buildKeyQuery "historic".
Definition buildNaturalQuery := buildKeyQuery "natural".
Definition buildLeisureQuery := buildKeyQuery "leisure".

(** One [if (xTags && xTags.length > 0) xTags.forEach(...)] block: every
    tag pushes its node clause, then its way clause. *)
Definition pushTags (key bboxStr : string) (tags : option (list string))
    (filters : list string) : list string :=
  match tags with
  | Some ts =>
      if (0 <? length ts)%nat then
        fold_left
          (fun (acc : list string) tag =>
             ((acc ++ [nodeClause key tag bboxStr])
                ++ [wayClause key tag bboxStr])%list)
          ts filters
      else filters
  | None => filters
  end.

(** The array [filters] when [buildComprehensiveQuery] reaches its
    [return]. *)
Definition comprehensiveFilters (this : OverpassQueryBuilder)
    (config : TagConfig) : list string :=
  let bboxStr := getBboxString this in
  let filters := [] in
  let filters := pushTags "tourism" bboxStr (tourismTags config) filters in
  let filters := pushTags "amenity" bboxStr (amenityTags config) filters in
  let filters := pushTags "historic" bboxStr (historicTags config) filters in
  let filters := pushTags "natural" bboxStr (naturalTags config) filters in
  let filters := pushTags "leisure" bboxStr (leisureTags config) filters in
  filters.

Definition buildComprehensiveQuery (this : OverpassQueryBuilder)
    (config : TagConfig) : string :=
  header "300" +:+ join sep (comprehensiveFilters this config) +:+ footer.

End Builder.

(** *** Reading the execution-time budget back from a query *)

(** [s] without its prefix [pat], when [pat] is a prefix of [s]. *)
Fixpoint stripPrefix (pat s : string) : option string :=
  match pat, s with
  | EmptyString, _ => Some s
  | String a pat', String b s' =>
      if Ascii.eqb a b then stripPrefix pat' s' else None
  | String _ _, EmptyString => None
  end.

(** The text that follows the first occurrence of [pat] in [s]. *)
Fixpoint after (pat s : string) : option string :=
  match stripPrefix pat s with
  | Some rest => Some rest
  | None =>
      match s with
      | EmptyString => None
      | String _ s' => after pat s'
      end
  end.

Definition digit (c : ascii) : option nat :=
  let n := nat_of_ascii c in
  if ((48 <=? n) && (n <=? 57))%nat then Some (n - 48)%nat else None.

(** The decimal numeral at the start of [s], read from an accumulator. *)
Fixpoint readNat (acc : nat) (s : string) : nat :=
  match s with
  | EmptyString => acc
  | String c s' =>
      match digit c with
      | Some d => readNat (10 * acc + d) s'
      | None => acc
      end
  end.

(** The value of the [[timeout:N]] setting embedded in a query. *)
Definition queryTimeout (q : string) : option nat :=
  match after "[timeout:" q with
  | Some rest => Some (readNat 0 rest)
  | None => None
  end.

(** *** Dimensions, for statements that range over the five tag lists *)

Inductive Dimension := Tourism | Amenity | Historic | Natural | Leisure.

Definition tagsOf (d : Dimension) (c : TagConfig) : option (list string) :=
  match d with
  | Tourism => tourismTags c
  | Amenity => amenityTags c
  | Historic => historicTags c
  | Natural => naturalTags c
  | Leisure => leisureTags c
  end.

Definition setTags (d : Dimension) (ts : option (list string))
    (c : TagConfig) : TagConfig :=
  match d with
  | Tourism => {| tourismTags := ts; amenityTags := amenityTags c;
                  historicTags := historicTags c; naturalTags := naturalTags c;
                  leisureTags := leisureTags c |}
  | Amenity => {| tourismTags := tourismTags c; amenityTags := ts;
                  historicTags := historicTags c; naturalTags := naturalTags c;
                  leisureTags := leisureTags c |}
  | Historic => {| tourismTags := tourismTags c; amenityTags := amenityTags c;
                   historicTags := ts; naturalTags := naturalTags c;
                   leisureTags := leisureTags c |}
  | Natural => {| tourismTags := tourismTags c; amenityTags := amenityTags c;
                  historicTags := historicTags c; naturalTags := ts;
                  leisureTags := leisureTags c |}
  | Leisure => {| tourismTags := tourismTags c; amenityTags := amenityTags c;
                  historicTags := historicTags c; naturalTags := naturalTags c;
                  leisureTags := ts |}
  end.

(** The values listed for a dimension; an absent list lists none. *)
Definition listed (ts : option (list string)) : list string := default [] ts.

(** Appending [extra] values to the list of dimension [d]. *)
Definition addValues (d : Dimension) (extra : list string)
    (c : TagConfig) : TagConfig :=
  setTags d (Some (listed (tagsOf d c) ++ extra)%list) c.

Definition totalValues (c : TagConfig) : nat :=
  (length (listed (tourismTags c)) + length (listed (amenityTags c))
   + length (listed (historicTags c)) + length (listed (naturalTags c))
   + length (listed (leisureTags c)))%nat.

(** Decimal rendering of integral numbers, the part of
    [Number::toString] that the examples below run on. *)
Definition intToString (q : Qc) : string :=
  NilEmpty.string_of_int (Z.to_int (Qnum (this q))).

End QueryBuilder.

(** ** JavaScript values and completions *)

Module JS.

(** Primitive values other than [undefined]. *)
Inductive Primitive :=
  | PNull
  | PBool (b : bool)
  | PNum (n : Qc)
  | PStr (s : string).

#[global] Instance Primitive_eq_dec : EqDecision Primitive.
Proof. solve_decision. Defined.

(** What a property of a tag object holds: a primitive, as a rule a
    string, or an array of primitives. *)
Inductive Item :=
  | IPrim (p : Primitive)
  | IArr (items : list Primitive).

Abbreviation IStr s := (IPrim (PStr s)).

#[global] Instance Item_eq_dec : EqDecision Item.
Proof. solve_decision. Defined.

(** The values a property of type [unknown] holds in this program:
    primitives, arrays of primitives, and objects whose own properties
    are primitives or such arrays (a tag object).  [undefined], the
    value of an absent property, is the [None] of [option Value]. *)
Inductive Value :=
  | VPrim (p : Primitive)
  | VObj (o : gmap string Item)
  | VArr (items : list Primitive).

(** A property of an object as a value. *)
Definition ofItem (i : Item) : Value :=
  match i with
  | IPrim p => VPrim p
  | IArr items => VArr items
  end.

Abbreviation VNull := (VPrim PNull).
Abbreviation VBool b := (VPrim (PBool b)).
Abbreviation VNum n := (VPrim (PNum n)).
Abbreviation VStr s := (VPrim (PStr s)).

#[global] Instance Value_eq_dec : EqDecision Value.
Proof. solve_decision. Defined.

Definition truthyPrimitive (p : Primitive) : bool :=
  match p with
  | PNull => false
  | PBool b => b
  | PNum n => negb (bool_decide (n = 0%Qc))
  | PStr s => negb (bool_decide (s = ""))
  end.

(** [ToBoolean]. *)
Definition truthy (v : option Value) : bool :=
  match v with
  | None => false
  | Some (VPrim p) => truthyPrimitive p
  | Some (VObj _) => true
  | Some (VArr _) => true
  end.

(** [a || b]. *)
Definition or (a b : option Value) : option Value :=
  if truthy a then a else b.

(** [a || b] when [b] is not [undefined]. *)
Definition orElse (a : option Value) (b : Value) : Value :=
  match a with
  | Some v => if truthy a then v else b
  | None => b
  end.

(** An element of an array in [Array.prototype.join]: [null] gives the
    empty string, any other primitive its string. *)
Definition itemString (Number_toString : Qc -> string) (p : Primitive)
    : string :=
  match p with
  | PNull => ""
  | PBool true => "true"
  | PBool false => "false"
  | PNum n => Number_toString n
  | PStr s => s
  end.

(** [String(v)], given the rendering of numbers; an array is rendered
    by [join(",")]. *)
Definition String_ (Number_toString : Qc -> string) (v : Value) : string :=
  match v with
  | VNull => "null"
  | VBool true => "true"
  | VBool false => "false"
  | VNum n => Number_toString n
  | VStr s => s
  | VObj _ => "[object Object]"
  | VArr items => join "," (map (itemString Number_toString) items)
  end.

(** What is thrown: a [TypeError] of the runtime, an [Error] built by
    the program, a write error of the storage driver. *)
Inductive Exn :=
  | TypeError
  | Error (message : string)
  | WriteError.

(** The outcome of running a piece of code: a value, or a thrown
    exception. *)
Inductive Completion (A : Type) :=
  | Normal (a : A)
  | Throw (e : Exn).
Arguments Normal {A} a.
Arguments Throw {A} e.

(** [Date] values, as milliseconds. *)
Definition Date := N.

(** Code that may read the clock and may throw: the state is the number
    of clock readings made so far. *)
Definition M (A : Type) : Type := nat -> Completion (A * nat).

Definition ret {A} (a : A) : M A := fun t => Normal (a, t).

Definition bind {A B} (c : M A) (k : A -> M B) : M B :=
  fun t => match c t with
           | Normal (a, t') => k a t'
           | Throw e => Throw e
           end.

Definition throw {A} (e : Exn) : M A := fun _ => Throw e.

(** [new Date()]. *)
Definition newDate (clock : nat -> Date) : M Date :=
  fun t => Normal (clock t, S t).

(** Lifting a completion that does not touch the clock. *)
Definition lift {A} (c : Completion A) : M A :=
  fun t => match c with
           | Normal a => Normal (a, t)
           | Throw e => Throw e
           end.

(** [Array.prototype.map] with an effectful callback: elements are
    visited in order, the first exception ends the traversal. *)
Fixpoint mapM {A B} (f : A -> M B) (xs : list A) : M (list B) :=
  match xs with
  | [] => ret []
  | x :: rest =>
      bind (f x) (fun y => bind (mapM f rest) (fun ys => ret (y :: ys)))
  end.

End JS.

#[global] Instance M_ret : MRet JS.M := @JS.ret.
#[global] Instance M_bind : MBind JS.M := fun A B k c => JS.bind c k.

(** ** Numbers the program computes on *)

(** IEEE 754 binary64: the values and the operations of [SpecFloat] at
    precision 53 and maximal exponent 1024, rounding to nearest, ties to
    even.  Values are kept in the canonical form the operations return
    and [ofZ], [ofQ] build. *)
Module Number.

Definition t : Type := spec_float.

Definition prec : Z := 53.
Definition emax : Z := 1024.

#[global] Instance eq_dec : EqDecision t.
Proof. solve_decision. Defined.

(** The literal [0]. *)
Definition zero : t := S754_zero false.

(** [x + y] and [x / y]. *)
Definition add : t -> t -> t := SFadd prec emax.
Definition div : t -> t -> t := SFdiv prec emax.

(** [x <= y]. *)
Definition leb : t -> t -> bool := SFleb.

(** An integer as a number; exact below 2^53. *)
Definition ofZ (z : Z) : t := binary_normalize prec emax z 0 false.
Definition ofNat (n : nat) : t := ofZ (Z.of_nat n).

(** The number a decimal literal denotes: the double nearest to the
    fraction, for a numerator and a denominator below 2^53. *)
Definition ofQ (q : Q) : t := div (ofZ (Qnum q)) (ofZ (Zpos (Qden q))).

(** The rational a finite number stands for. *)
Definition value (x : t) : option Qc :=
  match x with
  | S754_zero _ => Some 0%Qc
  | S754_finite s m e =>
      Some (Q2Qc (inject_Z (if s then Z.neg m else Z.pos m) * 2 ^ e)%Q)
  | S754_infinity _ | S754_nan => None
  end.

End Number.

(** ** types *)

Module Types.
Import JS.

(** A GeoJSON position [[longitude, latitude]]; the code reads
    [coord[0]] and [coord[1]] of a position and nothing else. *)
Definition Position : Type := Number.t * Number.t.

(** [GeoJSONGeometry]: the constructor is the [type] tag, its argument
    the [coordinates] array. *)
Inductive GeoJSONGeometry :=
  | Point (coordinates : Position)
  | Polygon (coordinates : list (list Position))
  | LineString (coordinates : list Position)
  | MultiPolygon (coordinates : list (list (list Position))).

#[global] Instance GeoJSONGeometry_eq_dec : EqDecision GeoJSONGeometry.
Proof. solve_decision. Defined.

(** [GeoJSONFeature]; [id] is [None] when absent, [properties] is
    [None] when null. *)
Module GeoJSONFeature.
Record t := {
  id : option Value;
  geometry : option GeoJSONGeometry;
  properties : option (gmap string Value)
}.
End GeoJSONFeature.

Record GeoJSONFeatureCollection := {
  features : list GeoJSONFeature.t
}.

(** The value of the local [tags], what [props.tags || props] evaluates
    to: a truthy primitive, an array, or an object, given by its own
    properties (the tag object, or the property bag itself). *)
Inductive TagsRef :=
  | TagsPrimitive (p : Primitive)
  | TagsArray (items : list Primitive)
  | TagsObject (o : gmap string Value).

#[global] Instance TagsRef_eq_dec : EqDecision TagsRef.
Proof. solve_decision. Defined.

(** [GeoJSONPoint], the shape of [location]. *)
Record GeoJSONPoint := { point_coordinates : Position }.

#[global] Instance GeoJSONPoint_eq_dec : EqDecision GeoJSONPoint.
Proof. solve_decision. Defined.

Record Address := {
  street : Value;
  city : Value;
  postcode : Value;
  country : string
}.

#[global] Instance Address_eq_dec : EqDecision Address.
Proof. solve_decision. Defined.

Record Contact := {
  phone : Value;
  email : Value;
  website : Value
}.

#[global] Instance Contact_eq_dec : EqDecision Contact.
Proof. solve_decision. Defined.

(** [ProcessedPlace] as the normaliser builds it.  The optional
    [created_at] of the interface is the field the store adds; it is a
    field of the stored document ([MongoStorage.StoredPlace]). *)
Module ProcessedPlace.
Record t := {
  osm_id : string;
  osm_type : string;
  name : string;
  name_si : Value;
  name_ta : Value;
  category : string;
  subcategory : Value;
  geometry : option GeoJSONGeometry;
  location : option GeoJSONPoint;
  tags : TagsRef;
  address : Address;
  contact : Contact;
  opening_hours : Value;
  wheelchair : Value;
  description : Value;
  fetched_at : Date;
  source : string
}.

#[global] Instance eq_dec : EqDecision t.
Proof. solve_decision. Defined.
End ProcessedPlace.

Record StorageResult := {
  inserted : nat;
  updated : nat;
  errors : nat
}.

(** [QueryOptions]; [limit] and [skip] are counts. *)
Module QueryOptions.
Record t := {
  limit : option nat;
  skip : option nat;
  category : option string
}.
End QueryOptions.

(** [ExportFeature] and its [properties]. *)
Module ExportFeature.
Record Properties := {
  name : string;
  category : string;
  subcategory : Value;
  tags : TagsRef;
  address : Address;
  contact : Contact
}.

Record t := {
  id : string;
  properties : Properties;
  geometry : option GeoJSONGeometry
}.
End ExportFeature.

End Types.

(** ** osmFetcher *)

Module OsmFetcher.
Import JS Types.

(** [coords.length], a count, as a number. *)
Definition ofNat (n : nat) : Number.t := Number.ofNat n.

(** Reading property [key] of the value of [tags], for the keys the
    program reads: tag names, none of which is a property of a string,
    a number, a boolean or an array. *)
Definition get (tags : TagsRef) (key : string) : option Value :=
  match tags with
  | TagsPrimitive _ => None
  | TagsArray _ => None
  | TagsObject o => o !! key
  end.

(** [props.tags || props]. *)
Definition selectTags (props : gmap string Value) : TagsRef :=
  match props !! "tags" with
  | Some (VObj o) => TagsObject (ofItem <$> o)
  | Some (VArr items) => TagsArray items
  | Some (VPrim p) =>
      if truthyPrimitive p then TagsPrimitive p else TagsObject props
  | None => TagsObject props
  end.

(** [calculateCentroid]. *)
Definition calculateCentroid (geometry : GeoJSONGeometry)
    : Completion (option Position) :=
  let coords : Completion (list Position) :=
    match geometry with
    | Polygon coordinates =>
        (* coordinates[0]; on no ring it is undefined and .length throws *)
        match coordinates with
        | ring :: _ => Normal ring
        | [] => Throw TypeError
        end
    | LineString coordinates => Normal coordinates
    | MultiPolygon coordinates =>
        (* coordinates[0][0] *)
        match coordinates with
        | (ring :: _) :: _ => Normal ring
        | [] :: _ => Throw TypeError
        | [] => Throw TypeError
        end
    | Point _ => Normal []
    end in
  match coords with
  | Throw e => Throw e
  | Normal coords =>
      if (length coords =? 0)%nat then Normal None
      else
        let '(sumLon, sumLat) :=
          fold_left
            (fun '(sumLon, sumLat) (coord : Position) =>
               (Number.add sumLon coord.1, Number.add sumLat coord.2))
            coords (Number.zero, Number.zero) in
        Normal (Some (Number.div sumLon (ofNat (length coords)),
                      Number.div sumLat (ofNat (length coords))))
  end.

(** [determineCategory]. *)
Definition determineCategory (tags : TagsRef) : string :=
  if truthy (get tags "tourism") then "tourism"
  else if truthy (get tags "amenity") then "amenity"
  else if truthy (get tags "historic") then "historic"
  else if truthy (get tags "natural") then "natural"
  else if truthy (get tags "leisure") then "leisure"
  else "other".

(** [determineSubcategory]. *)
Definition determineSubcategory (tags : TagsRef) : Value :=
  orElse
    (or (or (or (or (get tags "tourism") (get tags "amenity"))
               (get tags "historic"))
           (get tags "natural"))
       (get tags "leisure"))
    (VStr "unknown").

(** The first element of [s.split("/")]. *)
Fixpoint firstSegment (s : string) : string :=
  match s with
  | EmptyString => EmptyString
  | String c s' =>
      if Ascii.eqb c "/"%char then EmptyString else String c (firstSegment s')
  end.

Section Fetcher.

Variable Number_toString : Qc -> string.
Variable clock : nat -> Date.

(** [extractOsmType]. *)
Definition extractOsmType (id : option Value) : string :=
  match id with
  | Some v =>
      if negb (truthy id) then "unknown"
      else
        let part0 := firstSegment (String_ Number_toString v) in
        if negb (bool_decide (part0 = "")) then part0 else "unknown"
  | None => "unknown"
  end.

(** The [coordinates] computed at the start of the callback of
    [processForMongoDB].  The match on the constructor stands for the
    comparisons of [geometryType] with the three type names: a Point
    gives its coordinates, a Polygon or a LineString goes to
    [calculateCentroid], any other geometry leaves [coordinates] null. *)
Definition resolveCoordinates (geometry : option GeoJSONGeometry)
    : Completion (option Position) :=
  match geometry with
  | Some (Point coordinates) => Normal (Some coordinates)
  | Some (Polygon _ as g) | Some (LineString _ as g) => calculateCentroid g
  | Some (MultiPolygon _) => Normal None
  | None => Normal None
  end.

(** The callback of [geojson.features.map] in [processForMongoDB]. *)
Definition processFeature (feature : GeoJSONFeature.t)
    : M ProcessedPlace.t :=
  coordinates ← lift (resolveCoordinates (GeoJSONFeature.geometry feature));
  let props := default ∅ (GeoJSONFeature.properties feature) in
  let tags := selectTags props in
  now ← newDate clock;
  mret {|
    ProcessedPlace.osm_id :=
      String_ Number_toString
        (orElse (or (GeoJSONFeature.id feature) (props !! "id")) (VStr ""));
    ProcessedPlace.osm_type :=
      String_ Number_toString
        (orElse (props !! "type")
           (VStr (extractOsmType (GeoJSONFeature.id feature))));
    ProcessedPlace.name :=
      String_ Number_toString
        (orElse (or (get tags "name") (get tags "name:en")) (VStr "Unnamed"));
    ProcessedPlace.name_si := orElse (get tags "name:si") VNull;
    ProcessedPlace.name_ta := orElse (get tags "name:ta") VNull;
    ProcessedPlace.category := determineCategory tags;
    ProcessedPlace.subcategory := determineSubcategory tags;
    ProcessedPlace.geometry := GeoJSONFeature.geometry feature;
    ProcessedPlace.location :=
      match coordinates with
      | Some c => Some {| point_coordinates := c |}
      | None => None
      end;
    ProcessedPlace.tags := tags;
    ProcessedPlace.address := {|
      street := orElse (get tags "addr:street") VNull;
      city := orElse (get tags "addr:city") VNull;
      postcode := orElse (get tags "addr:postcode") VNull;
      country := "Sri Lanka" |};
    ProcessedPlace.contact := {|
      phone := orElse (or (get tags "phone") (get tags "contact:phone")) VNull;
      email := orElse (or (get tags "email") (get tags "contact:email")) VNull;
      website := orElse (or (get tags "website") (get tags "contact:website")) VNull |};
    ProcessedPlace.opening_hours := orElse (get tags "opening_hours") VNull;
    ProcessedPlace.wheelchair := orElse (get tags "wheelchair") VNull;
    ProcessedPlace.description := orElse (get tags "description") VNull;
    ProcessedPlace.fetched_at := now;
    ProcessedPlace.source := "OpenStreetMap"
  |}.

(** The predicate of the final [filter]: [f.location !== null]. *)
Definition hasLocation (f : ProcessedPlace.t) : bool :=
  bool_decide (ProcessedPlace.location f ≠ None).

(** [processForMongoDB]. *)
Definition processForMongoDB (geojson : GeoJSONFeatureCollection)
    : M (list ProcessedPlace.t) :=
  processedFeatures ← mapM processFeature (features geojson);
  let validFeatures := List.filter hasLocation processedFeatures in
  mret validFeatures.

End Fetcher.

End OsmFetcher.

(** ** mongoStorage *)

Module MongoStorage.
Import JS Types.

(** A document of the collection: the fields written by [$set] and the
    [created_at] written by [$setOnInsert]. *)
Record StoredPlace := {
  place : ProcessedPlace.t;
  created_at : Date
}.

(** The storage handler.  [collection] is [None] until [connect] has
    run; when connected it stands for the documents of the collection,
    in their natural order. *)
Record MongoDBStorage := {
  collection : option (list StoredPlace)
}.

(** [UpdateResult] of the driver. *)
Record UpdateResult := {
  matchedCount : nat;
  modifiedCount : nat;
  upsertedCount : nat
}.

(** The filter [{ osm_id: key }]. *)
Definition matches (key : string) (d : StoredPlace) : bool :=
  bool_decide (ProcessedPlace.osm_id (place d) = key).

(** The document the filter selects: the first match. *)
Definition findOne (key : string) (coll : list StoredPlace)
    : option StoredPlace :=
  List.find (matches key) coll.

(** Rewriting the first document that matches. *)
Fixpoint replaceFirst (key : string) (d' : StoredPlace)
    (coll : list StoredPlace) : list StoredPlace :=
  match coll with
  | [] => []
  | d :: rest =>
      if matches key d then d' :: rest else d :: replaceFirst key d' rest
  end.

Section Storage.

(** What makes the server refuse a write of a record (a violated
    constraint of the collection); the driver then throws. *)
Variable rejects : ProcessedPlace.t -> bool.
Variable clock : nat -> Date.

(** Modelled from the spec: the call [collection.updateOne({osm_id: key},
    {$set: feature, $setOnInsert: {created_at}}, {upsert: true})] runs in
    the MongoDB driver, which is not among the sources.  As the
    specification words the upsert: without a document of that id one is
    inserted and its creation timestamp set; with one, every field but
    the creation timestamp is overwritten, and the write counts as a
    modification when a stored field changes value.  A refused write
    makes the driver throw. *)
Definition updateOne (coll : list StoredPlace) (key : string)
    (feature : ProcessedPlace.t) (created : Date)
    : Completion (UpdateResult * list StoredPlace) :=
  if rejects feature then Throw WriteError
  else
    match findOne key coll with
    | Some d =>
        let d' := {| place := feature; created_at := created_at d |} in
        Normal
          ({| matchedCount := 1;
              modifiedCount := if bool_decide (place d = feature) then 0 else 1;
              upsertedCount := 0 |},
           replaceFirst key d' coll)
    | None =>
        Normal
          ({| matchedCount := 0; modifiedCount := 0; upsertedCount := 1 |},
           (coll ++ [{| place := feature; created_at := created |}])%list)
    end.

(** One iteration of the [for ... of] loop of [storeFeatures]: the
    [try] block and its [catch]. *)
Definition storeOne (feature : ProcessedPlace.t)
    (st : StorageResult * list StoredPlace)
    : M (StorageResult * list StoredPlace) :=
  let '(results, coll) := st in
  now ← newDate clock;
  match updateOne coll (ProcessedPlace.osm_id feature) feature now with
  | Normal (result, coll') =>
      if (0 <? upsertedCount result)%nat then
        mret ({| inserted := S (inserted results);
                 updated := updated results;
                 errors := errors results |}, coll')
      else if (0 <? modifiedCount result)%nat then
        mret ({| inserted := inserted results;
                 updated := S (updated results);
                 errors := errors results |}, coll')
      else mret (results, coll')
  | Throw _ =>
      mret ({| inserted := inserted results;
               updated := updated results;
               errors := S (errors results) |}, coll)
  end.

Fixpoint storeLoop (features : list ProcessedPlace.t)
    (st : StorageResult * list StoredPlace)
    : M (StorageResult * list StoredPlace) :=
  match features with
  | [] => mret st
  | feature :: rest => st' ← storeOne feature st; storeLoop rest st'
  end.

(** [storeFeatures]: the summary and the storage afterwards. *)
Definition storeFeatures (this : MongoDBStorage)
    (features : list ProcessedPlace.t)
    : M (StorageResult * MongoDBStorage) :=
  match collection this with
  | None => throw (Error "Not connected to MongoDB")
  | Some coll =>
      let results := {| inserted := 0; updated := 0; errors := 0 |} in
      '(results, coll') ← storeLoop features (results, coll);
      mret (results, {| collection := Some coll' |})
  end.

End Storage.

(** The documents of the collection that carry source id [key]. *)
Definition documentsWith (key : string) (this : MongoDBStorage)
    : list StoredPlace :=
  List.filter (matches key) (default [] (collection this)).

(** Modelled from the spec: a cursor of the driver over the documents a
    filter selects, which is not among the sources.  [limit] and [skip]
    record a setting on the cursor; [toArray] runs the query, the skip
    applied before the limit whatever the order of the calls, and a
    limit of zero meaning no limit. *)
Record Cursor := {
  selected : list StoredPlace;
  cursor_limit : nat;
  cursor_skip : nat
}.

Definition find (p : StoredPlace -> bool) (coll : list StoredPlace) : Cursor :=
  {| selected := List.filter p coll; cursor_limit := 0; cursor_skip := 0 |}.

Definition cursorLimit (n : nat) (c : Cursor) : Cursor :=
  {| selected := selected c; cursor_limit := n; cursor_skip := cursor_skip c |}.

Definition cursorSkip (n : nat) (c : Cursor) : Cursor :=
  {| selected := selected c; cursor_limit := cursor_limit c; cursor_skip := n |}.

Definition toArray (c : Cursor) : list StoredPlace :=
  let rest := List.skipn (cursor_skip c) (selected c) in
  if (cursor_limit c =? 0)%nat then rest else List.firstn (cursor_limit c) rest.

(** [if (n) ...] on an optional count: absent and zero are falsy. *)
Definition truthyCount (n : option nat) : bool :=
  match n with
  | Some (S _) => true
  | _ => false
  end.

(** [findByCategory]. *)
Definition findByCategory (this : MongoDBStorage) (category : string)
    (options : QueryOptions.t) : Completion (list StoredPlace) :=
  match collection this with
  | None => Throw (Error "Not connected to MongoDB")
  | Some coll =>
      let cursor :=
        find (fun d => bool_decide (ProcessedPlace.category (place d) = category))
          coll in
      let cursor :=
        if truthyCount (QueryOptions.limit options)
        then cursorLimit (default 0%nat (QueryOptions.limit options)) cursor
        else cursor in
      let cursor :=
        if truthyCount (QueryOptions.skip options)
        then cursorSkip (default 0%nat (QueryOptions.skip options)) cursor
        else cursor in
      Normal (toArray cursor)
  end.

(** The callback of [documents.map] in [exportAsGeoJSON];
    [doc.geometry || doc.location] is the geometry unless it is null,
    and then the location, a Point. *)
Definition exportFeature (doc : StoredPlace) : ExportFeature.t :=
  let p := place doc in
  {| ExportFeature.id := ProcessedPlace.osm_id p;
     ExportFeature.properties := {|
       ExportFeature.name := ProcessedPlace.name p;
       ExportFeature.category := ProcessedPlace.category p;
       ExportFeature.subcategory := ProcessedPlace.subcategory p;
       ExportFeature.tags := ProcessedPlace.tags p;
       ExportFeature.address := ProcessedPlace.address p;
       ExportFeature.contact := ProcessedPlace.contact p |};
     ExportFeature.geometry :=
       match ProcessedPlace.geometry p with
       | Some g => Some g
       | None =>
           (fun pt => Point (point_coordinates pt))
             <$> ProcessedPlace.location p
       end |}.

(** [exportAsGeoJSON]: the [features] of the collection it returns;
    [find({}).toArray()] yields every document. *)
Definition exportAsGeoJSON (this : MongoDBStorage)
    : Completion (list ExportFeature.t) :=
  match collection this with
  | None => Throw (Error "Not connected to MongoDB")
  | Some coll =>
      let documents := toArray (find (fun _ => true) coll) in
      Normal (map exportFeature documents)
  end.

End MongoStorage.

(** ** config, the fetch methods of osmFetcher, and the scripts *)

(** The part of [config] the fetcher reads: the bounding box and the
    five tag lists. *)
Module Config.
Record t := {
  sriLankaBbox : QueryBuilder.BoundingBox;
  tourismTags : list string;
  amenityTags : list string;
  historicTags : list string;
  naturalTags : list string;
  leisureTags : list string
}.

(** [config] seen as the [TagConfig] argument of
    [buildComprehensiveQuery]: every list is present. *)
Definition tagConfig (config : t) : QueryBuilder.TagConfig :=
  {| QueryBuilder.tourismTags := Some (tourismTags config);
     QueryBuilder.amenityTags := Some (amenityTags config);
     QueryBuilder.historicTags := Some (historicTags config);
     QueryBuilder.naturalTags := Some (naturalTags config);
     QueryBuilder.leisureTags := Some (leisureTags config) |}.
End Config.

Module Scripts.
Import JS Types.

(** What a run does to the outside world, call by call.  Console
    output is left out, except the [console.error] of a catch block,
    which is a [Report]. *)
Inductive Event :=
  | Request (query : string)
  | EnsureDir
  | WriteFile (filename : string)
  | Sleep (ms : nat)
  | Report (context : string)
  | Connect
  | Stats
  | Disconnect
  | Exit (code : nat).

#[global] Instance Event_eq_dec : EqDecision Event.
Proof. solve_decision. Defined.

(** How a script ends: it returns, it throws, or [process.exit] ends
    the process on the spot. *)
Inductive Ending :=
  | Returned
  | Thrown (e : Exn)
  | Exited (code : nat).

(** A run: its ending, its calls in order, and the documents of the
    collection when the run has connected to it. *)
Record Run := {
  ending : Ending;
  trace : list Event;
  database : option (list MongoStorage.StoredPlace)
}.

(** [String.prototype.toLowerCase] on the letters A to Z; the other
    characters are kept, which does not change what the [switch] of
    [fetchByCategory] selects, its labels being lower-case ASCII
    without the letter k. *)
Definition lowerAscii (c : ascii) : ascii :=
  let n := nat_of_ascii c in
  if ((65 <=? n) && (n <=? 90))%nat then ascii_of_nat (n + 32) else c.

Fixpoint toLowerCase (s : string) : string :=
  match s with
  | EmptyString => EmptyString
  | String c s' => String (lowerAscii c) (toLowerCase s')
  end.

(** [.replace(/[:.]/g, "-")]. *)
Fixpoint dashed (s : string) : string :=
  match s with
  | EmptyString => EmptyString
  | String c s' =>
      String (if Ascii.eqb c ":" || Ascii.eqb c "." then "-"%char else c)
        (dashed s')
  end.

Section Scripts.

(** The raw response of the remote service. *)
Variable OSMResponse : Type.

Variable Number_toString : Qc -> string.
Variable Date_toISOString : Date -> string.
Variable clock : nat -> Date.
Variable config : Config.t.

(** The outside world: what the remote service answers to a query (the
    [executeQuery] of the fetcher, which throws on a failed exchange),
    the converter [osmtogeojson], the error of [existsSync] and
    [mkdirSync] if the output directory cannot be ensured, whether a
    file can be written, what [storage.connect] finds or throws, whether
    the server refuses a record, and the error of [storage.getStats] if
    it fails.  [storage.disconnect] is taken not to throw. *)
Variable executeQuery : string -> Completion OSMResponse.
Variable osmtogeojson : OSMResponse -> Completion GeoJSONFeatureCollection.
Variable ensureDir : option Exn.
Variable writeFileSync : string -> bool.
Variable connect : Completion (list MongoStorage.StoredPlace).
Variable rejects : ProcessedPlace.t -> bool.
Variable getStats : option Exn.

(** The query builder of [new OsmDataFetcher()]. *)
Definition queryBuilder : QueryBuilder.OverpassQueryBuilder :=
  {| QueryBuilder.bbox := Config.sriLankaBbox config |}.

(** [executeQuery] followed by [convertToGeoJSON]: one request. *)
Definition fetchWith (query : string)
    : Completion GeoJSONFeatureCollection * list Event :=
  (match executeQuery query with
   | Normal osmData => osmtogeojson osmData
   | Throw e => Throw e
   end,
   [Request query]).

Definition fetchTourismData :=
  fetchWith (QueryBuilder.buildTourismQuery Number_toString queryBuilder
               (Config.tourismTags config)).
Definition fetchAmenityData :=
  fetchWith (QueryBuilder.buildAmenityQuery Number_toString queryBuilder
               (Config.amenityTags config)).
Definition fetchHistoricData :=
  fetchWith (QueryBuilder.buildHistoricQuery Number_toString queryBuilder
               (Config.historicTags config)).
Definition fetchNaturalData :=
  fetchWith (QueryBuilder.buildNaturalQuery Number_toString queryBuilder
               (Config.naturalTags config)).
Definition fetchLeisureData :=
  fetchWith (QueryBuilder.buildLeisureQuery Number_toString queryBuilder
               (Config.leisureTags config)).
Definition fetchAllData :=
  fetchWith (QueryBuilder.buildComprehensiveQuery Number_toString queryBuilder
               (Config.tagConfig config)).

(** [fetchByCategory]. *)
Definition fetchByCategory (category : string)
    : Completion GeoJSONFeatureCollection * list Event :=
  let lowered := toLowerCase category in
  if String.eqb lowered "tourism" then fetchTourismData
  else if String.eqb lowered "amenity" then fetchAmenityData
  else if String.eqb lowered "historic" then fetchHistoricData
  else if String.eqb lowered "natural" then fetchNaturalData
  else if String.eqb lowered "leisure" then fetchLeisureData
  else if String.eqb lowered "all" then fetchAllData
  else (Throw (Error ("Unknown category: " +:+ category)), []).

(** The body of the [for] loop of [fetchOsmData]: the [try] block and
    its [catch]. *)
Definition saveCategory (category : string) : list Event :=
  let '(fetched, requests) := fetchByCategory category in
  requests ++
  match fetched with
  | Normal geojson =>
      if (0 <? length (features geojson))%nat then
        let filename := "sri-lanka-" +:+ category +:+ ".geojson" in
        if writeFileSync filename
        then [WriteFile filename; Sleep 2000]
        else [WriteFile filename; Report category]
      else [Sleep 2000]
  | Throw _ => [Report category]
  end.

(** The second [try] of [fetchOsmData]: the combined data and its
    normalised form. *)
Definition saveAll (t : nat) : list Event :=
  let '(fetched, requests) := fetchAllData in
  requests ++
  match fetched with
  | Normal allData =>
      if writeFileSync "sri-lanka-all-tourism.geojson" then
        WriteFile "sri-lanka-all-tourism.geojson" ::
        match OsmFetcher.processForMongoDB Number_toString clock allData t with
        | Normal _ =>
            if writeFileSync "sri-lanka-processed.json"
            then [WriteFile "sri-lanka-processed.json"]
            else [WriteFile "sri-lanka-processed.json"; Report "all"]
        | Throw _ => [Report "all"]
        end
      else [WriteFile "sri-lanka-all-tourism.geojson"; Report "all"]
  | Throw _ => [Report "all"]
  end.

Definition categories : list string :=
  ["tourism"; "historic"; "natural"; "leisure"].

(** [fetchOsmData], the standalone fetch script. *)
Definition fetchOsmData (t : nat) : Run :=
  match ensureDir with
  | None =>
      {| ending := Returned;
         trace := EnsureDir :: flat_map saveCategory categories ++ saveAll t;
         database := None |}
  | Some e =>
      {| ending := Thrown e; trace := [EnsureDir]; database := None |}
  end.

(** The [catch] of [main]: the error is reported and [process.exit(1)]
    ends the process, so the [finally] block is not reached. *)
Definition exitOnError (done : list Event)
    (db : option (list MongoStorage.StoredPlace)) : Run :=
  {| ending := Exited 1;
     trace := done ++ [Report "main"; Exit 1];
     database := db |}.

(** [main]: fetch, back up, normalise, connect, store, statistics,
    and in the [finally] block disconnect. *)
Definition main (t : nat) : Run :=
  let '(fetched, requests) := fetchAllData in
  match fetched, ensureDir with
  | Throw _, _ => exitOnError requests None
  | Normal _, Some _ => exitOnError (requests ++ [EnsureDir]) None
  | Normal geojson, None =>
      let timestamp := dashed (Date_toISOString (clock t)) in
      let geojsonPath := "sri-lanka-tourism-" +:+ timestamp +:+ ".geojson" in
      let saved := requests ++ [EnsureDir; WriteFile geojsonPath] in
      if negb (writeFileSync geojsonPath) then exitOnError saved None
      else
        match OsmFetcher.processForMongoDB Number_toString clock geojson (S t) with
        | Throw _ => exitOnError saved None
        | Normal (processedFeatures, t1) =>
            match connect with
            | Throw _ => exitOnError (saved ++ [Connect]) None
            | Normal coll =>
                match
                  MongoStorage.storeFeatures rejects clock
                    {| MongoStorage.collection := Some coll |}
                    processedFeatures t1
                with
                | Throw _ => exitOnError (saved ++ [Connect]) (Some coll)
                | Normal ((_, storage), _) =>
                    match getStats with
                    | None =>
                        {| ending := Returned;
                           trace := saved ++ [Connect; Stats; Disconnect];
                           database := MongoStorage.collection storage |}
                    | Some _ =>
                        exitOnError (saved ++ [Connect; Stats])
                          (MongoStorage.collection storage)
                    end
                end
            end
        end
  end.

(** The [try] block of [fetchTourismOnly]: how it ends, its calls, and
    the collection when it has connected. *)
Definition tourismOnlyBody (t : nat) : Run :=
  let '(fetched, requests) := fetchTourismData in
  match fetched with
  | Throw e => {| ending := Thrown e; trace := requests; database := None |}
  | Normal geojson =>
      match OsmFetcher.processForMongoDB Number_toString clock geojson t with
      | Throw e =>
          {| ending := Thrown e; trace := requests; database := None |}
      | Normal (processedFeatures, t1) =>
          match connect with
          | Throw e =>
              {| ending := Thrown e; trace := requests ++ [Connect];
                 database := None |}
          | Normal coll =>
              match
                MongoStorage.storeFeatures rejects clock
                  {| MongoStorage.collection := Some coll |}
                  processedFeatures t1
              with
              | Throw e =>
                  {| ending := Thrown e; trace := requests ++ [Connect];
                     database := Some coll |}
              | Normal ((_, storage), _) =>
                  {| ending :=
                       match getStats with
                       | None => Returned
                       | Some e => Thrown e
                       end;
                     trace := requests ++ [Connect; Stats];
                     database := MongoStorage.collection storage |}
              end
          end
      end
  end.

(** [fetchTourismOnly]: the [try] block, then the [finally] block,
    which disconnects and lets a thrown error go on. *)
Definition fetchTourismOnly (t : nat) : Run :=
  let body := tourismOnlyBody t in
  {| ending := ending body;
     trace := trace body ++ [Disconnect];
     database := database body |}.

End Scripts.

End Scripts.

(** * Vocabulary of the statements and sample inputs *)

(** Inputs on which the builders are run below: an integral bounding
    box around Sri Lanka. *)
Definition sampleBuilder : QueryBuilder.OverpassQueryBuilder :=
  {| QueryBuilder.bbox :=
       {| QueryBuilder.south := Q2Qc 5; QueryBuilder.west := Q2Qc 79;
          QueryBuilder.north := Q2Qc 10; QueryBuilder.east := Q2Qc 82 |} |}.

Definition noTags : QueryBuilder.TagConfig :=
  {| QueryBuilder.tourismTags := None; QueryBuilder.amenityTags := None;
     QueryBuilder.historicTags := None; QueryBuilder.naturalTags := None;
     QueryBuilder.leisureTags := None |}.

Definition oneTag : QueryBuilder.TagConfig :=
  QueryBuilder.setTags QueryBuilder.Tourism (Some ["museum"]) noTags.

Definition twoTags : QueryBuilder.TagConfig :=
  QueryBuilder.setTags QueryBuilder.Amenity (Some ["cafe"]) oneTag.

(** The budget embedded in the comprehensive query of the sample
    builder, and the number of its clauses. *)
Definition sampleBudget (c : QueryBuilder.TagConfig) : option nat :=
  QueryBuilder.queryTimeout
    (QueryBuilder.buildComprehensiveQuery QueryBuilder.intToString
       sampleBuilder c).

Definition sampleClauses (c : QueryBuilder.TagConfig) : nat :=
  length (QueryBuilder.comprehensiveFilters QueryBuilder.intToString
            sampleBuilder c).

(** The lines of a text, a text without a line feed, and the filter
    clauses read back from the text of a query: its lines made of two
    blanks and a node clause, or a way clause. *)
Definition newline : ascii := "010"%char.

Fixpoint lines (s : string) : list string :=
  match s with
  | EmptyString => [EmptyString]
  | String c rest =>
      if Ascii.eqb c newline then EmptyString :: lines rest
      else match lines rest with
           | l :: ls => String c l :: ls
           | [] => [String c EmptyString]
           end
  end.

Fixpoint lineFree (s : string) : bool :=
  match s with
  | EmptyString => true
  | String c rest => negb (Ascii.eqb c newline) && lineFree rest
  end.

Definition clauseLines (kind : string) (q : string) : list string :=
  List.filter (String.prefix ("  " +:+ kind +:+ "[")) (lines q).

(** The lines after the clauses. *)
Definition closing : list string :=
  [");"; "out body;"; ">;"; "out skel qt;"; ""].


(** The number of filter clauses of a query text; the tag values a
    configuration lists; the two clauses of a tag value; the clauses of
    a configuration as the specification words them: for every listed
    value its node clause, then its way clause, dimension after
    dimension. *)
Definition clauseCount (q : string) : nat :=
  (length (clauseLines "node" q) + length (clauseLines "way" q))%nat.

Definition allValues (c : QueryBuilder.TagConfig) : list string :=
  QueryBuilder.listed (QueryBuilder.tourismTags c)
  ++ QueryBuilder.listed (QueryBuilder.amenityTags c)
  ++ QueryBuilder.listed (QueryBuilder.historicTags c)
  ++ QueryBuilder.listed (QueryBuilder.naturalTags c)
  ++ QueryBuilder.listed (QueryBuilder.leisureTags c).

Definition clausePair (bboxStr key tag : string) : list string :=
  [QueryBuilder.nodeClause key tag bboxStr;
   QueryBuilder.wayClause key tag bboxStr].

Definition expectedClauses (Number_toString : Qc -> string)
    (this : QueryBuilder.OverpassQueryBuilder)
    (c : QueryBuilder.TagConfig) : list string :=
  let bboxStr := QueryBuilder.getBboxString Number_toString this in
  flat_map (clausePair bboxStr "tourism")
    (QueryBuilder.listed (QueryBuilder.tourismTags c))
  ++ flat_map (clausePair bboxStr "amenity")
       (QueryBuilder.listed (QueryBuilder.amenityTags c))
  ++ flat_map (clausePair bboxStr "historic")
       (QueryBuilder.listed (QueryBuilder.historicTags c))
  ++ flat_map (clausePair bboxStr "natural")
       (QueryBuilder.listed (QueryBuilder.naturalTags c))
  ++ flat_map (clausePair bboxStr "leisure")
       (QueryBuilder.listed (QueryBuilder.leisureTags c)).

(** The arithmetic mean of a list of numbers as the specification
    words it: the sum of the values divided by their count, in exact
    arithmetic. *)
Definition total (xs : list Qc) : Qc := fold_right Qcplus 0%Qc xs.

Definition arithmeticMean (xs : list Qc) : Qc :=
  (total xs / Q2Qc (inject_Z (Z.of_nat (length xs))))%Qc.

(** The mean in the arithmetic of doubles: the values are added one
    after the other to a sum that starts at 0, each addition rounded,
    and the sum is divided by their count, rounded again. *)
Definition runningSum (xs : list Number.t) : Number.t :=
  fold_left Number.add xs Number.zero.

Definition runningMean (xs : list Number.t) : Number.t :=
  Number.div (runningSum xs) (Number.ofNat (length xs)).

Definition vertexMean (vertices : list Types.Position) : Types.Position :=
  (runningMean (map fst vertices), runningMean (map snd vertices)).

(** An addition, a division by a count, that rounds nothing: the
    operands and the result are finite and the result stands for the
    sum, the quotient, of the rationals. *)
Definition exactAdd (x y : Number.t) : bool :=
  match Number.value x, Number.value y, Number.value (Number.add x y) with
  | Some a, Some b, Some c => bool_decide (c = (a + b)%Qc)
  | _, _, _ => false
  end.

Definition exactDiv (x : Number.t) (n : nat) : bool :=
  match Number.value x, Number.value (Number.div x (Number.ofNat n)) with
  | Some a, Some c =>
      bool_decide (c = (a / Q2Qc (inject_Z (Z.of_nat n)))%Qc)
  | _, _ => false
  end.

(** The running sum from [acc] over [xs] rounds nothing, and neither
    does the running mean of [xs]. *)
Fixpoint exactSum (acc : Number.t) (xs : list Number.t) : bool :=
  match xs with
  | [] => true
  | x :: rest => exactAdd acc x && exactSum (Number.add acc x) rest
  end.

Definition exactMean (xs : list Number.t) : bool :=
  exactSum Number.zero xs && exactDiv (runningSum xs) (length xs).

(** The rationals of a list of finite numbers. *)
Definition values (xs : list Number.t) : list Qc :=
  omap Number.value xs.

(** Three vertices whose coordinates are tenths. *)
Definition tenths : list Types.Position :=
  [(Number.ofQ 0.1, Number.ofQ 0.2); (Number.ofQ 0.2, Number.ofQ 0.4);
   (Number.ofQ 0.3, Number.ofQ 0.6)].

(** Category resolution as the specification words it: the keys in
    priority order, the first one present with a non-empty value. *)
Definition priority : list string :=
  ["tourism"; "amenity"; "historic"; "natural"; "leisure"].

Definition present (tags : gmap string string) (key : string) : bool :=
  match tags !! key with
  | Some v => negb (bool_decide (v = ""))
  | None => false
  end.

Definition resolveCategory (tags : gmap string string) : string * string :=
  match List.find (present tags) priority with
  | Some key => (key, default "" (tags !! key))
  | None => ("other", "unknown")
  end.

(** Location resolution as the specification words it: a Point, a
    Polygon with a non-empty outer ring, a LineString with a vertex, and
    a MultiPolygon whose first polygon has a non-empty outer ring are
    resolvable; null geometry and empty vertex lists are not. *)
Definition resolvable (geometry : option Types.GeoJSONGeometry) : bool :=
  match geometry with
  | Some (Types.Point _) => true
  | Some (Types.Polygon ((_ :: _) :: _)) => true
  | Some (Types.LineString (_ :: _)) => true
  | Some (Types.MultiPolygon (((_ :: _) :: _) :: _)) => true
  | _ => false
  end.

(** The geometries for which the code computes a location. *)
Definition located (geometry : option Types.GeoJSONGeometry) : bool :=
  match geometry with
  | Some (Types.Point _) => true
  | Some (Types.Polygon ((_ :: _) :: _)) => true
  | Some (Types.LineString (_ :: _)) => true
  | _ => false
  end.


(** Sample inputs. *)
Definition square : list Types.Position :=
  [(Number.ofQ 0, Number.ofQ 0); (Number.ofQ 2, Number.ofQ 0);
   (Number.ofQ 2, Number.ofQ 2); (Number.ofQ 0, Number.ofQ 2)].

Definition museumProperties (type : string) : gmap string JS.Value :=
  <["type" := JS.VStr type]>
    (<["tags" :=
         JS.VObj ((fun s => JS.IStr s)
                    <$> <["tourism" := "museum"]> (<["amenity" := "cafe"]> ∅))]> ∅).

Definition pointFeature : Types.GeoJSONFeature.t :=
  {| Types.GeoJSONFeature.id := Some (JS.VStr "node/12345");
     Types.GeoJSONFeature.geometry := Some (Types.Point (Number.ofQ 80, Number.ofQ 7));
     Types.GeoJSONFeature.properties := Some (museumProperties "node") |}.

Definition multiPolygonFeature : Types.GeoJSONFeature.t :=
  {| Types.GeoJSONFeature.id := Some (JS.VStr "relation/7");
     Types.GeoJSONFeature.geometry := Some (Types.MultiPolygon [[square]]);
     Types.GeoJSONFeature.properties := Some (museumProperties "relation") |}.

Definition nullGeometryFeature : Types.GeoJSONFeature.t :=
  {| Types.GeoJSONFeature.id := Some (JS.VStr "way/9");
     Types.GeoJSONFeature.geometry := None;
     Types.GeoJSONFeature.properties := Some (museumProperties "way") |}.


Definition sampleClock (t : nat) : JS.Date := (1000 + N.of_nat t)%N.

Definition museumCafe : gmap string string :=
  <["tourism" := "museum"]> (<["amenity" := "cafe"]> ∅).

(** A summary with its counters raised. *)
Definition bump (inserts updates failures : nat) (r : Types.StorageResult)
    : Types.StorageResult :=
  {| Types.inserted := inserts + Types.inserted r;
     Types.updated := updates + Types.updated r;
     Types.errors := failures + Types.errors r |}.

(** The records of a batch that the server accepts, and those among
    them that are written under source id [key]. *)
Definition accepted (rejects : Types.ProcessedPlace.t -> bool)
    (f : Types.ProcessedPlace.t) : bool :=
  negb (rejects f).

Definition writesTo (rejects : Types.ProcessedPlace.t -> bool)
    (key : string) (f : Types.ProcessedPlace.t) : bool :=
  accepted rejects f && bool_decide (Types.ProcessedPlace.osm_id f = key).

(** A storage constraint to run the store on: the 2dsphere index on
    [location] refuses a point whose longitude or latitude is out of
    range. *)
Definition geoIndexRejects (p : Types.ProcessedPlace.t) : bool :=
  match Types.ProcessedPlace.location p with
  | Some pt =>
      let '(lon, lat) := Types.point_coordinates pt in
      negb (Number.leb (Number.ofQ (-180)) lon && Number.leb lon (Number.ofQ 180)
            && Number.leb (Number.ofQ (-90)) lat && Number.leb lat (Number.ofQ 90))
  | None => false
  end.

(** A normalised museum at a point, as [processForMongoDB] builds it. *)
Definition placeAt (id name : string) (lon lat : Q) (fetched : JS.Date)
    : Types.ProcessedPlace.t :=
  let tags : gmap string string :=
    <["name" := name]> (<["tourism" := "museum"]> ∅) in
  {| Types.ProcessedPlace.osm_id := id;
     Types.ProcessedPlace.osm_type := "node";
     Types.ProcessedPlace.name := name;
     Types.ProcessedPlace.name_si := JS.VNull;
     Types.ProcessedPlace.name_ta := JS.VNull;
     Types.ProcessedPlace.category := "tourism";
     Types.ProcessedPlace.subcategory := JS.VStr "museum";
     Types.ProcessedPlace.geometry := Some (Types.Point (Number.ofQ lon, Number.ofQ lat));
     Types.ProcessedPlace.location :=
       Some {| Types.point_coordinates := (Number.ofQ lon, Number.ofQ lat) |};
     Types.ProcessedPlace.tags :=
       Types.TagsObject ((fun s => JS.VStr s) <$> tags);
     Types.ProcessedPlace.address :=
       {| Types.street := JS.VNull; Types.city := JS.VNull;
          Types.postcode := JS.VNull; Types.country := "Sri Lanka" |};
     Types.ProcessedPlace.contact :=
       {| Types.phone := JS.VNull; Types.email := JS.VNull;
          Types.website := JS.VNull |};
     Types.ProcessedPlace.opening_hours := JS.VNull;
     Types.ProcessedPlace.wheelchair := JS.VNull;
     Types.ProcessedPlace.description := JS.VNull;
     Types.ProcessedPlace.fetched_at := fetched;
     Types.ProcessedPlace.source := "OpenStreetMap" |}.

(** The feature of a museum node and the place it normalises to. *)
Definition museumNode : Types.GeoJSONFeature.t :=
  {| Types.GeoJSONFeature.id := Some (JS.VStr "node/1");
     Types.GeoJSONFeature.geometry := Some (Types.Point (Number.ofQ 80, Number.ofQ 7));
     Types.GeoJSONFeature.properties :=
       Some (<["type" := JS.VStr "node"]>
               (<["tags" :=
                    JS.VObj ((fun s => JS.IStr s)
                               <$> <["name" := "Museum"]>
                                     (<["tourism" := "museum"]> ∅))]> ∅)) |}.

Definition museumBefore : Types.ProcessedPlace.t :=
  placeAt "node/1" "Museum" 80 7 1000%N.

Definition museumAfter : Types.ProcessedPlace.t :=
  placeAt "node/1" "National Museum" 80 7 2000%N.

(** A document created at the first reading of the sample clock. *)
Definition storedFirst (f : Types.ProcessedPlace.t) : MongoStorage.StoredPlace :=
  {| MongoStorage.place := f; MongoStorage.created_at := sampleClock 0 |}.

Definition fiveRecords : list Types.ProcessedPlace.t :=
  [placeAt "node/1" "Museum" 80 7 1000%N;
   placeAt "node/2" "Gallery" 80.5 7 1000%N;
   placeAt "node/3" "Nowhere" 200 7 1000%N;
   placeAt "node/4" "Fort" 81 7.5 1000%N;
   placeAt "node/5" "Temple" 81 8 1000%N].

(** The source id and the creation timestamp of every document of a
    collection, in the order of the collection. *)
Definition keys (coll : list MongoStorage.StoredPlace)
    : list (string * JS.Date) :=
  map (fun d => (Types.ProcessedPlace.osm_id (MongoStorage.place d),
                 MongoStorage.created_at d)) coll.

Definition ids (coll : list MongoStorage.StoredPlace) : list string :=
  map (fun d => Types.ProcessedPlace.osm_id (MongoStorage.place d)) coll.

(** The documents of a collection in a category. *)
Definition inCategory (category : string)
    (coll : list MongoStorage.StoredPlace) : list MongoStorage.StoredPlace :=
  List.filter
    (fun d => bool_decide
                (Types.ProcessedPlace.category (MongoStorage.place d) = category))
    coll.

(** Query options that ask for a page. *)
Definition page (skip limit : option nat) : Types.QueryOptions.t :=
  {| Types.QueryOptions.limit := limit; Types.QueryOptions.skip := skip;
     Types.QueryOptions.category := None |}.

(** A stored museum that has a location and no geometry. *)
Definition bareLocation : MongoStorage.StoredPlace :=
  {| MongoStorage.place :=
       {| Types.ProcessedPlace.osm_id := "node/8";
          Types.ProcessedPlace.osm_type := "node";
          Types.ProcessedPlace.name := "Unnamed";
          Types.ProcessedPlace.name_si := JS.VNull;
          Types.ProcessedPlace.name_ta := JS.VNull;
          Types.ProcessedPlace.category := "other";
          Types.ProcessedPlace.subcategory := JS.VStr "unknown";
          Types.ProcessedPlace.geometry := None;
          Types.ProcessedPlace.location :=
            Some {| Types.point_coordinates := (Number.ofQ 80, Number.ofQ 7) |};
          Types.ProcessedPlace.tags := Types.TagsObject ∅;
          Types.ProcessedPlace.address :=
            {| Types.street := JS.VNull; Types.city := JS.VNull;
               Types.postcode := JS.VNull; Types.country := "Sri Lanka" |};
          Types.ProcessedPlace.contact :=
            {| Types.phone := JS.VNull; Types.email := JS.VNull;
               Types.website := JS.VNull |};
          Types.ProcessedPlace.opening_hours := JS.VNull;
          Types.ProcessedPlace.wheelchair := JS.VNull;
          Types.ProcessedPlace.description := JS.VNull;
          Types.ProcessedPlace.fetched_at := 1000%N;
          Types.ProcessedPlace.source := "OpenStreetMap" |};
     MongoStorage.created_at := 1000%N |}.

(** The point that stands for a geometry in [location]: a Point
    itself, the mean of the first ring of a Polygon, the mean of the
    vertices of a LineString, when there is a vertex to average. *)
Definition representativePoint (geometry : option Types.GeoJSONGeometry)
    : option Types.Position :=
  match geometry with
  | Some (Types.Point c) => Some c
  | Some (Types.Polygon ((v :: ring) :: _)) => Some (vertexMean (v :: ring))
  | Some (Types.LineString (v :: line)) => Some (vertexMean (v :: line))
  | _ => None
  end.

(** The source identity the normaliser gives a feature. *)
Definition sourceId (Number_toString : Qc -> string)
    (feature : Types.GeoJSONFeature.t) : string :=
  JS.String_ Number_toString
    (JS.orElse
       (JS.or (Types.GeoJSONFeature.id feature)
          (default ∅ (Types.GeoJSONFeature.properties feature) !! "id"))
       (JS.VStr "")).

(** A feature whose geometry is a Polygon without rings. *)
Definition ringless (feature : Types.GeoJSONFeature.t) : Prop :=
  Types.GeoJSONFeature.geometry feature = Some (Types.Polygon []).

(** A string without a slash. *)
Definition slashFree (s : string) : Prop :=
  ~ In "/"%char (list_ascii_of_string s).

(** [part] is what precedes the first slash of [s]: all of [s] when
    [s] has no slash. *)
Definition beforeSlash (part s : string) : Prop :=
  exists rest,
    s = part +:+ rest
    /\ slashFree part
    /\ (rest = "" \/ exists after, rest = "/" +:+ after).

(** A feature with properties [{type: [], tags: {name: []}}]. *)
Definition arrayNamed : Types.GeoJSONFeature.t :=
  {| Types.GeoJSONFeature.id := Some (JS.VStr "node/2");
     Types.GeoJSONFeature.geometry :=
       Some (Types.Point (Number.ofQ 80, Number.ofQ 7));
     Types.GeoJSONFeature.properties :=
       Some (<["tags" := JS.VObj (<["name" := JS.IArr []]> ∅)]>
               (<["type" := JS.VArr []]> ∅)) |}.

(** The first candidate that is present and not empty, or else the
    fallback. *)
Fixpoint firstNonEmpty (candidates : list (option string))
    (fallback : string) : string :=
  match candidates with
  | [] => fallback
  | Some s :: rest =>
      if bool_decide (s = "") then firstNonEmpty rest fallback else s
  | None :: rest => firstNonEmpty rest fallback
  end.

(** A rendering of numbers by their numerator in decimal, zero
    included, to run statements that need non-empty numerals. *)
Definition numeral (q : Qc) : string :=
  NilZero.string_of_int (Z.to_int (Qnum (this q))).

(** The tag key of a dimension, the builder method of a dimension, the
    configuration that lists values for one dimension only, and the
    clauses of a single-dimension query: the node clauses of all values,
    then their way clauses. *)
Definition keyOf (d : QueryBuilder.Dimension) : string :=
  match d with
  | QueryBuilder.Tourism => "tourism"
  | QueryBuilder.Amenity => "amenity"
  | QueryBuilder.Historic => "historic"
  | QueryBuilder.Natural => "natural"
  | QueryBuilder.Leisure => "leisure"
  end.

Definition builderOf (Number_toString : Qc -> string)
    (d : QueryBuilder.Dimension)
    : QueryBuilder.OverpassQueryBuilder -> list string -> string :=
  match d with
  | QueryBuilder.Tourism => QueryBuilder.buildTourismQuery Number_toString
  | QueryBuilder.Amenity => QueryBuilder.buildAmenityQuery Number_toString
  | QueryBuilder.Historic => QueryBuilder.buildHistoricQuery Number_toString
  | QueryBuilder.Natural => QueryBuilder.buildNaturalQuery Number_toString
  | QueryBuilder.Leisure => QueryBuilder.buildLeisureQuery Number_toString
  end.

Definition only (d : QueryBuilder.Dimension) (tags : list string)
    : QueryBuilder.TagConfig :=
  QueryBuilder.setTags d (Some tags) noTags.

Definition keyClauses (Number_toString : Qc -> string) (key : string)
    (this : QueryBuilder.OverpassQueryBuilder) (tags : list string)
    : list string :=
  let bboxStr := QueryBuilder.getBboxString Number_toString this in
  map (fun tag => QueryBuilder.nodeClause key tag bboxStr) tags
  ++ map (fun tag => QueryBuilder.wayClause key tag bboxStr) tags.

(** The outside world of a run, as one value, and the fetch methods
    and scripts run in it. *)
Module World.
Record t := {
  OSMResponse : Type;
  Number_toString : Qc -> string;
  Date_toISOString : JS.Date -> string;
  clock : nat -> JS.Date;
  config : Config.t;
  executeQuery : string -> JS.Completion OSMResponse;
  osmtogeojson : OSMResponse -> JS.Completion Types.GeoJSONFeatureCollection;
  ensureDir : option JS.Exn;
  writeFileSync : string -> bool;
  connect : JS.Completion (list MongoStorage.StoredPlace);
  rejects : Types.ProcessedPlace.t -> bool;
  getStats : option JS.Exn
}.
End World.

Definition fetchByCategoryIn (w : World.t) (category : string) :=
  Scripts.fetchByCategory (World.OSMResponse w) (World.Number_toString w)
    (World.config w) (World.executeQuery w) (World.osmtogeojson w) category.

Definition fetchAllDataIn (w : World.t) :=
  Scripts.fetchAllData (World.OSMResponse w) (World.Number_toString w)
    (World.config w) (World.executeQuery w) (World.osmtogeojson w).

Definition fetchTourismDataIn (w : World.t) :=
  Scripts.fetchTourismData (World.OSMResponse w) (World.Number_toString w)
    (World.config w) (World.executeQuery w) (World.osmtogeojson w).

Definition fetchOsmDataIn (w : World.t) (t : nat) : Scripts.Run :=
  Scripts.fetchOsmData (World.OSMResponse w) (World.Number_toString w)
    (World.clock w) (World.config w) (World.executeQuery w)
    (World.osmtogeojson w) (World.ensureDir w) (World.writeFileSync w) t.

Definition mainIn (w : World.t) (t : nat) : Scripts.Run :=
  Scripts.main (World.OSMResponse w) (World.Number_toString w)
    (World.Date_toISOString w) (World.clock w) (World.config w)
    (World.executeQuery w) (World.osmtogeojson w) (World.ensureDir w)
    (World.writeFileSync w) (World.connect w) (World.rejects w)
    (World.getStats w) t.

Definition fetchTourismOnlyIn (w : World.t) (t : nat) : Scripts.Run :=
  Scripts.fetchTourismOnly (World.OSMResponse w) (World.Number_toString w)
    (World.clock w) (World.config w) (World.executeQuery w)
    (World.osmtogeojson w) (World.connect w) (World.rejects w)
    (World.getStats w) t.

(** The tag values configured for a dimension, and the queries the
    fetcher of a world sends: one per dimension, and the combined one. *)
Definition configured (d : QueryBuilder.Dimension) (c : Config.t)
    : list string :=
  match d with
  | QueryBuilder.Tourism => Config.tourismTags c
  | QueryBuilder.Amenity => Config.amenityTags c
  | QueryBuilder.Historic => Config.historicTags c
  | QueryBuilder.Natural => Config.naturalTags c
  | QueryBuilder.Leisure => Config.leisureTags c
  end.

Definition categoryQuery (w : World.t) (d : QueryBuilder.Dimension) : string :=
  builderOf (World.Number_toString w) d
    (Scripts.queryBuilder (World.config w)) (configured d (World.config w)).

Definition comprehensiveQuery (w : World.t) : string :=
  QueryBuilder.buildComprehensiveQuery (World.Number_toString w)
    (Scripts.queryBuilder (World.config w))
    (Config.tagConfig (World.config w)).

(** The name of the backup file [main] writes at tick [t]. *)
Definition backupPath (w : World.t) (t : nat) : string :=
  "sri-lanka-tourism-"
  +:+ Scripts.dashed (World.Date_toISOString w (World.clock w t))
  +:+ ".geojson".

(** The queries sent in a run, in order; the number of its pauses; the
    number of its error reports about one of the four categories. *)
Definition requests (tr : list Scripts.Event) : list string :=
  flat_map (fun e => match e with Scripts.Request q => [q] | _ => [] end) tr.

Definition isPause (e : Scripts.Event) : bool :=
  match e with Scripts.Sleep _ => true | _ => false end.

Definition isCategoryReport (e : Scripts.Event) : bool :=
  match e with
  | Scripts.Report c => bool_decide (c ∈ Scripts.categories)
  | _ => false
  end.

Definition pauses (tr : list Scripts.Event) : nat :=
  length (List.filter isPause tr).

Definition categoryReports (tr : list Scripts.Event) : nat :=
  length (List.filter isCategoryReport tr).

(** The category names [fetchByCategory] knows. *)
Definition knownCategories : list string :=
  ["tourism"; "amenity"; "historic"; "natural"; "leisure"; "all"].

(** Sample worlds: the remote service answers every query with the same
    collection, or refuses every query; the raw response is taken to be
    the converted collection. *)
Definition sampleConfig : Config.t :=
  {| Config.sriLankaBbox := QueryBuilder.bbox sampleBuilder;
     Config.tourismTags := ["museum"; "hotel"];
     Config.amenityTags := ["cafe"];
     Config.historicTags := ["fort"];
     Config.naturalTags := ["beach"];
     Config.leisureTags := ["park"] |}.

Definition sampleWorld
    (answer : JS.Completion Types.GeoJSONFeatureCollection)
    (stats : option JS.Exn) : World.t :=
  {| World.OSMResponse := Types.GeoJSONFeatureCollection;
     World.Number_toString := QueryBuilder.intToString;
     World.Date_toISOString := fun _ => "2024-01-02T03:04:05.678Z";
     World.clock := sampleClock;
     World.config := sampleConfig;
     World.executeQuery := fun _ => answer;
     World.osmtogeojson := JS.Normal;
     World.ensureDir := None;
     World.writeFileSync := fun _ => true;
     World.connect := JS.Normal [];
     World.rejects := fun _ => false;
     World.getStats := stats |}.

Definition rateLimited : JS.Completion Types.GeoJSONFeatureCollection :=
  JS.Throw (JS.Error "HTTP error! status: 429").

Definition ringlessWay : Types.GeoJSONFeature.t :=
  {| Types.GeoJSONFeature.id := Some (JS.VStr "way/4");
     Types.GeoJSONFeature.geometry := Some (Types.Polygon []);
     Types.GeoJSONFeature.properties := None |}.

(** * Properties *)

(** ** queryBuilder *)

Section QueryBuilderProperties.
Import QueryBuilder.

Variable Number_toString : Qc -> string.

Lemma pushTags_fold_length key bboxStr ts filters :
  length
    (fold_left
       (fun (acc : list string) tag =>
          ((acc ++ [nodeClause key tag bboxStr])
             ++ [wayClause key tag bboxStr])%list)
       ts filters)
  = (length filters + 2 * length ts)%nat.
Proof.
  revert filters. induction ts as [|tag ts IH]; intros filters; simpl.
  - lia.
  - rewrite IH, !length_app. simpl. lia.
Qed.

Lemma pushTags_length key bboxStr tags filters :
  length (pushTags key bboxStr tags filters)
  = (length filters + 2 * length (listed tags))%nat.
Proof.
  destruct tags as [ts|]; simpl; [|lia].
  destruct ts as [|t ts]; [simpl; lia|].
  change (0 <? length (t :: ts))%nat with true. cbv iota.
  apply pushTags_fold_length.
Qed.

Lemma pushTags_fold_app key bboxStr ts filters :
  fold_left
    (fun (acc : list string) tag =>
       ((acc ++ [nodeClause key tag bboxStr])
          ++ [wayClause key tag bboxStr])%list)
    ts filters
  = (filters
       ++ flat_map
            (fun tag => [nodeClause key tag bboxStr; wayClause key tag bboxStr])
            ts)%list.
Proof.
  revert filters. induction ts as [|tag ts IH]; intros filters; simpl.
  - by rewrite app_nil_r.
  - rewrite IH, <- !app_assoc. reflexivity.
Qed.

Lemma pushTags_app key bboxStr tags filters :
  pushTags key bboxStr tags filters
  = (filters
       ++ flat_map
            (fun tag => [nodeClause key tag bboxStr; wayClause key tag bboxStr])
            (listed tags))%list.
Proof.
  destruct tags as [ts|]; simpl; [|by rewrite app_nil_r].
  destruct ts as [|t ts]; [by rewrite app_nil_r|].
  change (0 <? length (t :: ts))%nat with true. cbv iota.
  apply pushTags_fold_app.
Qed.

Lemma comprehensiveFilters_length this config :
  length (comprehensiveFilters Number_toString this config)
  = (2 * totalValues config)%nat.
Proof.
  unfold comprehensiveFilters, totalValues.
  rewrite !pushTags_length. simpl. lia.
Qed.

Lemma totalValues_addValues d extra config :
  totalValues (addValues d extra config)
  = (totalValues config + length extra)%nat.
Proof.
  destruct d; unfold totalValues, addValues; simpl;
    rewrite length_app; lia.
Qed.

Lemma totalValues_setTags_empty d ts config :
  listed (tagsOf d config) = [] -> listed ts = [] ->
  totalValues (setTags d ts config) = totalValues config.
Proof.
  intros H1 H2. destruct d; unfold totalValues; simpl in *;
    rewrite H1, H2; reflexivity.
Qed.

(** The builders read the builder object through [getBboxString] only. *)
Lemma builders_read_bbox_string this1 this2 key tags config :
  getBboxString Number_toString this1 = getBboxString Number_toString this2 ->
  buildKeyQuery Number_toString key this1 tags
    = buildKeyQuery Number_toString key this2 tags
  /\ buildComprehensiveQuery Number_toString this1 config
     = buildComprehensiveQuery Number_toString this2 config.
Proof.
  intros H.
  unfold buildKeyQuery, buildComprehensiveQuery, comprehensiveFilters.
  by rewrite H.
Qed.

End QueryBuilderProperties.

Example sample_bbox_string :
  QueryBuilder.getBboxString QueryBuilder.intToString sampleBuilder
  = "5,79,10,82".
Proof. reflexivity. Qed.

(** *** The text of a query, line by line *)

Lemma append_assoc (a b c : string) : (a +:+ b) +:+ c = a +:+ b +:+ c.
Proof.
  induction a as [|x a IH]; [done|].
  change (String x (a +:+ b) +:+ c = String x (a +:+ b +:+ c)).
  change (String x ((a +:+ b) +:+ c) = String x (a +:+ b +:+ c)).
  by rewrite IH.
Qed.

Lemma lines_nonempty s : lines s <> [].
Proof.
  induction s as [|c s IH]; cbn; [done|].
  destruct (Ascii.eqb c newline); [done|]. by destruct (lines s).
Qed.

Lemma lineFree_app a b : lineFree (a +:+ b) = lineFree a && lineFree b.
Proof.
  induction a as [|c a IH]; [done|].
  change (String c a +:+ b) with (String c (a +:+ b)). cbn.
  by rewrite IH, andb_assoc.
Qed.

(** The lines of a text that starts with a line-free piece. *)
Lemma lines_app a b :
  lineFree a = true ->
  lines (a +:+ b)
  = match lines b with
    | l :: ls => (a +:+ l) :: ls
    | [] => [a]
    end.
Proof.
  induction a as [|c a IH]; intros Ha.
  - change ("" +:+ b) with b. pose proof (lines_nonempty b).
    by destruct (lines b).
  - change (String c a +:+ b) with (String c (a +:+ b)).
    cbn in Ha. apply andb_true_iff in Ha as [Hc Ha].
    cbn [lines]. apply negb_true_iff in Hc. rewrite Hc, (IH Ha).
    pose proof (lines_nonempty b). by destruct (lines b).
Qed.

Lemma lines_newline b : lines (nl +:+ b) = "" :: lines b.
Proof. reflexivity. Qed.

Lemma append_nil_r (a : string) : a +:+ "" = a.
Proof.
  induction a as [|c a IH]; [done|].
  change (String c a +:+ "") with (String c (a +:+ "")). by rewrite IH.
Qed.

Lemma lines_footer : lines QueryBuilder.footer = "" :: closing.
Proof. reflexivity. Qed.

(** The lines of the clauses and of what follows them: one line per
    clause, indented by two blanks. *)
Lemma lines_clauses (f : string) (fs : list string) :
  forallb lineFree (f :: fs) = true ->
  lines ("  " +:+ join QueryBuilder.sep (f :: fs) +:+ QueryBuilder.footer)
  = map (fun clause => "  " +:+ clause) (f :: fs) ++ closing.
Proof.
  revert f. induction fs as [|g fs IH]; intros f Hfree;
    cbn [forallb] in Hfree; apply andb_true_iff in Hfree as [Hf Hfs].
  - cbn [join map app]. rewrite <- append_assoc.
    rewrite lines_app, lines_footer, append_nil_r; [done|].
    by rewrite lineFree_app, Hf.
  - change (join QueryBuilder.sep (f :: g :: fs))
      with (f +:+ QueryBuilder.sep +:+ join QueryBuilder.sep (g :: fs)).
    unfold QueryBuilder.sep at 1.
    rewrite !append_assoc. rewrite <- (append_assoc "  " f).
    rewrite lines_app by (by rewrite lineFree_app, Hf).
    rewrite lines_newline, (IH g Hfs). cbn [map app].
    by rewrite append_nil_r.
Qed.

Lemma lines_query (timeout : string) (fs : list string) :
  lineFree timeout = true ->
  forallb lineFree fs = true ->
  lines (QueryBuilder.header timeout +:+ join QueryBuilder.sep fs
           +:+ QueryBuilder.footer)
  = [""; "[out:json][timeout:" +:+ timeout +:+ "];"; "("]
    ++ match fs with
       | [] => ["  "]
       | _ => map (fun clause => "  " +:+ clause) fs
       end
    ++ closing.
Proof.
  intros Ht Hfs. unfold QueryBuilder.header.
  rewrite !append_assoc, lines_newline.
  rewrite <- (append_assoc "[out:json][timeout:" timeout).
  rewrite <- (append_assoc _ "];").
  rewrite lines_app by (by rewrite !lineFree_app, Ht).
  rewrite lines_newline, (lines_app "(") by done.
  rewrite lines_newline. cbn [app].
  rewrite (append_assoc "[out:json][timeout:" timeout "];").
  change ("(" +:+ "") with "(". rewrite append_nil_r.
  apply (f_equal (fun l => "" :: ("[out:json][timeout:" +:+ timeout +:+ "];")
                              :: "(" :: l)).
  destruct fs as [|f fs].
  - reflexivity.
  - by apply lines_clauses.
Qed.

Section ClauseLines.
Import QueryBuilder.

Variable Number_toString : Qc -> string.

Lemma comprehensiveFilters_expected this config :
  comprehensiveFilters Number_toString this config
  = expectedClauses Number_toString this config.
Proof.
  unfold comprehensiveFilters, expectedClauses.
  rewrite !pushTags_app. cbn [app]. by rewrite <- !app_assoc.
Qed.

Lemma clausePair_lineFree bboxStr key ts :
  lineFree bboxStr = true -> lineFree key = true ->
  forallb lineFree ts = true ->
  forallb lineFree (flat_map (clausePair bboxStr key) ts) = true.
Proof.
  intros Hb Hk. induction ts as [|tag ts IH]; [done|].
  cbn [forallb flat_map clausePair app]. intros [Ht Hts]%andb_true_iff.
  unfold nodeClause, wayClause, clause.
  rewrite !lineFree_app, Hb, Hk, Ht. cbn. by apply IH.
Qed.

Lemma expectedClauses_lineFree this config :
  lineFree (getBboxString Number_toString this) = true ->
  forallb lineFree (allValues config) = true ->
  forallb lineFree (expectedClauses Number_toString this config) = true.
Proof.
  unfold allValues, expectedClauses. cbv zeta. rewrite !forallb_app.
  intros Hb (H1 & (H2 & (H3 & (H4 & H5)%andb_true_iff)%andb_true_iff)
               %andb_true_iff)%andb_true_iff.
  by rewrite !clausePair_lineFree.
Qed.

(** Of the two lines a tag value gives, one is a node clause and one a
    way clause. *)
Lemma clausePair_lines kind bboxStr key ts :
  kind = "node" \/ kind = "way" ->
  length
    (List.filter (String.prefix ("  " +:+ kind +:+ "["))
       (map (fun clause => "  " +:+ clause)
          (flat_map (clausePair bboxStr key) ts)))
  = length ts.
Proof.
  intros Hkind. induction ts as [|tag ts IH]; [done|].
  cbn [flat_map clausePair app map List.filter].
  destruct Hkind as [->| ->].
  - change (String.prefix ("  " +:+ "node" +:+ "[")
              ("  " +:+ nodeClause key tag bboxStr)) with true.
    change (String.prefix ("  " +:+ "node" +:+ "[")
              ("  " +:+ wayClause key tag bboxStr)) with false.
    cbn [length]. by rewrite IH.
  - change (String.prefix ("  " +:+ "way" +:+ "[")
              ("  " +:+ nodeClause key tag bboxStr)) with false.
    change (String.prefix ("  " +:+ "way" +:+ "[")
              ("  " +:+ wayClause key tag bboxStr)) with true.
    cbn [length]. by rewrite IH.
Qed.

Lemma clauseLines_query kind this config :
  kind = "node" \/ kind = "way" ->
  lineFree (getBboxString Number_toString this) = true ->
  forallb lineFree (allValues config) = true ->
  length (clauseLines kind (buildComprehensiveQuery Number_toString this config))
  = totalValues config.
Proof.
  intros Hkind Hb Hvalues. unfold clauseLines, buildComprehensiveQuery.
  rewrite comprehensiveFilters_expected.
  rewrite lines_query by (done || by apply expectedClauses_lineFree).
  rewrite !List.filter_app, !length_app.
  assert (Hfixed :
    forall l, In l ([""; "[out:json][timeout:" +:+ "300" +:+ "];"; "("; "  "]
                      ++ closing) ->
              String.prefix ("  " +:+ kind +:+ "[") l = false).
  { intros l Hl. destruct Hkind as [-> | ->];
      repeat (destruct Hl as [<-|Hl]; [reflexivity|]); done. }
  assert (Hnone : forall ls,
             (forall l, In l ls ->
                In l ([""; "[out:json][timeout:" +:+ "300" +:+ "];"; "("; "  "]
                        ++ closing)) ->
             length (List.filter (String.prefix ("  " +:+ kind +:+ "[")) ls)
             = 0%nat).
  { intros ls Hls. induction ls as [|l ls IH]; [done|].
    cbn [List.filter]. rewrite Hfixed by (apply Hls; by left).
    apply IH. intros l' Hl'. apply Hls. by right. }
  rewrite (Hnone [""; _; "("]), (Hnone closing).
  2:{ intros l Hl. apply in_or_app. by right. }
  2:{ intros l Hl. apply in_or_app. left.
      repeat (destruct Hl as [<-|Hl]; [cbn; tauto|]). done. }
  destruct (expectedClauses Number_toString this config) as [|f fs] eqn:Hfs.
  - rewrite (Hnone ["  "]).
    2:{ intros l [<-|[]]. apply in_or_app. left. cbn. tauto. }
    apply (f_equal length) in Hfs. unfold expectedClauses in Hfs.
    cbv zeta in Hfs. rewrite !length_app in Hfs.
    assert (Hlen : forall b k ts,
               length (flat_map (clausePair b k) ts) = (2 * length ts)%nat).
    { intros b k ts. induction ts; cbn in *; lia. }
    rewrite !Hlen in Hfs. unfold totalValues. cbn in Hfs. lia.
  - rewrite <- Hfs. unfold expectedClauses. cbv zeta.
    rewrite !map_app, !List.filter_app, !length_app.
    rewrite !clausePair_lines by done. unfold totalValues. lia.
Qed.

End ClauseLines.

Lemma allValues_addValues d extra config :
  forallb lineFree (allValues config) = true ->
  forallb lineFree extra = true ->
  forallb lineFree (allValues (QueryBuilder.addValues d extra config)) = true.
Proof.
  intros Hall Hextra. unfold allValues in *.
  destruct config as [[t1|] [t2|] [t3|] [t4|] [t5|]]; destruct d;
    cbn in *; rewrite ?forallb_app in *;
    repeat match goal with
           | H : _ && _ = true |- _ => apply andb_true_iff in H as [? ?]
           end;
    repeat (apply andb_true_iff; split); done.
Qed.

Lemma expectedClauses_no_values toS this d ts config :
  QueryBuilder.listed ts = [] ->
  expectedClauses toS this (QueryBuilder.setTags d ts config)
  = expectedClauses toS this (QueryBuilder.setTags d None config).
Proof.
  intros Hts. destruct ts as [[|t ts]|]; [|discriminate|done].
  by destruct d.
Qed.

(** C7. What a query-builder method returns is settled by the text of
    the bounding box and by the tag values listed: two invocations, on
    whatever builder objects, that agree on these return the same
    string, byte for byte.  Nothing else is read: an absent tag list and
    an empty one are not told apart, nor two boxes or two renderings of
    numbers that give the same box text. *)
Theorem query_builders_deterministic :
  forall (toString1 toString2 : Qc -> string)
         (this1 this2 : QueryBuilder.OverpassQueryBuilder)
         (tags : list string)
         (config1 config2 : QueryBuilder.TagConfig),
    QueryBuilder.getBboxString toString1 this1
      = QueryBuilder.getBboxString toString2 this2 ->
    (forall d,
        QueryBuilder.listed (QueryBuilder.tagsOf d config1)
        = QueryBuilder.listed (QueryBuilder.tagsOf d config2)) ->
    QueryBuilder.buildTourismQuery toString1 this1 tags
      = QueryBuilder.buildTourismQuery toString2 this2 tags
    /\ QueryBuilder.buildAmenityQuery toString1 this1 tags
       = QueryBuilder.buildAmenityQuery toString2 this2 tags
    /\ QueryBuilder.buildHistoricQuery toString1 this1 tags
       = QueryBuilder.buildHistoricQuery toString2 this2 tags
    /\ QueryBuilder.buildNaturalQuery toString1 this1 tags
       = QueryBuilder.buildNaturalQuery toString2 this2 tags
    /\ QueryBuilder.buildLeisureQuery toString1 this1 tags
       = QueryBuilder.buildLeisureQuery toString2 this2 tags
    /\ QueryBuilder.buildComprehensiveQuery toString1 this1 config1
       = QueryBuilder.buildComprehensiveQuery toString2 this2 config2.
Proof.
  intros toS1 toS2 this1 this2 tags config1 config2 Hbbox Hlisted.
  assert (Hkey : forall key,
             QueryBuilder.buildKeyQuery toS1 key this1 tags
             = QueryBuilder.buildKeyQuery toS2 key this2 tags).
  { intros key. unfold QueryBuilder.buildKeyQuery. by rewrite Hbbox. }
  repeat (split; [apply Hkey|]).
  unfold QueryBuilder.buildComprehensiveQuery.
  rewrite !comprehensiveFilters_expected. unfold expectedClauses.
  rewrite Hbbox.
  pose proof (Hlisted QueryBuilder.Tourism) as H1.
  pose proof (Hlisted QueryBuilder.Amenity) as H2.
  pose proof (Hlisted QueryBuilder.Historic) as H3.
  pose proof (Hlisted QueryBuilder.Natural) as H4.
  pose proof (Hlisted QueryBuilder.Leisure) as H5.
  cbn [QueryBuilder.tagsOf] in H1, H2, H3, H4, H5.
  by rewrite H1, H2, H3, H4, H5.
Qed.

Lemma query_builders_deterministic_witness :
  QueryBuilder.buildTourismQuery QueryBuilder.intToString sampleBuilder
    ["museum"; "hotel"]
  = QueryBuilder.buildTourismQuery numeral
      {| QueryBuilder.bbox := QueryBuilder.bbox sampleBuilder |}
      ["museum"; "hotel"]
  /\ QueryBuilder.buildComprehensiveQuery QueryBuilder.intToString
       sampleBuilder (QueryBuilder.setTags QueryBuilder.Leisure (Some []) oneTag)
     = QueryBuilder.buildComprehensiveQuery numeral
         {| QueryBuilder.bbox := QueryBuilder.bbox sampleBuilder |} oneTag.
Proof.
  destruct (query_builders_deterministic QueryBuilder.intToString numeral
              sampleBuilder
              {| QueryBuilder.bbox := QueryBuilder.bbox sampleBuilder |}
              ["museum"; "hotel"]
              (QueryBuilder.setTags QueryBuilder.Leisure (Some []) oneTag)
              oneTag)
    as (Htourism & _ & _ & _ & _ & Hall).
  - reflexivity.
  - intros []; reflexivity.
  - by split.
Defined.

(** C8. The query [buildComprehensiveQuery] returns holds, between its
    header and its footer, one node clause and one way clause for every
    listed tag value, dimension after dimension; read back from the
    text, the node clauses and the way clauses are each as many as the
    listed values, so the clauses are twice as many; adding values to a
    tag list yields a query with strictly more clauses, never fewer; an
    empty or an absent tag list gives the same query and so contributes
    no clause (the builder has no failing path).  Counting in the text
    supposes that no tag value and no bound of the box brings a line
    feed in. *)
Theorem comprehensive_query_clause_count :
  forall (Number_toString : Qc -> string)
         (this : QueryBuilder.OverpassQueryBuilder)
         (config : QueryBuilder.TagConfig),
    lineFree (QueryBuilder.getBboxString Number_toString this) = true ->
    forallb lineFree (allValues config) = true ->
    QueryBuilder.buildComprehensiveQuery Number_toString this config
      = QueryBuilder.header "300"
        +:+ join QueryBuilder.sep (expectedClauses Number_toString this config)
        +:+ QueryBuilder.footer
    /\ length (expectedClauses Number_toString this config)
       = (2 * QueryBuilder.totalValues config)%nat
    /\ length
         (clauseLines "node"
            (QueryBuilder.buildComprehensiveQuery Number_toString this config))
       = QueryBuilder.totalValues config
    /\ length
         (clauseLines "way"
            (QueryBuilder.buildComprehensiveQuery Number_toString this config))
       = QueryBuilder.totalValues config
    /\ (forall d extra,
          extra <> [] -> forallb lineFree extra = true ->
          (clauseCount
             (QueryBuilder.buildComprehensiveQuery Number_toString this config)
           < clauseCount
               (QueryBuilder.buildComprehensiveQuery Number_toString this
                  (QueryBuilder.addValues d extra config)))%nat)
    /\ (forall d ts,
          QueryBuilder.listed ts = [] ->
          QueryBuilder.buildComprehensiveQuery Number_toString this
            (QueryBuilder.setTags d ts config)
          = QueryBuilder.buildComprehensiveQuery Number_toString this
              (QueryBuilder.setTags d None config)).
Proof.
  intros toS this config Hbbox Hvalues.
  split; [|split; [|split; [|split; [|split]]]].
  - unfold QueryBuilder.buildComprehensiveQuery.
    by rewrite comprehensiveFilters_expected.
  - rewrite <- comprehensiveFilters_expected.
    apply comprehensiveFilters_length.
  - apply clauseLines_query; [by left|done|done].
  - apply clauseLines_query; [by right|done|done].
  - intros d extra Hne Hextra. unfold clauseCount.
    rewrite !clauseLines_query
      by (done || (by left) || (by right) || by apply allValues_addValues).
    rewrite totalValues_addValues. destruct extra; [done|]. cbn. lia.
  - intros d ts Hts. unfold QueryBuilder.buildComprehensiveQuery.
    by rewrite !comprehensiveFilters_expected, (expectedClauses_no_values _ _ _ ts).
Qed.

Lemma comprehensive_query_clause_count_witness :
  length
    (clauseLines "node"
       (QueryBuilder.buildComprehensiveQuery QueryBuilder.intToString
          sampleBuilder twoTags))
  = QueryBuilder.totalValues twoTags
  /\ (clauseCount
        (QueryBuilder.buildComprehensiveQuery QueryBuilder.intToString
           sampleBuilder twoTags)
      < clauseCount
          (QueryBuilder.buildComprehensiveQuery QueryBuilder.intToString
             sampleBuilder
             (QueryBuilder.addValues QueryBuilder.Leisure ["park"] twoTags)))%nat
  /\ QueryBuilder.buildComprehensiveQuery QueryBuilder.intToString sampleBuilder
       (QueryBuilder.setTags QueryBuilder.Leisure (Some []) twoTags)
     = QueryBuilder.buildComprehensiveQuery QueryBuilder.intToString
         sampleBuilder (QueryBuilder.setTags QueryBuilder.Leisure None twoTags).
Proof.
  destruct (comprehensive_query_clause_count QueryBuilder.intToString
              sampleBuilder twoTags eq_refl eq_refl)
    as (_ & _ & Hnode & _ & Hmore & Hempty).
  split; [exact Hnode|]. split.
  - apply Hmore; [discriminate|reflexivity].
  - apply Hempty. reflexivity.
Defined.

Example sample_clause_lines :
  clauseLines "node"
    (QueryBuilder.buildComprehensiveQuery QueryBuilder.intToString
       sampleBuilder twoTags)
  = ["  " +:+ QueryBuilder.nodeClause "tourism" "museum" "5,79,10,82";
     "  " +:+ QueryBuilder.nodeClause "amenity" "cafe" "5,79,10,82"].
Proof. reflexivity. Qed.

(** C9, as the code has it. The comprehensive query embeds the fixed
    execution-time budget 300, whatever the number of clauses; the five
    single-dimension builders embed 180, which is shorter. *)
Theorem comprehensive_timeout_fixed :
  forall (Number_toString : Qc -> string)
         (this : QueryBuilder.OverpassQueryBuilder)
         (config : QueryBuilder.TagConfig) (tags : list string),
    QueryBuilder.queryTimeout
      (QueryBuilder.buildComprehensiveQuery Number_toString this config)
      = Some 300%nat
    /\ QueryBuilder.queryTimeout
         (QueryBuilder.buildTourismQuery Number_toString this tags) = Some 180%nat
    /\ QueryBuilder.queryTimeout
         (QueryBuilder.buildAmenityQuery Number_toString this tags) = Some 180%nat
    /\ QueryBuilder.queryTimeout
         (QueryBuilder.buildHistoricQuery Number_toString this tags) = Some 180%nat
    /\ QueryBuilder.queryTimeout
         (QueryBuilder.buildNaturalQuery Number_toString this tags) = Some 180%nat
    /\ QueryBuilder.queryTimeout
         (QueryBuilder.buildLeisureQuery Number_toString this tags) = Some 180%nat
    /\ (180 < 300)%nat.
Proof.
  intros toS this config tags.
  repeat split; try reflexivity. lia.
Qed.

(** C9, as stated, fails: queries of zero, two and four clauses all
    carry the budget 300, so the budget is no multiple [k * clauses]. *)
Lemma comprehensive_timeout_not_proportional :
  (sampleBudget noTags = Some 300%nat /\ sampleClauses noTags = 0%nat)
  /\ (sampleBudget oneTag = Some 300%nat /\ sampleClauses oneTag = 2%nat)
  /\ (sampleBudget twoTags = Some 300%nat /\ sampleClauses twoTags = 4%nat)
  /\ ~ (exists k : Q, forall c n,
          sampleClauses c <> 0%nat -> sampleBudget c = Some n ->
          (inject_Z (Z.of_nat n) == k * inject_Z (Z.of_nat (sampleClauses c)))%Q).
Proof.
  repeat split; try reflexivity.
  intros [k Hk].
  pose proof (Hk oneTag 300%nat ltac:(discriminate) eq_refl) as H1.
  pose proof (Hk twoTags 300%nat ltac:(discriminate) eq_refl) as H2.
  change (sampleClauses oneTag) with 2%nat in H1.
  change (sampleClauses twoTags) with 4%nat in H2.
  change (inject_Z (Z.of_nat 300)) with 300%Q in H1, H2.
  change (inject_Z (Z.of_nat 2)) with 2%Q in H1.
  change (inject_Z (Z.of_nat 4)) with 4%Q in H2.
  lra.
Qed.

(** ** osmFetcher *)

Section CentroidLemmas.
Import JS Types OsmFetcher.

Lemma centroid_sums (coords : list Position) (a b : Number.t) :
  fold_left
    (fun '(sumLon, sumLat) (coord : Position) =>
       (Number.add sumLon coord.1, Number.add sumLat coord.2))
    coords (a, b)
  = (fold_left Number.add (map fst coords) a,
     fold_left Number.add (map snd coords) b).
Proof.
  revert a b.
  induction coords as [|[lon lat] coords IH]; intros a b;
    cbn [fold_left map fst snd]; [done|].
  by rewrite IH.
Qed.

Lemma centroid_of_vertices (coords : list Position) :
  (let '(sumLon, sumLat) :=
     fold_left
       (fun '(sumLon, sumLat) (coord : Position) =>
          (Number.add sumLon coord.1, Number.add sumLat coord.2))
       coords (Number.zero, Number.zero) in
   @Normal (option Position)
     (Some (Number.div sumLon (ofNat (length coords)),
            Number.div sumLat (ofNat (length coords)))))
  = Normal (Some (vertexMean coords)).
Proof.
  rewrite centroid_sums.
  unfold vertexMean, runningMean, runningSum, ofNat.
  by rewrite !length_map.
Qed.

Lemma calculateCentroid_ring (g : GeoJSONGeometry) (ring : list Position) :
  ring <> [] ->
  match g with
  | Polygon (r :: _) => r = ring
  | LineString r => r = ring
  | MultiPolygon ((r :: _) :: _) => r = ring
  | _ => False
  end ->
  calculateCentroid g = Normal (Some (vertexMean ring)).
Proof.
  intros Hne Hg. unfold calculateCentroid.
  destruct g as [c|[|r rs]|r|[|[|r rs] ps]]; try done; subst r;
    (destruct ring as [|v vs]; [done|]);
    change (length (v :: vs) =? 0)%nat with false; cbv iota;
    by apply centroid_of_vertices.
Qed.

End CentroidLemmas.

Section OsmFetcherLemmas.
Import JS Types OsmFetcher.

Lemma vertexMean_square : vertexMean square = (Number.ofQ 1, Number.ofQ 1).
Proof. by vm_compute. Qed.

Variable Number_toString : Qc -> string.
Variable clock : nat -> Date.

Lemma processFeature_Normal feature t p t' :
  processFeature Number_toString clock feature t = Normal (p, t') ->
  t' = S t
  /\ (exists coordinates,
        resolveCoordinates (GeoJSONFeature.geometry feature) = Normal coordinates
        /\ ProcessedPlace.location p
           = (fun c => {| point_coordinates := c |}) <$> coordinates)
  /\ ProcessedPlace.osm_id p
     = String_ Number_toString
         (orElse
            (or (GeoJSONFeature.id feature)
               (default ∅ (GeoJSONFeature.properties feature) !! "id"))
            (VStr ""))
  /\ ProcessedPlace.geometry p = GeoJSONFeature.geometry feature
  /\ ProcessedPlace.fetched_at p = clock t.
Proof.
  unfold processFeature, mbind, M_bind, bind, lift, newDate, mret, M_ret, ret.
  destruct (resolveCoordinates (GeoJSONFeature.geometry feature))
    as [coordinates|e]; [|discriminate].
  intros [= <- <-]. cbn.
  split; [reflexivity|]. split; [|done].
  exists coordinates. split; [reflexivity|]. by destruct coordinates.
Qed.

Lemma processFeature_total feature t coordinates :
  resolveCoordinates (GeoJSONFeature.geometry feature) = Normal coordinates ->
  exists p, processFeature Number_toString clock feature t = Normal (p, S t).
Proof.
  intros H.
  unfold processFeature, mbind, M_bind, bind, lift, newDate, mret, M_ret, ret.
  rewrite H. eauto.
Qed.

Lemma resolveCoordinates_located geometry coordinates :
  resolveCoordinates geometry = Normal coordinates ->
  bool_decide (coordinates <> None) = located geometry.
Proof.
  destruct geometry as [[c|[|[|v r] rs]|[|v r]|ps]|]; cbn; try congruence;
    try (intros [= <-]; reflexivity).
  - destruct (fold_left _ _ _); intros [= <-]; reflexivity.
  - destruct (fold_left _ _ _); intros [= <-]; reflexivity.
Qed.

Lemma resolveCoordinates_total geometry :
  geometry <> Some (Polygon []) ->
  exists coordinates, resolveCoordinates geometry = Normal coordinates.
Proof.
  destruct geometry as [[c|[|r rs]|r|ps]|]; cbn; try (by eauto).
  - unfold calculateCentroid. destruct (length r =? 0)%nat; [by eauto|].
    destruct (fold_left _ _ _). by eauto.
  - unfold calculateCentroid. destruct (length r =? 0)%nat; [by eauto|].
    destruct (fold_left _ _ _). by eauto.
Qed.

Lemma mapM_processFeature_Normal fs t ps t' :
  mapM (processFeature Number_toString clock) fs t = Normal (ps, t') ->
  t' = (t + length fs)%nat
  /\ Forall2
       (fun f p =>
          exists s, processFeature Number_toString clock f s = Normal (p, S s))
       fs ps.
Proof.
  revert t ps t'. induction fs as [|f fs IH]; intros t ps t'; cbn.
  - intros [= <- <-]. split; [lia|constructor].
  - unfold bind at 1.
    destruct (processFeature Number_toString clock f t) as [[p t1]|e] eqn:Hf;
      [|discriminate].
    unfold bind at 1.
    destruct (mapM _ fs t1) as [[ps' t2]|e] eqn:Hfs; [|discriminate].
    cbn. intros [= <- <-].
    destruct (processFeature_Normal _ _ _ _ Hf) as [-> _].
    destruct (IH _ _ _ Hfs) as [-> Hall].
    split; [lia|]. constructor; [by eauto|done].
Qed.

Lemma mapM_processFeature_total fs t :
  Forall (fun f => GeoJSONFeature.geometry f <> Some (Polygon [])) fs ->
  exists ps,
    mapM (processFeature Number_toString clock) fs t
    = Normal (ps, (t + length fs)%nat).
Proof.
  intros Hall. revert t. induction Hall as [|f fs Hf _ IH]; intros t; cbn.
  - exists []. unfold ret. do 2 f_equal. lia.
  - destruct (resolveCoordinates_total _ Hf) as [c Hc].
    destruct (processFeature_total f t c Hc) as [p Hp].
    destruct (IH (S t)) as [ps Hps].
    exists (p :: ps). unfold bind. rewrite Hp, Hps. cbn.
    unfold ret. do 2 f_equal. lia.
Qed.

Lemma hasLocation_located f p s :
  processFeature Number_toString clock f s = Normal (p, S s) ->
  hasLocation p = located (GeoJSONFeature.geometry f).
Proof.
  intros H. destruct (processFeature_Normal _ _ _ _ H)
    as (_ & (c & Hc & Hloc) & _).
  rewrite <- (resolveCoordinates_located _ _ Hc).
  unfold hasLocation. rewrite Hloc. by destruct c.
Qed.

(** What [processForMongoDB] keeps: as many places as there are features
    with a Point, a Polygon with a non-empty outer ring or a LineString
    with a vertex. *)
Lemma processForMongoDB_count geojson t out t' :
  processForMongoDB Number_toString clock geojson t = Normal (out, t') ->
  length out
  = length (List.filter (fun f => located (GeoJSONFeature.geometry f))
              (features geojson)).
Proof.
  unfold processForMongoDB, mbind, M_bind, bind, mret, M_ret, ret.
  destruct (mapM _ _ t) as [[ps t1]|e] eqn:Hmap; [|discriminate].
  intros [= <- <-].
  destruct (mapM_processFeature_Normal _ _ _ _ Hmap) as [_ Hall].
  clear Hmap.
  induction Hall as [|f p fs ps [s Hfp] _ IH]; [reflexivity|].
  cbn. rewrite (hasLocation_located _ _ _ Hfp).
  destruct (located _); cbn; by rewrite IH.
Qed.

(** [processForMongoDB] returns when no feature is a Polygon without
    rings, after one clock reading per feature. *)
Lemma processForMongoDB_total geojson t :
  Forall (fun f => GeoJSONFeature.geometry f <> Some (Polygon []))
    (features geojson) ->
  exists out,
    processForMongoDB Number_toString clock geojson t
    = Normal (out, (t + length (features geojson))%nat).
Proof.
  intros Hall. destruct (mapM_processFeature_total _ t Hall) as [ps Hps].
  exists (List.filter hasLocation ps).
  unfold processForMongoDB, mbind, M_bind, bind. by rewrite Hps.
Qed.

(** A Polygon without any ring makes [calculateCentroid] throw, and with
    it the whole of [processForMongoDB]. *)
Lemma processForMongoDB_throws id props rest t :
  processForMongoDB Number_toString clock
    {| features :=
         {| GeoJSONFeature.id := id;
            GeoJSONFeature.geometry := Some (Polygon []);
            GeoJSONFeature.properties := props |} :: rest |} t
  = Throw TypeError.
Proof. reflexivity. Qed.

End OsmFetcherLemmas.

(** The normaliser on a point feature tagged tourism=museum at (80,7):
    one place, with that location, category and subcategory. *)
Example normalise_museum_node :
  OsmFetcher.processForMongoDB QueryBuilder.intToString sampleClock
    {| Types.features := [museumNode] |} 0
  = JS.Normal ([placeAt "node/1" "Museum" 80 7 (sampleClock 0)], 1%nat).
Proof. reflexivity. Qed.

(** C2. For every tag map the category is the first key, in the order
    tourism, amenity, historic, natural, leisure, that is present with a
    non-empty value, and the subcategory is the value of that key; with
    none of the five keys the category is "other" and the subcategory
    "unknown".  A map with both tourism and amenity resolves to
    "tourism", not "amenity". *)
Theorem category_follows_priority :
  forall tags : gmap string string,
    let t := Types.TagsObject ((fun s => JS.VStr s) <$> tags) in
    (OsmFetcher.determineCategory t, OsmFetcher.determineSubcategory t)
      = (let '(category, subcategory) := resolveCategory tags in
         (category, JS.VStr subcategory))
    /\ (List.find (present tags) priority = None ->
        OsmFetcher.determineCategory t = "other"
        /\ OsmFetcher.determineSubcategory t = JS.VStr "unknown")
    /\ (present tags "tourism" = true -> present tags "amenity" = true ->
        OsmFetcher.determineCategory t = "tourism"
        /\ OsmFetcher.determineCategory t <> "amenity"
        /\ Some (OsmFetcher.determineSubcategory t)
           = (fun s => JS.VStr s) <$> tags !! "tourism").
Proof.
  intros tags t. subst t.
  unfold OsmFetcher.determineCategory, OsmFetcher.determineSubcategory,
    resolveCategory, priority, present, JS.or, JS.orElse, OsmFetcher.get.
  cbn [List.find]. rewrite !lookup_fmap.
  destruct (tags !! "tourism") as [v1|] eqn:E1;
    destruct (tags !! "amenity") as [v2|] eqn:E2;
    destruct (tags !! "historic") as [v3|] eqn:E3;
    destruct (tags !! "natural") as [v4|] eqn:E4;
    destruct (tags !! "leisure") as [v5|] eqn:E5;
    repeat match goal with
      | v : string |- _ =>
          lazymatch goal with
          | _ : v = "" |- _ => fail
          | _ : v <> "" |- _ => fail
          | _ => destruct (decide (v = ""))
          end
      end;
    repeat progress
      (cbn;
       repeat match goal with
         | H : ?v = "" |- context [bool_decide (?v = "")] =>
             rewrite (bool_decide_eq_true_2 (v = "") H)
         | H : ?v <> "" |- context [bool_decide (?v = "")] =>
             rewrite (bool_decide_eq_false_2 (v = "") H)
         end);
    cbn; rewrite ?E1, ?E2, ?E3, ?E4, ?E5; cbn;
    (split; [reflexivity|split]; [intros; try discriminate; by split|]);
    intros; try discriminate; repeat split; try reflexivity; discriminate.
Qed.

Lemma category_follows_priority_witness :
  OsmFetcher.determineCategory (Types.TagsObject ((fun s => JS.VStr s) <$> museumCafe)) = "tourism"
  /\ OsmFetcher.determineCategory (Types.TagsObject ((fun s => JS.VStr s) <$> museumCafe))
     <> "amenity"
  /\ Some (OsmFetcher.determineSubcategory (Types.TagsObject ((fun s => JS.VStr s) <$> museumCafe)))
     = (fun s => JS.VStr s) <$> museumCafe !! "tourism".
Proof.
  apply (category_follows_priority museumCafe); reflexivity.
Defined.

(** Any feature with MultiPolygon geometry leaves [processForMongoDB]
    without a place: the callback computes no coordinates for it. *)
Lemma multipolygon_never_located
    (Number_toString : Qc -> string) (clock : nat -> JS.Date)
    id props polys t :
  OsmFetcher.processForMongoDB Number_toString clock
    {| Types.features :=
         [{| Types.GeoJSONFeature.id := id;
             Types.GeoJSONFeature.geometry := Some (Types.MultiPolygon polys);
             Types.GeoJSONFeature.properties := props |}] |} t
  = JS.Normal ([], S t).
Proof. reflexivity. Qed.

(** C3, on the code. [calculateCentroid] does average the outer ring of
    the first polygon of a MultiPolygon (the square gives (1,1)), but
    [processForMongoDB] never calls it for that geometry type: the
    feature gets no location and is filtered out. *)
Theorem multipolygon_feature_dropped :
  forall (Number_toString : Qc -> string) (clock : nat -> JS.Date) (t : nat),
    OsmFetcher.calculateCentroid (Types.MultiPolygon [[square]])
      = JS.Normal (Some (Number.ofQ 1, Number.ofQ 1))
    /\ resolvable (Types.GeoJSONFeature.geometry multiPolygonFeature) = true
    /\ OsmFetcher.processForMongoDB Number_toString clock
         {| Types.features := [multiPolygonFeature] |} t
       = JS.Normal ([], S t).
Proof.
  intros toS clock t. split; [|split; reflexivity].
  rewrite (calculateCentroid_ring _ square); [|done|done].
  by rewrite vertexMean_square.
Qed.

(** C4, on the code. Of a Point feature, a MultiPolygon feature with a
    non-empty outer ring and a feature with null geometry, two have a
    resolvable non-empty geometry, yet the output holds one place, the
    one of the Point feature. *)
Theorem multipolygon_feature_not_counted :
  forall (Number_toString : Qc -> string) (clock : nat -> JS.Date) (t : nat),
    let input := [pointFeature; multiPolygonFeature; nullGeometryFeature] in
    length
      (List.filter (fun f => resolvable (Types.GeoJSONFeature.geometry f)) input)
      = 2%nat
    /\ exists p,
         OsmFetcher.processForMongoDB Number_toString clock
           {| Types.features := input |} t
         = JS.Normal ([p], (t + 3)%nat)
         /\ Types.ProcessedPlace.geometry p
            = Types.GeoJSONFeature.geometry pointFeature.
Proof.
  intros toS clock t input. split; [reflexivity|].
  eexists. split.
  - unfold OsmFetcher.processForMongoDB, input. cbn.
    replace (t + 3)%nat with (S (S (S t))) by lia. reflexivity.
  - reflexivity.
Qed.

(** A running sum that rounds nothing stands for the sum of the
    rationals, and so does the running mean for their mean. *)
Lemma exactSum_total (xs : list Number.t) (acc : Number.t) (a : Qc) :
  exactSum acc xs = true ->
  Number.value acc = Some a ->
  Number.value (fold_left Number.add xs acc) = Some (a + total (values xs))%Qc
  /\ length (values xs) = length xs.
Proof.
  revert acc a. induction xs as [|x xs IH]; intros acc a Hexact Hacc.
  - cbn. split; [|done]. rewrite Hacc. f_equal. unfold total. cbn. ring.
  - cbn [exactSum] in Hexact. apply andb_true_iff in Hexact as [Hadd Hrest].
    unfold exactAdd in Hadd. rewrite Hacc in Hadd.
    destruct (Number.value x) as [b|] eqn:Hx; [|done].
    destruct (Number.value (Number.add acc x)) as [c|] eqn:Hc; [|done].
    apply bool_decide_eq_true in Hadd. subst c.
    destruct (IH _ _ Hrest Hc) as [Hsum Hlen].
    unfold values in *. cbn [fold_left omap list_omap]. rewrite Hx.
    cbn [length]. split; [|by rewrite Hlen].
    rewrite Hsum. f_equal. unfold total. cbn [fold_right]. ring.
Qed.

Lemma exactMean_arithmeticMean (xs : list Number.t) :
  exactMean xs = true ->
  Number.value (runningMean xs) = Some (arithmeticMean (values xs)).
Proof.
  unfold exactMean. intros [Hsum Hdiv]%andb_true_iff.
  destruct (exactSum_total xs Number.zero 0%Qc Hsum eq_refl) as [Htotal Hlen].
  unfold exactDiv in Hdiv. fold (runningSum xs) in Htotal.
  rewrite Htotal in Hdiv. fold (runningMean xs) in Hdiv.
  destruct (Number.value (runningMean xs)) as [c|]; [|done].
  apply bool_decide_eq_true in Hdiv. subst c.
  unfold arithmeticMean. rewrite Hlen. f_equal. f_equal. ring.
Qed.

(** C5, amended. [calculateCentroid] returns, for a Polygon, the mean
    of the vertices of its first ring and, for a LineString, the mean of
    all its vertices, as the arithmetic of doubles computes it: the
    coordinates are added in vertex order to a sum that starts at 0 and
    the sum is divided by the number of vertices, every operation
    rounded.  Where no operation rounds, this is the arithmetic mean;
    the outer ring (0,0),(2,0),(2,2),(0,2) gives (1,1); an empty vertex
    list gives no location. *)
Theorem calculateCentroid_is_mean :
  forall (ring : list Types.Position) (holes : list (list Types.Position))
         (line : list Types.Position),
    (ring <> [] ->
     OsmFetcher.calculateCentroid (Types.Polygon (ring :: holes))
       = JS.Normal (Some (vertexMean ring)))
    /\ (line <> [] ->
        OsmFetcher.calculateCentroid (Types.LineString line)
          = JS.Normal (Some (vertexMean line)))
    /\ (ring <> [] ->
        exactMean (map fst ring) = true -> exactMean (map snd ring) = true ->
        exists lon lat,
          OsmFetcher.calculateCentroid (Types.Polygon (ring :: holes))
            = JS.Normal (Some (lon, lat))
          /\ Number.value lon = Some (arithmeticMean (values (map fst ring)))
          /\ Number.value lat = Some (arithmeticMean (values (map snd ring))))
    /\ (line <> [] ->
        exactMean (map fst line) = true -> exactMean (map snd line) = true ->
        exists lon lat,
          OsmFetcher.calculateCentroid (Types.LineString line)
            = JS.Normal (Some (lon, lat))
          /\ Number.value lon = Some (arithmeticMean (values (map fst line)))
          /\ Number.value lat = Some (arithmeticMean (values (map snd line))))
    /\ OsmFetcher.calculateCentroid (Types.Polygon (square :: holes))
       = JS.Normal (Some (Number.ofQ 1, Number.ofQ 1))
    /\ OsmFetcher.calculateCentroid (Types.Polygon ([] :: holes))
       = JS.Normal None
    /\ OsmFetcher.calculateCentroid (Types.LineString []) = JS.Normal None.
Proof.
  intros ring holes line.
  split; [|split; [|split; [|split; [|split; [|split]]]]]; try reflexivity.
  - intros Hne. by apply calculateCentroid_ring.
  - intros Hne. by apply calculateCentroid_ring.
  - intros Hne Hlon Hlat. eexists _, _. split.
    + by apply calculateCentroid_ring.
    + split; by apply exactMean_arithmeticMean.
  - intros Hne Hlon Hlat. eexists _, _. split.
    + by apply calculateCentroid_ring.
    + split; by apply exactMean_arithmeticMean.
Qed.

Lemma calculateCentroid_is_mean_witness :
  exists lon lat,
    OsmFetcher.calculateCentroid (Types.Polygon [square; []])
      = JS.Normal (Some (lon, lat))
    /\ Number.value lon = Some (arithmeticMean (values (map fst square)))
    /\ Number.value lat = Some (arithmeticMean (values (map snd square))).
Proof.
  destruct (calculateCentroid_is_mean square [[]] square)
    as (_ & _ & Hexact & _).
  apply Hexact; [discriminate|by vm_compute|by vm_compute].
Defined.

(** C5, as stated, fails.  On the vertices (0.1,0.2), (0.2,0.4),
    (0.3,0.6) the additions round: the longitude returned is
    0.20000000000000004, which is neither the double 0.2 nor the
    arithmetic mean of the three longitudes, and the same vertices in
    the reverse order give another result, 0.19999999999999998, though
    their mean is the same. *)
Lemma calculateCentroid_rounds :
  (exists lon lat,
     OsmFetcher.calculateCentroid (Types.LineString tenths)
       = JS.Normal (Some (lon, lat))
     /\ lon <> Number.ofQ 0.2
     /\ Number.value lon <> Some (arithmeticMean (values (map fst tenths))))
  /\ arithmeticMean (values (map fst (rev tenths)))
     = arithmeticMean (values (map fst tenths))
  /\ OsmFetcher.calculateCentroid (Types.LineString (rev tenths))
     <> OsmFetcher.calculateCentroid (Types.LineString tenths)
  /\ ~ (forall line : list Types.Position,
          line <> [] ->
          exists lon lat,
            OsmFetcher.calculateCentroid (Types.LineString line)
              = JS.Normal (Some (lon, lat))
            /\ Number.value lon
               = Some (arithmeticMean (values (map fst line)))
            /\ Number.value lat
               = Some (arithmeticMean (values (map snd line)))).
Proof.
  assert (Hlon :
    Number.value (runningMean (map fst tenths))
    <> Some (arithmeticMean (values (map fst tenths)))).
  { apply (bool_decide_eq_false_1 _). by vm_compute. }
  assert (Hrun :
    OsmFetcher.calculateCentroid (Types.LineString tenths)
    = JS.Normal (Some (runningMean (map fst tenths),
                       runningMean (map snd tenths)))).
  { by apply (calculateCentroid_ring (Types.LineString tenths) tenths). }
  split; [|split; [|split]].
  - exists (runningMean (map fst tenths)), (runningMean (map snd tenths)).
    split; [exact Hrun|]. split; [by vm_compute|exact Hlon].
  - apply Qc_is_canon. by vm_compute.
  - by vm_compute.
  - intros Hmean.
    destruct (Hmean tenths ltac:(discriminate)) as (lon & lat & Hrun' & Hl & _).
    assert (Heq : lon = runningMean (map fst tenths)) by congruence.
    apply Hlon. by rewrite <- Heq.
Qed.

(** ** mongoStorage *)

Section MongoStorageProperties.
Import JS Types MongoStorage.

Implicit Types (coll : list StoredPlace) (d : StoredPlace) (key : string).

Lemma findOne_None_filter key coll :
  findOne key coll = None -> List.filter (matches key) coll = [].
Proof.
  unfold findOne. induction coll as [|d coll IH]; cbn; [done|].
  destruct (matches key d); [discriminate|done].
Qed.

Lemma findOne_app key coll d :
  findOne key (coll ++ [d])
  = match findOne key coll with
    | Some x => Some x
    | None => if matches key d then Some d else None
    end.
Proof.
  unfold findOne. induction coll as [|x coll IH]; cbn; [done|].
  destruct (matches key x); done.
Qed.

Lemma findOne_replaceFirst key coll d d' :
  findOne key coll = Some d -> matches key d' = true ->
  findOne key (replaceFirst key d' coll) = Some d'.
Proof.
  unfold findOne. induction coll as [|x coll IH]; cbn; [done|].
  destruct (matches key x) eqn:Hx; cbn.
  - intros _ ->. done.
  - rewrite Hx. done.
Qed.

Lemma matches_other key key' d :
  key <> key' -> matches key d = true -> matches key' d = false.
Proof.
  unfold matches. intros Hne H.
  apply bool_decide_eq_true in H. apply bool_decide_eq_false. congruence.
Qed.

Lemma findOne_replaceFirst_other key key' coll d' :
  key <> key' -> matches key d' = true ->
  findOne key' (replaceFirst key d' coll) = findOne key' coll.
Proof.
  intros Hne Hd'. unfold findOne.
  induction coll as [|x coll IH]; cbn; [done|].
  destruct (matches key x) eqn:Hx; cbn.
  - by rewrite (matches_other _ _ _ Hne Hd'), (matches_other _ _ _ Hne Hx).
  - by rewrite IH.
Qed.

Lemma replaceFirst_same key coll d :
  findOne key coll = Some d -> replaceFirst key d coll = coll.
Proof.
  unfold findOne. induction coll as [|x coll IH]; cbn; [done|].
  destruct (matches key x); [by intros [= ->]|].
  intros H. by rewrite IH.
Qed.

Variable rejects : ProcessedPlace.t -> bool.
Variable clock : nat -> Date.

Lemma storeOne_rejected f results coll t :
  rejects f = true ->
  storeOne rejects clock f (results, coll) t
  = Normal ((bump 0 0 1 results, coll), S t).
Proof.
  intros H. unfold storeOne, updateOne, mbind, M_bind, bind, newDate.
  by rewrite H.
Qed.

Lemma storeOne_insert f results coll t :
  rejects f = false -> findOne (ProcessedPlace.osm_id f) coll = None ->
  storeOne rejects clock f (results, coll) t
  = Normal ((bump 1 0 0 results,
             coll ++ [{| place := f; created_at := clock t |}]), S t).
Proof.
  intros H Hfind. unfold storeOne, updateOne, mbind, M_bind, bind, newDate.
  by rewrite H, Hfind.
Qed.

Lemma storeOne_update f results coll t d :
  rejects f = false -> findOne (ProcessedPlace.osm_id f) coll = Some d ->
  place d <> f ->
  storeOne rejects clock f (results, coll) t
  = Normal ((bump 0 1 0 results,
             replaceFirst (ProcessedPlace.osm_id f)
               {| place := f; created_at := created_at d |} coll), S t).
Proof.
  intros H Hfind Hne.
  unfold storeOne, updateOne, mbind, M_bind, bind, newDate.
  rewrite H, Hfind. cbn. by rewrite bool_decide_eq_false_2.
Qed.

Lemma storeOne_unchanged f results coll t d :
  rejects f = false -> findOne (ProcessedPlace.osm_id f) coll = Some d ->
  place d = f ->
  storeOne rejects clock f (results, coll) t = Normal ((results, coll), S t).
Proof.
  intros H Hfind Heq.
  unfold storeOne, updateOne, mbind, M_bind, bind, newDate.
  rewrite H, Hfind. cbn. rewrite bool_decide_eq_true_2 by done. cbn.
  unfold mret, M_ret, ret. do 3 f_equal.
  subst f. destruct d as [p c]. cbn in *. by apply replaceFirst_same.
Qed.

Lemma replaceFirst_app_fresh key coll d d' :
  findOne key coll = None -> matches key d = true ->
  replaceFirst key d' (coll ++ [d]) = coll ++ [d'].
Proof.
  unfold findOne. intros Hnone Hd.
  induction coll as [|x coll IH]; cbn in *; [by rewrite Hd|].
  destruct (matches key x); [discriminate|]. by rewrite IH.
Qed.

Lemma filter_app_fresh key coll d :
  findOne key coll = None -> matches key d = true ->
  List.filter (matches key) (coll ++ [d]) = [d].
Proof.
  intros Hnone Hd. rewrite List.filter_app, (findOne_None_filter _ _ Hnone).
  cbn. by rewrite Hd.
Qed.

Lemma storeFeatures_single this coll f t r coll' t' :
  collection this = Some coll ->
  storeOne rejects clock f ({| inserted := 0; updated := 0; errors := 0 |}, coll) t
    = Normal ((r, coll'), t') ->
  storeFeatures rejects clock this [f] t
  = Normal ((r, {| collection := Some coll' |}), t').
Proof.
  intros Hc Hstep. unfold storeFeatures. rewrite Hc.
  unfold storeLoop, mbind, M_bind, bind. by rewrite Hstep.
Qed.

End MongoStorageProperties.

(** C1. Upserting one source id twice with different field values: the
    first call reports inserted=1, the second updated=1, one document
    with that id is stored, its [created_at] is the one set by the first
    call and its other fields are those of the second call.  Writing
    the stored fields again raises neither counter. *)
Theorem upsert_same_id_twice :
  forall (rejects : Types.ProcessedPlace.t -> bool) (clock : nat -> JS.Date)
         (coll : list MongoStorage.StoredPlace)
         (f1 f2 : Types.ProcessedPlace.t) (t1 t2 : nat),
    Types.ProcessedPlace.osm_id f1 = Types.ProcessedPlace.osm_id f2 ->
    f1 <> f2 ->
    rejects f1 = false -> rejects f2 = false ->
    MongoStorage.findOne (Types.ProcessedPlace.osm_id f1) coll = None ->
    let key := Types.ProcessedPlace.osm_id f1 in
    let stored f :=
      {| MongoStorage.place := f; MongoStorage.created_at := clock t1 |} in
    let storage0 := {| MongoStorage.collection := Some coll |} in
    let storage1 := {| MongoStorage.collection := Some (coll ++ [stored f1]) |} in
    let storage2 := {| MongoStorage.collection := Some (coll ++ [stored f2]) |} in
    MongoStorage.storeFeatures rejects clock storage0 [f1] t1
      = JS.Normal
          (({| Types.inserted := 1; Types.updated := 0; Types.errors := 0 |},
            storage1), S t1)
    /\ MongoStorage.storeFeatures rejects clock storage1 [f2] t2
       = JS.Normal
           (({| Types.inserted := 0; Types.updated := 1; Types.errors := 0 |},
             storage2), S t2)
    /\ MongoStorage.documentsWith key storage1 = [stored f1]
    /\ MongoStorage.documentsWith key storage2 = [stored f2]
    /\ MongoStorage.storeFeatures rejects clock storage1 [f1] t2
       = JS.Normal
           (({| Types.inserted := 0; Types.updated := 0; Types.errors := 0 |},
             storage1), S t2).
Proof.
  intros rejects clock coll f1 f2 t1 t2 Hid Hne Hr1 Hr2 Hfresh
    key stored storage0 storage1 storage2. subst key.
  set (key := Types.ProcessedPlace.osm_id f1) in *.
  assert (Hm1 : MongoStorage.matches key (stored f1) = true)
    by (by apply bool_decide_eq_true).
  assert (Hm2 : MongoStorage.matches key (stored f2) = true)
    by (by apply bool_decide_eq_true).
  assert (Hfind1 : MongoStorage.findOne key (coll ++ [stored f1])
                   = Some (stored f1))
    by (by rewrite findOne_app, Hfresh, Hm1).
  split; [|split; [|split; [|split]]].
  - apply (storeFeatures_single _ _ _ coll); [done|].
    by rewrite storeOne_insert.
  - apply (storeFeatures_single _ _ _ (coll ++ [stored f1])); [done|].
    rewrite (storeOne_update _ _ _ _ _ _ (stored f1));
      [|done|by rewrite <- Hid|done].
    rewrite <- Hid.
    by rewrite (replaceFirst_app_fresh _ _ _ _ Hfresh Hm1).
  - by apply filter_app_fresh.
  - by apply filter_app_fresh.
  - apply (storeFeatures_single _ _ _ (coll ++ [stored f1])); [done|].
    by rewrite (storeOne_unchanged _ _ _ _ _ _ (stored f1)).
Qed.

Section StoreLoopProperties.
Import JS Types MongoStorage.

Variable rejects : ProcessedPlace.t -> bool.
Variable clock : nat -> Date.

Lemma storeOne_spec f results coll t :
  exists results' coll',
    storeOne rejects clock f (results, coll) t
      = Normal ((results', coll'), S t)
    /\ errors results' = (errors results + if rejects f then 1 else 0)%nat
    /\ (inserted results' + updated results'
        <= inserted results + updated results + if rejects f then 0 else 1)%nat
    /\ (forall key,
          place <$> findOne key coll'
          = if writesTo rejects key f then Some f else place <$> findOne key coll).
Proof.
  unfold writesTo, accepted.
  destruct (rejects f) eqn:Hr.
  - eexists _, _. rewrite storeOne_rejected by done.
    split; [reflexivity|]. cbn. repeat split; lia.
  - destruct (findOne (ProcessedPlace.osm_id f) coll) as [d|] eqn:Hfind.
    + assert (Hm : matches (ProcessedPlace.osm_id f)
                     {| place := f; created_at := created_at d |} = true)
        by (by apply bool_decide_eq_true).
      destruct (decide (place d = f)) as [Heq|Hne].
      * eexists _, _. rewrite (storeOne_unchanged _ _ _ _ _ _ d) by done.
        split; [reflexivity|]. repeat split; try lia.
        intros key. cbn. case_bool_decide as Hk; [|done].
        subst key. by rewrite Hfind, <- Heq.
      * eexists _, _. rewrite (storeOne_update _ _ _ _ _ _ d) by done.
        split; [reflexivity|]. cbn. repeat split; try lia.
        intros key. case_bool_decide as Hk.
        -- subst key. by rewrite (findOne_replaceFirst _ _ d).
        -- by rewrite findOne_replaceFirst_other.
    + eexists _, _. rewrite storeOne_insert by done.
      split; [reflexivity|]. cbn. repeat split; try lia.
      intros key. rewrite findOne_app. unfold matches at 1. cbn.
      case_bool_decide as Hk.
      * subst key. by rewrite Hfind.
      * by destruct (findOne key coll).
Qed.

Lemma storeLoop_cons f fs st t :
  storeLoop rejects clock (f :: fs) st t
  = match storeOne rejects clock f st t with
    | Normal (st', t') => storeLoop rejects clock fs st' t'
    | Throw e => Throw e
    end.
Proof. reflexivity. Qed.

Lemma storeLoop_spec fs results coll t :
  exists results' coll',
    storeLoop rejects clock fs (results, coll) t
      = Normal ((results', coll'), (t + length fs)%nat)
    /\ errors results' = (errors results + length (List.filter rejects fs))%nat
    /\ (inserted results' + updated results'
        <= inserted results + updated results
           + length (List.filter (accepted rejects) fs))%nat
    /\ (forall key,
          place <$> findOne key coll'
          = match last (List.filter (writesTo rejects key) fs) with
            | Some f => Some f
            | None => place <$> findOne key coll
            end).
Proof.
  revert results coll t. induction fs as [|f fs IH]; intros results coll t.
  - exists results, coll. cbn. unfold mret, M_ret, ret.
    repeat split; try lia. do 2 f_equal. lia.
  - destruct (storeOne_spec f results coll t)
      as (r1 & c1 & Hstep & Herr1 & Hcnt1 & Hfind1).
    destruct (IH r1 c1 (S t)) as (r2 & c2 & Hloop & Herr2 & Hcnt2 & Hfind2).
    exists r2, c2. split; [|split; [|split]].
    + rewrite storeLoop_cons, Hstep, Hloop. cbn [length].
      do 2 f_equal. lia.
    + rewrite Herr2, Herr1. cbn. destruct (rejects f); cbn; lia.
    + cbn [List.filter]. unfold accepted in *.
      destruct (rejects f); cbn [negb length] in *; lia.
    + intros key. rewrite Hfind2, Hfind1. cbn.
      destruct (writesTo rejects key f); [|done].
      rewrite last_cons. by destruct (last _).
Qed.

Lemma storeLoop_fresh fs results coll t results' coll' t' :
  NoDup (map ProcessedPlace.osm_id (List.filter (accepted rejects) fs)) ->
  (forall f, In f fs -> rejects f = false ->
             findOne (ProcessedPlace.osm_id f) coll = None) ->
  storeLoop rejects clock fs (results, coll) t = Normal ((results', coll'), t') ->
  inserted results' = (inserted results + length (List.filter (accepted rejects) fs))%nat
  /\ updated results' = updated results
  /\ map place coll' = map place coll ++ List.filter (accepted rejects) fs.
Proof.
  revert results coll t. induction fs as [|f fs IH]; intros results coll t.
  - cbn. intros _ _ [= <- <- <-]. rewrite app_nil_r. repeat split; lia.
  - intros Hnodup Hfresh. rewrite storeLoop_cons.
    cbn [List.filter] in Hnodup |- *.
    destruct (rejects f) eqn:Hr.
    + assert (Ha : accepted rejects f = false) by (unfold accepted; by rewrite Hr).
      rewrite Ha in Hnodup |- *.
      rewrite storeOne_rejected by done.
      intros Hloop. apply IH in Hloop; [exact Hloop|exact Hnodup|].
      intros g Hg. apply Hfresh. by right.
    + assert (Ha : accepted rejects f = true) by (unfold accepted; by rewrite Hr).
      rewrite Ha in Hnodup |- *.
      rewrite storeOne_insert; [|done|apply Hfresh; [by left|done]].
      cbn [map] in Hnodup. apply NoDup_cons in Hnodup as [Hnotin Hnodup].
      intros Hloop. apply IH in Hloop; [|exact Hnodup|].
      * destruct Hloop as (-> & -> & ->). cbn.
        rewrite map_app, <- app_assoc. cbn. repeat split; lia.
      * intros g Hg Hrg. rewrite findOne_app.
        rewrite (Hfresh g); [|by right|done].
        unfold matches. cbn.
        case_bool_decide as Hk; [|done].
        exfalso. apply Hnotin. rewrite Hk.
        apply list_elem_of_In, in_map, filter_In. split; [done|].
        unfold accepted. by rewrite Hrg.
Qed.

End StoreLoopProperties.

Lemma filter_split_length {A} (P : A -> bool) (xs : list A) :
  (length (List.filter P xs) + length (List.filter (fun x => negb (P x)) xs)
   = length xs)%nat.
Proof.
  induction xs as [|x xs IH]; cbn; [done|].
  destruct (P x); cbn; lia.
Qed.

(** C6. A failing upsert is caught and counted, and the loop goes on:
    the summary counts as many errors as there are refused records, and
    afterwards every source id holds the fields of the last accepted
    record of the batch written under it, whether it comes before or
    after a failure.  A batch of five records of which exactly one is
    refused, the others carrying distinct ids new to the collection,
    ends with four documents written and an error count of one. *)
Theorem store_failure_is_counted_not_fatal :
  forall (rejects : Types.ProcessedPlace.t -> bool) (clock : nat -> JS.Date)
         (coll : list MongoStorage.StoredPlace)
         (fs : list Types.ProcessedPlace.t) (t : nat),
    exists results coll',
      MongoStorage.storeFeatures rejects clock
        {| MongoStorage.collection := Some coll |} fs t
      = JS.Normal
          ((results, {| MongoStorage.collection := Some coll' |}),
           (t + length fs)%nat)
      /\ Types.errors results = length (List.filter rejects fs)
      /\ (Types.inserted results + Types.updated results
          <= length (List.filter (accepted rejects) fs))%nat
      /\ (forall key,
            MongoStorage.place <$> MongoStorage.findOne key coll'
            = match last (List.filter (writesTo rejects key) fs) with
              | Some f => Some f
              | None => MongoStorage.place <$> MongoStorage.findOne key coll
              end)
      /\ (length fs = 5%nat ->
          length (List.filter rejects fs) = 1%nat ->
          NoDup (map Types.ProcessedPlace.osm_id
                   (List.filter (accepted rejects) fs)) ->
          (forall f, In f fs -> rejects f = false ->
                     MongoStorage.findOne (Types.ProcessedPlace.osm_id f) coll
                     = None) ->
          Types.errors results = 1%nat
          /\ Types.inserted results = 4%nat
          /\ Types.updated results = 0%nat
          /\ length (List.filter (accepted rejects) fs) = 4%nat
          /\ map MongoStorage.place coll'
             = map MongoStorage.place coll
               ++ List.filter (accepted rejects) fs).
Proof.
  intros rejects clock coll fs t.
  destruct (storeLoop_spec rejects clock fs
              {| Types.inserted := 0; Types.updated := 0; Types.errors := 0 |}
              coll t)
    as (results & coll' & Hloop & Herr & Hcnt & Hfind).
  exists results, coll'. cbn in Herr, Hcnt.
  split; [|split; [|split; [|split]]]; try done.
  - unfold MongoStorage.storeFeatures. cbn.
    unfold mbind, M_bind, JS.bind. by rewrite Hloop.
  - intros Hlen Hone Hnodup Hfresh.
    destruct (storeLoop_fresh rejects clock _ _ _ _ _ _ _ Hnodup Hfresh Hloop)
      as (Hins & Hupd & Hcoll).
    pose proof (filter_split_length rejects fs) as Hsplit.
    fold (accepted rejects) in Hsplit.
    cbn in Hins, Hupd. repeat split; try done; lia.
Qed.



Lemma upsert_same_id_twice_witness :
  MongoStorage.storeFeatures geoIndexRejects sampleClock
    {| MongoStorage.collection := Some [storedFirst museumBefore] |}
    [museumAfter] 5
  = JS.Normal
      (({| Types.inserted := 0; Types.updated := 1; Types.errors := 0 |},
        {| MongoStorage.collection := Some [storedFirst museumAfter] |}),
       6%nat)
  /\ MongoStorage.documentsWith "node/1"
       {| MongoStorage.collection := Some [storedFirst museumAfter] |}
     = [storedFirst museumAfter].
Proof.
  destruct (upsert_same_id_twice geoIndexRejects sampleClock []
              museumBefore museumAfter 0 5)
    as (_ & Hsecond & _ & Hdocs & _).
  - reflexivity.
  - intros H. apply (f_equal Types.ProcessedPlace.name) in H. discriminate.
  - reflexivity.
  - reflexivity.
  - reflexivity.
  - split; [exact Hsecond|exact Hdocs].
Defined.

Lemma store_failure_is_counted_not_fatal_witness :
  exists results coll',
    MongoStorage.storeFeatures geoIndexRejects sampleClock
      {| MongoStorage.collection := Some [] |} fiveRecords 0
    = JS.Normal
        ((results, {| MongoStorage.collection := Some coll' |}), 5%nat)
    /\ Types.errors results = 1%nat
    /\ Types.inserted results = 4%nat
    /\ map MongoStorage.place coll'
       = List.filter (accepted geoIndexRejects) fiveRecords.
Proof.
  destruct (store_failure_is_counted_not_fatal geoIndexRejects sampleClock []
              fiveRecords 0)
    as (results & coll' & Hrun & _ & _ & _ & Hfive).
  exists results, coll'. split; [exact Hrun|].
  destruct Hfive as (Herr & Hins & _ & _ & Hcoll).
  - reflexivity.
  - reflexivity.
  - apply (bool_decide_unpack _). vm_compute. reflexivity.
  - intros f _ _. reflexivity.
  - split; [exact Herr|]. split; [exact Hins|exact Hcoll].
Defined.



(** ** mongoStorage: what a batch does to the collection *)

Section StoreInvariants.
Import JS Types MongoStorage.

Variable rejects : ProcessedPlace.t -> bool.
Variable clock : nat -> Date.

Lemma findOne_None_ids key coll :
  findOne key coll = None <-> ~ In key (ids coll).
Proof.
  unfold findOne, ids. induction coll as [|d coll IH]; cbn; [tauto|].
  unfold matches at 1. case_bool_decide as Hk.
  - split; [discriminate|]. intros H. exfalso. apply H. by left.
  - rewrite IH. tauto.
Qed.

Lemma keys_replaceFirst key coll d f :
  findOne key coll = Some d -> ProcessedPlace.osm_id f = key ->
  keys (replaceFirst key {| place := f; created_at := created_at d |} coll)
  = keys coll.
Proof.
  unfold findOne, keys. intros Hfind Hid.
  induction coll as [|x coll IH]; cbn in *; [done|].
  destruct (matches key x) eqn:Hx.
  - injection Hfind as ->. cbn. f_equal. f_equal.
    apply bool_decide_eq_true in Hx. congruence.
  - cbn. f_equal. by apply IH.
Qed.

Lemma ids_keys coll : ids coll = map fst (keys coll).
Proof. unfold ids, keys. rewrite map_map. reflexivity. Qed.

(** One iteration either leaves the keys alone or appends the key of a
    source id that was not stored. *)
Lemma storeOne_keys f results coll t :
  exists results' coll' added,
    storeOne rejects clock f (results, coll) t
      = Normal ((results', coll'), S t)
    /\ keys coll' = keys coll ++ added
    /\ inserted results' = (inserted results + length added)%nat
    /\ (added = []
        \/ (added = [(ProcessedPlace.osm_id f, clock t)]
            /\ findOne (ProcessedPlace.osm_id f) coll = None)).
Proof.
  destruct (rejects f) eqn:Hr.
  - exists (bump 0 0 1 results), coll, [].
    rewrite storeOne_rejected by done. rewrite app_nil_r. cbn.
    repeat split; try lia. by left.
  - destruct (findOne (ProcessedPlace.osm_id f) coll) as [d|] eqn:Hfind.
    + destruct (decide (place d = f)) as [Heq|Hne].
      * exists results, coll, [].
        rewrite (storeOne_unchanged _ _ _ _ _ _ d) by done.
        rewrite app_nil_r. cbn. repeat split; try lia. by left.
      * eexists _, _, []. rewrite (storeOne_update _ _ _ _ _ _ d) by done.
        split; [reflexivity|]. rewrite app_nil_r, (keys_replaceFirst _ _ d) by done.
        cbn. repeat split; try lia. by left.
    + eexists _, _, [_]. rewrite storeOne_insert by done.
      split; [reflexivity|]. unfold keys at 1. rewrite map_app. cbn.
      repeat split; try lia. by right.
Qed.

Lemma storeLoop_keys fs results coll t :
  exists results' coll' added,
    storeLoop rejects clock fs (results, coll) t
      = Normal ((results', coll'), (t + length fs)%nat)
    /\ keys coll' = keys coll ++ added
    /\ inserted results' = (inserted results + length added)%nat
    /\ (NoDup (ids coll) -> NoDup (ids coll')).
Proof.
  revert results coll t. induction fs as [|f fs IH]; intros results coll t.
  - exists results, coll, []. cbn. unfold mret, M_ret, ret.
    rewrite app_nil_r. repeat split; try lia; try done. do 2 f_equal. lia.
  - destruct (storeOne_keys f results coll t)
      as (r1 & c1 & a1 & Hstep & Hk1 & Hi1 & Hcase).
    destruct (IH r1 c1 (S t)) as (r2 & c2 & a2 & Hloop & Hk2 & Hi2 & Hn2).
    exists r2, c2, (a1 ++ a2). split; [|split; [|split]].
    + rewrite storeLoop_cons, Hstep, Hloop. cbn [length]. do 2 f_equal. lia.
    + by rewrite Hk2, Hk1, app_assoc.
    + rewrite Hi2, Hi1, length_app. lia.
    + intros Hnodup. apply Hn2. rewrite ids_keys, Hk1, map_app, <- ids_keys.
      destruct Hcase as [->|[-> Hfresh]]; cbn.
      * by rewrite app_nil_r.
      * apply NoDup_app. split; [done|]. split; [|apply NoDup_singleton].
        intros k Hk ->%list_elem_of_singleton.
        apply findOne_None_ids in Hfresh. apply Hfresh.
        by apply list_elem_of_In.
Qed.

(** A source id that no accepted record of the batch carries keeps its
    document. *)
Lemma storeLoop_untouched fs results coll t results' coll' t' key :
  Forall (fun f => rejects f = false -> ProcessedPlace.osm_id f <> key) fs ->
  storeLoop rejects clock fs (results, coll) t
    = Normal ((results', coll'), t') ->
  findOne key coll' = findOne key coll.
Proof.
  intros Hall. revert results coll t.
  induction Hall as [|f fs Hf _ IH]; intros results coll t.
  - cbn. by intros [= _ <- _].
  - rewrite storeLoop_cons.
    destruct (rejects f) eqn:Hr.
    + rewrite storeOne_rejected by done. apply IH.
    + specialize (Hf eq_refl).
      destruct (findOne (ProcessedPlace.osm_id f) coll) as [d|] eqn:Hfind.
      * destruct (decide (place d = f)) as [Heq|Hne].
        -- rewrite (storeOne_unchanged _ _ _ _ _ _ d) by done. apply IH.
        -- rewrite (storeOne_update _ _ _ _ _ _ d) by done.
           intros Hloop. apply IH in Hloop. rewrite Hloop.
           apply findOne_replaceFirst_other; [done|].
           by apply bool_decide_eq_true.
      * rewrite storeOne_insert by done.
        intros Hloop. apply IH in Hloop. rewrite Hloop, findOne_app.
        destruct (findOne key coll); [done|].
        unfold matches. cbn. by rewrite bool_decide_eq_false_2.
Qed.

(** A batch whose accepted records are all stored already, field for
    field, changes nothing and counts only its failures. *)
Lemma storeLoop_stored fs results coll t :
  Forall (fun f => rejects f = false ->
                   exists d, findOne (ProcessedPlace.osm_id f) coll = Some d
                             /\ place d = f) fs ->
  storeLoop rejects clock fs (results, coll) t
  = Normal ((bump 0 0 (length (List.filter rejects fs)) results, coll),
            (t + length fs)%nat).
Proof.
  intros Hall. revert results t.
  induction Hall as [|f fs Hf _ IH]; intros results t.
  - cbn. unfold mret, M_ret, ret. destruct results. cbn.
    do 2 f_equal. lia.
  - rewrite storeLoop_cons. cbn [List.filter length].
    destruct (rejects f) eqn:Hr.
    + rewrite storeOne_rejected, IH by done. cbn [length].
      destruct results. unfold bump. cbn. do 4 f_equal; lia.
    + destruct (Hf eq_refl) as (d & Hfind & Heq).
      rewrite (storeOne_unchanged _ _ _ _ _ _ d), IH by done.
      do 2 f_equal. lia.
Qed.

Lemma filter_writesTo_none fs key :
  ~ In key (map ProcessedPlace.osm_id (List.filter (accepted rejects) fs)) ->
  List.filter (writesTo rejects key) fs = [].
Proof.
  induction fs as [|g fs IH]; [done|].
  cbn [List.filter]. unfold writesTo at 1.
  destruct (accepted rejects g); cbn [andb map]; [|done].
  intros Hnotin. rewrite bool_decide_eq_false_2.
  - apply IH. intros Hin. apply Hnotin. by right.
  - intros Heq. apply Hnotin. by left.
Qed.

Lemma filter_writesTo_single fs f :
  NoDup (map ProcessedPlace.osm_id (List.filter (accepted rejects) fs)) ->
  In f fs -> rejects f = false ->
  List.filter (writesTo rejects (ProcessedPlace.osm_id f)) fs = [f].
Proof.
  induction fs as [|g fs IH]; [done|].
  cbn [List.filter]. unfold writesTo at 1.
  destruct (accepted rejects g) eqn:Hg; cbn [andb map].
  - intros [Hnotin Hnodup]%NoDup_cons [->|Hin] Hr;
      rewrite list_elem_of_In in Hnotin.
    + rewrite bool_decide_eq_true_2 by done. f_equal.
      by apply filter_writesTo_none.
    + rewrite bool_decide_eq_false_2; [by apply IH|].
      intros Heq. apply Hnotin. rewrite Heq.
      apply in_map, filter_In. split; [done|].
      unfold accepted. by rewrite Hr.
  - intros Hnodup [->|Hin] Hr.
    + unfold accepted in Hg. by rewrite Hr in Hg.
    + by apply IH.
Qed.

End StoreInvariants.

(** X1. A batch never removes or re-keys a document: the source ids
    and creation timestamps of the collection afterwards are those it
    had before, each as often, together with those of the documents
    added, which are as many as the summary reports inserted.  Nothing
    is said of the order of the documents. *)
Theorem store_only_appends :
  forall (rejects : Types.ProcessedPlace.t -> bool) (clock : nat -> JS.Date)
         (coll : list MongoStorage.StoredPlace)
         (fs : list Types.ProcessedPlace.t) (t : nat),
    exists results coll' added,
      MongoStorage.storeFeatures rejects clock
        {| MongoStorage.collection := Some coll |} fs t
      = JS.Normal
          ((results, {| MongoStorage.collection := Some coll' |}),
           (t + length fs)%nat)
      /\ keys coll' ≡ₚ keys coll ++ added
      /\ length added = Types.inserted results
      /\ length coll' = (length coll + Types.inserted results)%nat.
Proof.
  intros rejects clock coll fs t.
  destruct (storeLoop_keys rejects clock fs
              {| Types.inserted := 0; Types.updated := 0; Types.errors := 0 |}
              coll t)
    as (results & coll' & added & Hloop & Hkeys & Hins & _).
  exists results, coll', added. cbn in Hins.
  split; [|split; [by rewrite Hkeys|split; [done|]]].
  - unfold MongoStorage.storeFeatures. cbn.
    unfold mbind, M_bind, JS.bind. by rewrite Hloop.
  - apply (f_equal length) in Hkeys. unfold keys in Hkeys.
    rewrite length_app, !length_map in Hkeys. lia.
Qed.

(** X2. A collection that holds at most one document per source id
    still does after any batch, whatever the batch repeats or the
    server refuses. *)
Theorem store_keeps_ids_unique :
  forall (rejects : Types.ProcessedPlace.t -> bool) (clock : nat -> JS.Date)
         (coll : list MongoStorage.StoredPlace)
         (fs : list Types.ProcessedPlace.t) (t : nat),
    NoDup (ids coll) ->
    exists results coll',
      MongoStorage.storeFeatures rejects clock
        {| MongoStorage.collection := Some coll |} fs t
      = JS.Normal
          ((results, {| MongoStorage.collection := Some coll' |}),
           (t + length fs)%nat)
      /\ NoDup (ids coll').
Proof.
  intros rejects clock coll fs t Hnodup.
  destruct (storeLoop_keys rejects clock fs
              {| Types.inserted := 0; Types.updated := 0; Types.errors := 0 |}
              coll t)
    as (results & coll' & added & Hloop & _ & _ & Hkeep).
  exists results, coll'. split; [|by apply Hkeep].
  unfold MongoStorage.storeFeatures. cbn.
  unfold mbind, M_bind, JS.bind. by rewrite Hloop.
Qed.

Lemma store_keeps_ids_unique_witness :
  exists results coll',
    MongoStorage.storeFeatures geoIndexRejects sampleClock
      {| MongoStorage.collection := Some [storedFirst museumBefore] |}
      (museumAfter :: fiveRecords) 1
    = JS.Normal
        ((results, {| MongoStorage.collection := Some coll' |}), 7%nat)
    /\ NoDup (ids coll').
Proof.
  apply (store_keeps_ids_unique geoIndexRejects sampleClock
           [storedFirst museumBefore] (museumAfter :: fiveRecords) 1).
  apply (bool_decide_unpack _). vm_compute. reflexivity.
Defined.

(** X3. A document whose source id no accepted record of the batch
    carries is left as it was, fields and creation timestamp. *)
Theorem store_leaves_other_ids :
  forall (rejects : Types.ProcessedPlace.t -> bool) (clock : nat -> JS.Date)
         (coll : list MongoStorage.StoredPlace)
         (fs : list Types.ProcessedPlace.t) (t : nat) (key : string),
    Forall (fun f => rejects f = false ->
                     Types.ProcessedPlace.osm_id f <> key) fs ->
    exists results coll',
      MongoStorage.storeFeatures rejects clock
        {| MongoStorage.collection := Some coll |} fs t
      = JS.Normal
          ((results, {| MongoStorage.collection := Some coll' |}),
           (t + length fs)%nat)
      /\ MongoStorage.findOne key coll' = MongoStorage.findOne key coll.
Proof.
  intros rejects clock coll fs t key Hall.
  destruct (storeLoop_keys rejects clock fs
              {| Types.inserted := 0; Types.updated := 0; Types.errors := 0 |}
              coll t)
    as (results & coll' & added & Hloop & _).
  exists results, coll'. split.
  - unfold MongoStorage.storeFeatures. cbn.
    unfold mbind, M_bind, JS.bind. by rewrite Hloop.
  - by apply (storeLoop_untouched rejects clock _ _ _ _ _ _ _ _ Hall Hloop).
Qed.

Lemma store_leaves_other_ids_witness :
  exists results coll',
    MongoStorage.storeFeatures geoIndexRejects sampleClock
      {| MongoStorage.collection :=
           Some [storedFirst (placeAt "node/3" "Kept" 80 7 500%N)] |}
      fiveRecords 1
    = JS.Normal
        ((results, {| MongoStorage.collection := Some coll' |}), 6%nat)
    /\ MongoStorage.findOne "node/3" coll'
       = MongoStorage.findOne "node/3"
           [storedFirst (placeAt "node/3" "Kept" 80 7 500%N)].
Proof.
  apply (store_leaves_other_ids geoIndexRejects sampleClock
           [storedFirst (placeAt "node/3" "Kept" 80 7 500%N)]
           fiveRecords 1 "node/3").
  repeat constructor; intros H; vm_compute in H; try discriminate;
    vm_compute; discriminate.
Defined.

(** X4. Synchronising the same batch again is a no-op when its accepted
    records carry distinct source ids: the second run inserts nothing,
    updates nothing, leaves the collection as the first run left it,
    and counts the same failures. *)
Theorem resync_is_noop :
  forall (rejects : Types.ProcessedPlace.t -> bool) (clock : nat -> JS.Date)
         (coll : list MongoStorage.StoredPlace)
         (fs : list Types.ProcessedPlace.t) (t t2 : nat),
    NoDup (map Types.ProcessedPlace.osm_id
             (List.filter (accepted rejects) fs)) ->
    exists results coll',
      MongoStorage.storeFeatures rejects clock
        {| MongoStorage.collection := Some coll |} fs t
      = JS.Normal
          ((results, {| MongoStorage.collection := Some coll' |}),
           (t + length fs)%nat)
      /\ MongoStorage.storeFeatures rejects clock
           {| MongoStorage.collection := Some coll' |} fs t2
         = JS.Normal
             (({| Types.inserted := 0; Types.updated := 0;
                  Types.errors := Types.errors results |},
               {| MongoStorage.collection := Some coll' |}),
              (t2 + length fs)%nat).
Proof.
  intros rejects clock coll fs t t2 Hnodup.
  destruct (storeLoop_spec rejects clock fs
              {| Types.inserted := 0; Types.updated := 0; Types.errors := 0 |}
              coll t)
    as (results & coll' & Hloop & Herr & _ & Hfind).
  exists results, coll'. split.
  - unfold MongoStorage.storeFeatures. cbn.
    unfold mbind, M_bind, JS.bind. by rewrite Hloop.
  - unfold MongoStorage.storeFeatures. cbn.
    unfold mbind, M_bind, JS.bind.
    rewrite storeLoop_stored.
    + cbn in Herr |- *. rewrite Herr. unfold mret, M_ret, JS.ret, bump. cbn.
      do 4 f_equal. lia.
    + apply List.Forall_forall. intros f Hin Hr.
      specialize (Hfind (Types.ProcessedPlace.osm_id f)).
      rewrite (filter_writesTo_single rejects fs f Hnodup Hin Hr) in Hfind.
      cbn in Hfind.
      destruct (MongoStorage.findOne _ coll') as [d|]; [|discriminate].
      exists d. split; [done|]. by injection Hfind.
Qed.

Lemma resync_is_noop_witness :
  exists results coll',
    MongoStorage.storeFeatures geoIndexRejects sampleClock
      {| MongoStorage.collection := Some [] |} fiveRecords 0
    = JS.Normal
        ((results, {| MongoStorage.collection := Some coll' |}), 5%nat)
    /\ MongoStorage.storeFeatures geoIndexRejects sampleClock
         {| MongoStorage.collection := Some coll' |} fiveRecords 9
       = JS.Normal
           (({| Types.inserted := 0; Types.updated := 0;
                Types.errors := Types.errors results |},
             {| MongoStorage.collection := Some coll' |}), 14%nat).
Proof.
  apply (resync_is_noop geoIndexRejects sampleClock [] fiveRecords 0 9).
  apply (bool_decide_unpack _). vm_compute. reflexivity.
Defined.

(** With a source id repeated in the batch a second run is not a no-op:
    each of the two records overwrites the other again. *)
Example resync_with_repeated_id :
  exists coll',
    MongoStorage.storeFeatures geoIndexRejects sampleClock
      {| MongoStorage.collection := Some [] |} [museumBefore; museumAfter] 0
    = JS.Normal
        (({| Types.inserted := 1; Types.updated := 1; Types.errors := 0 |},
          {| MongoStorage.collection := Some coll' |}), 2%nat)
    /\ MongoStorage.storeFeatures geoIndexRejects sampleClock
         {| MongoStorage.collection := Some coll' |}
         [museumBefore; museumAfter] 2
       = JS.Normal
           (({| Types.inserted := 0; Types.updated := 2; Types.errors := 0 |},
             {| MongoStorage.collection := Some coll' |}), 4%nat).
Proof. exists [storedFirst museumAfter]. split; reflexivity. Qed.

(** ** mongoStorage: queries, clearing and export *)

Lemma filter_sublist {A} (p : A -> bool) (l : list A) :
  List.filter p l `sublist_of` l.
Proof.
  induction l as [|x l IH]; cbn; [constructor|].
  destruct (p x); by constructor.
Qed.

Lemma findByCategory_connected this coll category options :
  MongoStorage.collection this = Some coll ->
  MongoStorage.findByCategory this category options
  = JS.Normal
      (let rest :=
         drop (if MongoStorage.truthyCount (Types.QueryOptions.skip options)
               then default 0%nat (Types.QueryOptions.skip options) else 0%nat)
           (inCategory category coll) in
       if MongoStorage.truthyCount (Types.QueryOptions.limit options)
       then take (default 0%nat (Types.QueryOptions.limit options)) rest else rest).
Proof.
  intros Hc. unfold MongoStorage.findByCategory. rewrite Hc.
  destruct options as [[[|n]|] [[|k]|] c]; reflexivity.
Qed.

(** X5. [findByCategory] on a connected store returns documents of the
    requested category only, in the order of the collection and without
    repetition of a position; a positive limit bounds their number; a
    limit of zero, like an absent one, does not limit; on a store that
    is not connected it throws. *)
Theorem findByCategory_results :
  forall (coll : list MongoStorage.StoredPlace) (category : string)
         (options : Types.QueryOptions.t),
    (exists found,
        MongoStorage.findByCategory
          {| MongoStorage.collection := Some coll |} category options
        = JS.Normal found
        /\ found `sublist_of` coll
        /\ Forall (fun d => Types.ProcessedPlace.category (MongoStorage.place d)
                            = category) found
        /\ (forall n, Types.QueryOptions.limit options = Some (S n) ->
                      (length found <= S n)%nat))
    /\ MongoStorage.findByCategory
         {| MongoStorage.collection := Some coll |} category
         (page (Types.QueryOptions.skip options) (Some 0%nat))
       = MongoStorage.findByCategory
           {| MongoStorage.collection := Some coll |} category
           (page (Types.QueryOptions.skip options) None)
    /\ MongoStorage.findByCategory
         {| MongoStorage.collection := None |} category options
       = JS.Throw (JS.Error "Not connected to MongoDB").
Proof.
  intros coll category options. split; [|split; reflexivity].
  eexists. split; [by apply findByCategory_connected|].
  cbv zeta.
  set (rest := drop _ (inCategory category coll)).
  assert (Hrest : rest `sublist_of` inCategory category coll)
    by apply sublist_drop.
  assert (Hsub : rest `sublist_of` coll)
    by (etrans; [exact Hrest|apply filter_sublist]).
  assert (Hcat : Forall (fun d => Types.ProcessedPlace.category
                                    (MongoStorage.place d) = category) rest).
  { apply Forall_drop, List.Forall_forall. intros d [_ Hd]%filter_In.
    by apply bool_decide_eq_true in Hd. }
  destruct (MongoStorage.truthyCount (Types.QueryOptions.limit options)) eqn:Hl.
  - split; [etrans; [apply sublist_take|exact Hsub]|].
    split; [by apply Forall_take|].
    intros n Hn. rewrite Hn. cbn. rewrite length_take. lia.
  - split; [done|]. split; [done|].
    intros n Hn. rewrite Hn in Hl. discriminate.
Qed.

Lemma findByCategory_results_witness :
  exists found,
    MongoStorage.findByCategory
      {| MongoStorage.collection :=
           Some [storedFirst museumBefore; bareLocation;
                 storedFirst (placeAt "node/2" "Gallery" 80 7 1000%N)] |}
      "tourism" (page None (Some 1%nat))
    = JS.Normal found
    /\ (length found <= 1)%nat.
Proof.
  destruct (findByCategory_results
              [storedFirst museumBefore; bareLocation;
               storedFirst (placeAt "node/2" "Gallery" 80 7 1000%N)]
              "tourism" (page None (Some 1%nat)))
    as ((found & Hrun & _ & _ & Hlimit) & _).
  exists found. split; [exact Hrun|]. apply (Hlimit 0%nat). reflexivity.
Defined.

(** X6. Pages of [findByCategory] tile the category: a page of a
    positive size taken after [k] documents, followed by everything
    after [k + size] documents, is everything after [k] documents. *)
Theorem findByCategory_pages_compose :
  forall (coll : list MongoStorage.StoredPlace) (category : string)
         (k size : nat),
    (0 < size)%nat ->
    exists first rest all,
      MongoStorage.findByCategory
        {| MongoStorage.collection := Some coll |} category
        (page (Some k) (Some size))
      = JS.Normal first
      /\ MongoStorage.findByCategory
           {| MongoStorage.collection := Some coll |} category
           (page (Some (k + size)%nat) None)
         = JS.Normal rest
      /\ MongoStorage.findByCategory
           {| MongoStorage.collection := Some coll |} category
           (page (Some k) None)
         = JS.Normal all
      /\ first ++ rest = all
      /\ all = drop k (inCategory category coll).
Proof.
  intros coll category k size Hsize.
  eexists _, _, _.
  split; [by apply findByCategory_connected|].
  split; [by apply findByCategory_connected|].
  split; [by apply findByCategory_connected|].
  destruct size as [|size]; [lia|]. cbn [page Types.QueryOptions.limit Types.QueryOptions.skip].
  assert (Hk : forall j,
             drop (if MongoStorage.truthyCount (Some j)
                   then default 0%nat (Some j) else 0%nat)
               (inCategory category coll)
             = drop j (inCategory category coll))
    by (by intros [|j]).
  rewrite !Hk. cbn [MongoStorage.truthyCount default from_option].
  split; [|reflexivity].
  rewrite <- drop_drop. apply take_drop.
Qed.

Lemma findByCategory_pages_compose_witness :
  exists first rest all,
    MongoStorage.findByCategory
      {| MongoStorage.collection :=
           Some [storedFirst museumBefore; bareLocation;
                 storedFirst (placeAt "node/2" "Gallery" 80 7 1000%N)] |}
      "tourism" (page (Some 0%nat) (Some 1%nat))
    = JS.Normal first
    /\ MongoStorage.findByCategory
         {| MongoStorage.collection :=
              Some [storedFirst museumBefore; bareLocation;
                    storedFirst (placeAt "node/2" "Gallery" 80 7 1000%N)] |}
         "tourism" (page (Some 1%nat) None)
       = JS.Normal rest
    /\ MongoStorage.findByCategory
         {| MongoStorage.collection :=
              Some [storedFirst museumBefore; bareLocation;
                    storedFirst (placeAt "node/2" "Gallery" 80 7 1000%N)] |}
         "tourism" (page (Some 0%nat) None)
       = JS.Normal all
    /\ first ++ rest = all.
Proof.
  destruct (findByCategory_pages_compose
              [storedFirst museumBefore; bareLocation;
               storedFirst (placeAt "node/2" "Gallery" 80 7 1000%N)]
              "tourism" 0 1)
    as (first & rest & all & H1 & H2 & H3 & H4 & _); [lia|].
  exists first, rest, all. repeat split; assumption.
Defined.

(** ** osmFetcher: the normaliser as a whole *)

Section NormaliserProperties.
Import JS Types OsmFetcher.

Variable Number_toString : Qc -> string.
Variable clock : nat -> Date.

Lemma resolveCoordinates_representative geometry coordinates :
  resolveCoordinates geometry = Normal coordinates ->
  coordinates = representativePoint geometry.
Proof.
  destruct geometry as [[c|[|[|v r] rs]|[|v r]|ps]|];
    unfold resolveCoordinates;
    try (cbn; congruence); try (by intros [= <-]).
  - rewrite (calculateCentroid_ring (Polygon ((v :: r) :: rs)) (v :: r))
      by done. by intros [= <-].
  - rewrite (calculateCentroid_ring (LineString (v :: r)) (v :: r)) by done.
    by intros [= <-].
Qed.

Lemma Forall2_filter_both {A B} (R : A -> B -> Prop)
    (P : A -> bool) (Q : B -> bool) (l : list A) (k : list B) :
  Forall2 R l k -> (forall x y, R x y -> P x = Q y) ->
  Forall2 R (List.filter P l) (List.filter Q k).
Proof.
  intros HR Hpq. induction HR as [|x y l k Hxy _ IH]; cbn; [constructor|].
  rewrite (Hpq _ _ Hxy). destruct (Q y); [by constructor|done].
Qed.

Lemma processForMongoDB_Forall2 geojson t out t' :
  processForMongoDB Number_toString clock geojson t = Normal (out, t') ->
  t' = (t + length (features geojson))%nat
  /\ Forall2
       (fun f p =>
          exists s, processFeature Number_toString clock f s = Normal (p, S s))
       (List.filter (fun f => located (GeoJSONFeature.geometry f))
          (features geojson))
       out.
Proof.
  unfold processForMongoDB, mbind, M_bind, bind, mret, M_ret, ret.
  destruct (mapM _ _ t) as [[ps t1]|e] eqn:Hmap; [|discriminate].
  intros [= <- <-].
  destruct (mapM_processFeature_Normal _ _ _ _ _ _ Hmap) as [-> Hall].
  split; [done|].
  apply Forall2_filter_both; [done|].
  intros f p [s Hfp]. symmetry. by eapply hasLocation_located.
Qed.

Lemma mapM_processFeature_throws fs t :
  Exists ringless fs ->
  mapM (processFeature Number_toString clock) fs t = Throw TypeError.
Proof.
  revert t. induction fs as [|f fs IH]; intros t Hex.
  - by apply Exists_nil in Hex.
  - cbn. unfold bind at 1.
    destruct (decide (GeoJSONFeature.geometry f = Some (Polygon [])))
      as [Hbad|Hok].
    + unfold processFeature, mbind, M_bind, bind, lift. by rewrite Hbad.
    + destruct (resolveCoordinates_total _ Hok) as [c Hc].
      destruct (processFeature_total Number_toString clock f t c Hc)
        as [p ->].
      apply Exists_cons in Hex as [Hf|Hex]; [done|].
      unfold bind. by rewrite IH.
Qed.

End NormaliserProperties.

(** The places of the output, feature by feature. *)
Lemma processForMongoDB_places :
  forall (Number_toString : Qc -> string) (clock : nat -> JS.Date)
         (geojson : Types.GeoJSONFeatureCollection)
         (t : nat) (out : list Types.ProcessedPlace.t) (t' : nat),
    OsmFetcher.processForMongoDB Number_toString clock geojson t
      = JS.Normal (out, t') ->
    Forall2
      (fun f p =>
         Types.ProcessedPlace.geometry p = Types.GeoJSONFeature.geometry f
         /\ Types.ProcessedPlace.osm_id p = sourceId Number_toString f
         /\ exists c,
              representativePoint (Types.GeoJSONFeature.geometry f) = Some c
              /\ Types.ProcessedPlace.location p
                 = Some {| Types.point_coordinates := c |})
      (List.filter (fun f => located (Types.GeoJSONFeature.geometry f))
         (Types.features geojson))
      out.
Proof.
  intros toS clock geojson t out t' Hrun.
  destruct (processForMongoDB_Forall2 _ _ _ _ _ _ Hrun) as [_ Hall].
  assert (Hloc : Forall (fun f => located (Types.GeoJSONFeature.geometry f) = true)
                   (List.filter
                      (fun f => located (Types.GeoJSONFeature.geometry f))
                      (Types.features geojson))).
  { apply List.Forall_forall. by intros f [_ Hf]%filter_In. }
  clear Hrun.
  induction Hall as [|f p fs ps [s Hfp] _ IH]; [constructor|].
  apply Forall_cons in Hloc as [Hf Hloc].
  constructor; [|by apply IH].
  destruct (processFeature_Normal _ _ _ _ _ _ Hfp)
    as (_ & (c & Hc & Hlocation) & Hid & Hgeom & _).
  split; [done|]. split; [done|].
  apply resolveCoordinates_representative in Hc. subst c.
  rewrite <- (resolveCoordinates_located (Types.GeoJSONFeature.geometry f)
                (representativePoint (Types.GeoJSONFeature.geometry f))) in Hf.
  - destruct (representativePoint _) as [c|]; [|done].
    exists c. by rewrite Hlocation.
  - destruct (Types.GeoJSONFeature.geometry f)
      as [[c|[|[|v r] rs]|[|v r]|ps']|]; try done.
    + unfold OsmFetcher.resolveCoordinates.
      by rewrite (calculateCentroid_ring _ (v :: r)).
    + unfold OsmFetcher.resolveCoordinates.
      by rewrite (calculateCentroid_ring _ (v :: r)).
Qed.

(** X7. Every place [processForMongoDB] returns comes from one input
    feature with a Point, a Polygon with a non-empty first ring or a
    non-empty LineString, in the order of the input: it carries the
    geometry of that feature unchanged, the source id computed from it,
    and as location the Point itself or the mean of the vertices as
    the arithmetic of doubles computes it (the running sum in vertex
    order, divided by the count); no other feature leaves a place.  The
    clock is read once for every input feature, kept or not. *)
Theorem normaliser_output :
  forall (Number_toString : Qc -> string) (clock : nat -> JS.Date)
         (geojson : Types.GeoJSONFeatureCollection)
         (t : nat) (out : list Types.ProcessedPlace.t) (t' : nat),
    OsmFetcher.processForMongoDB Number_toString clock geojson t
      = JS.Normal (out, t') ->
    t' = (t + length (Types.features geojson))%nat
    /\ Forall2
         (fun f p =>
            Types.ProcessedPlace.geometry p = Types.GeoJSONFeature.geometry f
            /\ Types.ProcessedPlace.osm_id p = sourceId Number_toString f
            /\ exists c,
                 representativePoint (Types.GeoJSONFeature.geometry f) = Some c
                 /\ Types.ProcessedPlace.location p
                    = Some {| Types.point_coordinates := c |})
         (List.filter (fun f => located (Types.GeoJSONFeature.geometry f))
            (Types.features geojson))
         out.
Proof.
  intros toS clock geojson t out t' Hrun. split.
  - by destruct (processForMongoDB_Forall2 _ _ _ _ _ _ Hrun) as [-> _].
  - by eapply processForMongoDB_places.
Qed.

Lemma normaliser_output_witness :
  3%nat = (0 + 3)%nat
  /\ Forall2
       (fun f p =>
          Types.ProcessedPlace.geometry p = Types.GeoJSONFeature.geometry f
          /\ Types.ProcessedPlace.osm_id p = sourceId QueryBuilder.intToString f
          /\ exists c,
               representativePoint (Types.GeoJSONFeature.geometry f) = Some c
               /\ Types.ProcessedPlace.location p
                  = Some {| Types.point_coordinates := c |})
       [museumNode]
       [placeAt "node/1" "Museum" 80 7 (sampleClock 1)].
Proof.
  apply (normaliser_output QueryBuilder.intToString sampleClock
           {| Types.features := [multiPolygonFeature; museumNode;
                                 nullGeometryFeature] |}
           0 [placeAt "node/1" "Museum" 80 7 (sampleClock 1)] 3).
  reflexivity.
Defined.

(** X8. [processForMongoDB] is all or nothing: a single feature whose
    geometry is a Polygon without rings, anywhere in the collection,
    makes the whole call throw a TypeError; without such a feature the
    call returns. *)
Theorem normaliser_throws_on_ringless_polygon :
  forall (Number_toString : Qc -> string) (clock : nat -> JS.Date)
         (geojson : Types.GeoJSONFeatureCollection) (t : nat),
    (Exists ringless (Types.features geojson) ->
     OsmFetcher.processForMongoDB Number_toString clock geojson t
       = JS.Throw JS.TypeError)
    /\ (Forall (fun f => ~ ringless f) (Types.features geojson) ->
        exists out,
          OsmFetcher.processForMongoDB Number_toString clock geojson t
          = JS.Normal (out, (t + length (Types.features geojson))%nat)).
Proof.
  intros toS clock geojson t. split.
  - intros Hex. unfold OsmFetcher.processForMongoDB, mbind, M_bind, JS.bind.
    by rewrite mapM_processFeature_throws.
  - intros Hall. by apply processForMongoDB_total.
Qed.

Lemma normaliser_throws_on_ringless_polygon_witness :
  OsmFetcher.processForMongoDB QueryBuilder.intToString sampleClock
    {| Types.features :=
         [museumNode;
          {| Types.GeoJSONFeature.id := Some (JS.VStr "way/4");
             Types.GeoJSONFeature.geometry := Some (Types.Polygon []);
             Types.GeoJSONFeature.properties := None |};
          pointFeature] |} 0
  = JS.Throw JS.TypeError
  /\ exists out,
       OsmFetcher.processForMongoDB QueryBuilder.intToString sampleClock
         {| Types.features := [museumNode; pointFeature] |} 0
       = JS.Normal (out, 2%nat).
Proof.
  split.
  - apply (normaliser_throws_on_ringless_polygon QueryBuilder.intToString
             sampleClock).
    apply Exists_cons_tl, Exists_cons_hd. reflexivity.
  - apply (normaliser_throws_on_ringless_polygon QueryBuilder.intToString
             sampleClock {| Types.features := [museumNode; pointFeature] |} 0).
    repeat constructor; discriminate.
Defined.

(** ** The pipeline: normalise, store, export *)

Lemma filter_all_true {A} (P : A -> bool) (l : list A) :
  Forall (fun x => P x = true) l -> List.filter P l = l.
Proof.
  induction 1 as [|x l Hx _ IH]; cbn; [done|]. by rewrite Hx, IH.
Qed.

Lemma filter_all_false {A} (P : A -> bool) (l : list A) :
  Forall (fun x => P x = false) l -> List.filter P l = [].
Proof.
  induction 1 as [|x l Hx _ IH]; cbn; [done|]. by rewrite Hx, IH.
Qed.

Lemma toArray_find_all coll :
  MongoStorage.toArray (MongoStorage.find (fun _ => true) coll) = coll.
Proof.
  unfold MongoStorage.toArray, MongoStorage.find.
  cbn [MongoStorage.selected MongoStorage.cursor_limit
       MongoStorage.cursor_skip Nat.eqb skipn].
  apply filter_all_true, List.Forall_forall. done.
Qed.

(** Storing, into an empty collection, records that are all accepted
    and carry distinct source ids. *)
Lemma store_into_empty
    (rejects : Types.ProcessedPlace.t -> bool) (clock : nat -> JS.Date)
    (fs : list Types.ProcessedPlace.t) (t : nat) :
  Forall (fun f => rejects f = false) fs ->
  NoDup (map Types.ProcessedPlace.osm_id fs) ->
  exists coll',
    MongoStorage.storeFeatures rejects clock
      {| MongoStorage.collection := Some [] |} fs t
    = JS.Normal
        (({| Types.inserted := length fs; Types.updated := 0;
             Types.errors := 0 |},
          {| MongoStorage.collection := Some coll' |}),
         (t + length fs)%nat)
    /\ map MongoStorage.place coll' = fs.
Proof.
  intros Hacc Hnodup.
  assert (Hall : List.filter (accepted rejects) fs = fs).
  { apply filter_all_true. eapply Forall_impl; [exact Hacc|].
    intros f Hf. unfold accepted. by rewrite Hf. }
  assert (Hnone : List.filter rejects fs = []) by by apply filter_all_false.
  destruct (storeLoop_spec rejects clock fs
              {| Types.inserted := 0; Types.updated := 0; Types.errors := 0 |}
              [] t)
    as (results & coll' & Hloop & Herr & _ & _).
  destruct (storeLoop_fresh rejects clock fs
              {| Types.inserted := 0; Types.updated := 0; Types.errors := 0 |}
              [] t results coll' (t + length fs)%nat)
    as (Hins & Hupd & Hcoll); [by rewrite Hall|done|exact Hloop|].
  rewrite Hall in Hins, Hcoll. rewrite Hnone in Herr. cbn in *.
  exists coll'. split; [|done].
  unfold MongoStorage.storeFeatures. cbn.
  unfold mbind, M_bind, JS.bind. rewrite Hloop.
  destruct results as [i u e]. cbn in *. by subst.
Qed.

Lemma map_pair_eq {A B C D} (f1 : A -> C) (f2 : A -> D)
    (g1 : B -> C) (g2 : B -> D) (l : list A) (k : list B) :
  map f1 l = map g1 k -> map f2 l = map g2 k ->
  map (fun x => (f1 x, f2 x)) l = map (fun y => (g1 y, g2 y)) k.
Proof.
  revert k. induction l as [|x l IH]; intros [|y k]; cbn; try done.
  intros [= H1 Hl1] [= H2 Hl2]. by rewrite H1, H2, (IH k).
Qed.

(** X9. Normalising a feature collection, storing the places into an
    empty collection and exporting it gives the features back: when the
    features that get a location carry distinct source ids and the
    server accepts their places, every place is reported inserted, and
    the export lists exactly those features, each once, by source id
    and with the geometry it came with.  Nothing is said of the order
    of the export. *)
Theorem sync_then_export :
  forall (Number_toString : Qc -> string) (clock : nat -> JS.Date)
         (rejects : Types.ProcessedPlace.t -> bool)
         (geojson : Types.GeoJSONFeatureCollection)
         (t : nat) (out : list Types.ProcessedPlace.t) (t1 : nat),
    let kept :=
      List.filter (fun f => located (Types.GeoJSONFeature.geometry f))
        (Types.features geojson) in
    OsmFetcher.processForMongoDB Number_toString clock geojson t
      = JS.Normal (out, t1) ->
    NoDup (map (sourceId Number_toString) kept) ->
    Forall (fun p => rejects p = false) out ->
    exists storage' exported,
      MongoStorage.storeFeatures rejects clock
        {| MongoStorage.collection := Some [] |} out t1
      = JS.Normal
          (({| Types.inserted := length kept; Types.updated := 0;
               Types.errors := 0 |}, storage'),
           (t1 + length kept)%nat)
      /\ MongoStorage.exportAsGeoJSON storage' = JS.Normal exported
      /\ map (fun e => (Types.ExportFeature.id e,
                        Types.ExportFeature.geometry e)) exported
         ≡ₚ map (fun f => (sourceId Number_toString f,
                           Types.GeoJSONFeature.geometry f)) kept.
Proof.
  intros toS clock rejects geojson t out t1 kept Hrun Hnodup Hacc.
  pose proof (processForMongoDB_places _ _ _ _ _ _ Hrun) as Hplaces.
  fold kept in Hplaces.
  assert (Hlen : length out = length kept)
    by (symmetry; by eapply Forall2_length).
  assert (Hids : map Types.ProcessedPlace.osm_id out = map (sourceId toS) kept).
  { clear -Hplaces. induction Hplaces as [|f p fs ps (_ & Hid & _) _ IH];
      cbn; [done|]. by rewrite Hid, IH. }
  destruct (store_into_empty rejects clock out t1 Hacc) as (coll' & Hstore & Hcoll);
    [by rewrite Hids|].
  exists {| MongoStorage.collection := Some coll' |},
    (map MongoStorage.exportFeature coll').
  rewrite <- Hlen. split; [exact Hstore|].
  split.
  { unfold MongoStorage.exportAsGeoJSON. cbn [MongoStorage.collection].
    by rewrite toArray_find_all. }
  erewrite (map_pair_eq Types.ExportFeature.id Types.ExportFeature.geometry);
    [reflexivity| |].
  - rewrite <- Hids, <- Hcoll, !map_map. reflexivity.
  - rewrite map_map.
    transitivity (map Types.ProcessedPlace.geometry out).
    + rewrite <- Hcoll, map_map. apply map_ext_Forall.
      apply List.Forall_forall. intros d Hd. cbn.
      assert (Hp : In (MongoStorage.place d) out)
        by (rewrite <- Hcoll; by apply in_map).
      clear -Hplaces Hp. induction Hplaces as [|f p fs ps Hfp _ IH];
        [destruct Hp|].
      destruct Hp as [->|Hp]; [|by apply IH].
      destruct Hfp as (Hg & _ & c & Hc & _). rewrite Hg.
      by destruct (Types.GeoJSONFeature.geometry f).
    + clear -Hplaces. induction Hplaces as [|f p fs ps (Hg & _) _ IH];
        cbn; [done|]. by rewrite Hg, IH.
Qed.

Lemma sync_then_export_witness :
  exists storage' exported,
    MongoStorage.storeFeatures geoIndexRejects sampleClock
      {| MongoStorage.collection := Some [] |}
      [placeAt "node/1" "Museum" 80 7 (sampleClock 1)] 3
    = JS.Normal
        (({| Types.inserted := 1; Types.updated := 0; Types.errors := 0 |},
          storage'), 4%nat)
    /\ MongoStorage.exportAsGeoJSON storage' = JS.Normal exported
    /\ map (fun e => (Types.ExportFeature.id e,
                      Types.ExportFeature.geometry e)) exported
       ≡ₚ [("node/1", Some (Types.Point (Number.ofQ 80, Number.ofQ 7)))].
Proof.
  apply (sync_then_export QueryBuilder.intToString sampleClock geoIndexRejects
           {| Types.features := [multiPolygonFeature; museumNode;
                                 nullGeometryFeature] |}
           0 [placeAt "node/1" "Museum" 80 7 (sampleClock 1)] 3).
  - reflexivity.
  - apply (bool_decide_unpack _). vm_compute. reflexivity.
  - repeat constructor.
Defined.

(** ** osmFetcher: fields of a place *)

Section FieldProperties.
Import JS Types OsmFetcher.

Variable Number_toString : Qc -> string.
Variable clock : nat -> Date.

Lemma processFeature_fields feature t p t' :
  processFeature Number_toString clock feature t = Normal (p, t') ->
  let props := default ∅ (GeoJSONFeature.properties feature) in
  let tags := selectTags props in
  ProcessedPlace.osm_type p
    = String_ Number_toString
        (orElse (props !! "type")
           (VStr (extractOsmType Number_toString (GeoJSONFeature.id feature))))
  /\ ProcessedPlace.name p
     = String_ Number_toString
         (orElse (or (get tags "name") (get tags "name:en")) (VStr "Unnamed"))
  /\ ProcessedPlace.category p = determineCategory tags
  /\ ProcessedPlace.subcategory p = determineSubcategory tags
  /\ ProcessedPlace.tags p = tags.
Proof.
  unfold processFeature, mbind, M_bind, bind, lift, newDate, mret, M_ret, ret.
  destruct (resolveCoordinates (GeoJSONFeature.geometry feature))
    as [coordinates|e]; [|discriminate].
  intros [= <- <-]. cbn. done.
Qed.

Lemma firstSegment_slashFree s : slashFree (firstSegment s).
Proof.
  unfold slashFree. induction s as [|c s IH]; cbn; [tauto|].
  destruct (Ascii.eqb c "/") eqn:Hc; cbn; [tauto|].
  apply Ascii.eqb_neq in Hc. intros [H|H]; [done|by apply IH].
Qed.

Lemma firstSegment_before_slash a b :
  slashFree a -> firstSegment (a +:+ "/" +:+ b) = a.
Proof.
  unfold slashFree. induction a as [|c a IH]; [done|].
  change (String c a +:+ "/" +:+ b) with (String c (a +:+ "/" +:+ b)).
  cbn. intros Hfree. destruct (Ascii.eqb c "/") eqn:Hc.
  - apply Ascii.eqb_eq in Hc. exfalso. apply Hfree. by left.
  - f_equal. apply IH. intros H. apply Hfree. by right.
Qed.

Lemma truthy_orElse a b :
  truthy (Some b) = true -> truthy (Some (orElse a b)) = true.
Proof.
  unfold orElse. destruct a as [v|]; [|done].
  by destruct (truthy (Some v)) eqn:Hv.
Qed.

(** [String] of a truthy value is empty for an array only. *)
Lemma String_empty v :
  (forall n, Number_toString n <> "") ->
  truthy (Some v) = true -> String_ Number_toString v = "" ->
  exists items, v = VArr items.
Proof.
  intros HtoS. destruct v as [[|[]|n|s]|o|items]; cbn; try done.
  - intros _ Hn. by apply HtoS in Hn.
  - intros Hs%negb_true_iff Hempty. by apply bool_decide_eq_false in Hs.
  - intros _ _. by exists items.
Qed.

Lemma firstSegment_spec s : beforeSlash (firstSegment s) s.
Proof.
  induction s as [|c s (rest & Hs & Hfree & Hrest)]; cbn.
  - exists "". split; [done|]. split; [|by left]. unfold slashFree. cbn. tauto.
  - destruct (Ascii.eqb c "/") eqn:Hc.
    + apply Ascii.eqb_eq in Hc. subst c. exists (String "/" s).
      split; [done|]. split; [|right; by exists s].
      unfold slashFree. cbn. tauto.
    + apply Ascii.eqb_neq in Hc. exists rest.
      split.
      { change (String c (firstSegment s) +:+ rest)
          with (String c (firstSegment s +:+ rest)). by rewrite <- Hs. }
      split; [|done].
      unfold slashFree in *. cbn. intros [H|H]; [done|by apply Hfree].
Qed.

Lemma beforeSlash_firstSegment part s :
  beforeSlash part s -> part = firstSegment s.
Proof.
  intros (rest & -> & Hfree & Hrest). unfold slashFree in Hfree.
  induction part as [|c part IH].
  - destruct Hrest as [->|[after ->]]; done.
  - change (String c part +:+ rest) with (String c (part +:+ rest)).
    cbn in *. destruct (Ascii.eqb c "/") eqn:Hc.
    + apply Ascii.eqb_eq in Hc. exfalso. apply Hfree. by left.
    + f_equal. apply IH. intros H. apply Hfree. by right.
Qed.

Lemma extractOsmType_nonempty id :
  extractOsmType Number_toString id <> ""
  /\ slashFree (extractOsmType Number_toString id).
Proof.
  assert (Hunknown : "unknown" <> "" /\ slashFree "unknown").
  { split; [done|]. unfold slashFree. cbn. intros H.
    repeat (destruct H as [H|H]; [discriminate|]). done. }
  unfold extractOsmType. destruct id as [v|]; [|done].
  destruct (negb (truthy (Some v))); [done|].
  cbv zeta. case_bool_decide as Hpart; cbn; [done|].
  split; [done|apply firstSegment_slashFree].
Qed.

End FieldProperties.

(** X11. [extractOsmType] returns what precedes the first slash of
    [String(id)], all of it when it has no slash, and "unknown" when
    that part is empty or the id is falsy.  The normaliser uses the
    result as [osm_type] when the properties carry no truthy type. *)
Theorem extractOsmType_reads_type :
  forall (Number_toString : Qc -> string) (clock : nat -> JS.Date),
    (forall id,
        JS.truthy id = false ->
        OsmFetcher.extractOsmType Number_toString id = "unknown")
    /\ (forall v part,
          JS.truthy (Some v) = true ->
          beforeSlash part (JS.String_ Number_toString v) ->
          OsmFetcher.extractOsmType Number_toString (Some v)
          = if bool_decide (part = "") then "unknown" else part)
    /\ (forall feature t p t',
          JS.truthy
            (default ∅ (Types.GeoJSONFeature.properties feature) !! "type")
            = false ->
          OsmFetcher.processFeature Number_toString clock feature t
            = JS.Normal (p, t') ->
          Types.ProcessedPlace.osm_type p
          = OsmFetcher.extractOsmType Number_toString
              (Types.GeoJSONFeature.id feature)).
Proof.
  intros toS clock. split; [|split].
  - intros id Hid. unfold OsmFetcher.extractOsmType.
    destruct id; [|done]. by rewrite Hid.
  - intros v part Hv Hpart. unfold OsmFetcher.extractOsmType.
    rewrite Hv. cbn [negb]. cbv zeta.
    rewrite <- (beforeSlash_firstSegment _ _ Hpart).
    by case_bool_decide.
  - intros feature t p t' Hprop Hrun.
    destruct (processFeature_fields _ _ _ _ _ _ Hrun) as (-> & _).
    cbv zeta. unfold JS.orElse.
    destruct (_ !! "type") as [v|]; [|done]. by rewrite Hprop.
Qed.

Lemma extractOsmType_reads_type_witness :
  OsmFetcher.extractOsmType QueryBuilder.intToString (Some (JS.VStr "node"))
  = (if bool_decide ("node" = "") then "unknown" else "node").
Proof.
  destruct (extractOsmType_reads_type QueryBuilder.intToString sampleClock)
    as (_ & Hpart & _).
  apply Hpart; [reflexivity|].
  exists "". split; [reflexivity|]. split; [|by left].
  unfold slashFree. cbn. intros H.
  repeat (destruct H as [H|H]; [discriminate|]). exact H.
Defined.

(** X12. When the tags of a feature are strings, the [name] of its
    place is [tags.name], or else [tags["name:en"]], or else "Unnamed",
    an empty value counting as absent, and so is never empty.  In
    general the [name] and the [osm_type] of a place are empty only when
    the value rendered for them is an array that renders to the empty
    string, such as [[]] (numbers being rendered by non-empty
    numerals). *)
Theorem place_name_and_type :
  forall (Number_toString : Qc -> string) (clock : nat -> JS.Date)
         (feature : Types.GeoJSONFeature.t) (t : nat)
         (p : Types.ProcessedPlace.t) (t' : nat),
    OsmFetcher.processFeature Number_toString clock feature t
      = JS.Normal (p, t') ->
    (forall o : gmap string string,
        default ∅ (Types.GeoJSONFeature.properties feature) !! "tags"
          = Some (JS.VObj ((fun s => JS.IStr s) <$> o)) ->
        Types.ProcessedPlace.name p
          = firstNonEmpty [o !! "name"; o !! "name:en"] "Unnamed"
        /\ Types.ProcessedPlace.name p <> "")
    /\ ((forall n, Number_toString n <> "") ->
        Types.ProcessedPlace.name p = "" ->
        exists items,
          JS.or
            (OsmFetcher.get (Types.ProcessedPlace.tags p) "name")
            (OsmFetcher.get (Types.ProcessedPlace.tags p) "name:en")
          = Some (JS.VArr items)
          /\ JS.String_ Number_toString (JS.VArr items) = "")
    /\ ((forall n, Number_toString n <> "") ->
        Types.ProcessedPlace.osm_type p = "" ->
        exists items,
          default ∅ (Types.GeoJSONFeature.properties feature) !! "type"
          = Some (JS.VArr items)
          /\ JS.String_ Number_toString (JS.VArr items) = "").
Proof.
  intros toS clock feature t p t' Hrun.
  destruct (processFeature_fields _ _ _ _ _ _ Hrun)
    as (Htype & Hname & _ & _ & Htags).
  cbv zeta in Htype, Hname, Htags. split; [|split].
  - intros o Ho. rewrite Hname.
    unfold OsmFetcher.selectTags. rewrite Ho.
    unfold OsmFetcher.get, JS.or, JS.orElse. rewrite !lookup_fmap.
    destruct (o !! "name") as [s1|]; destruct (o !! "name:en") as [s2|];
      cbn; repeat case_bool_decide; cbn; repeat case_bool_decide; done.
  - intros HtoS Hempty. rewrite Hname in Hempty. rewrite Htags.
    unfold JS.orElse in Hempty.
    destruct (JS.or _ _) as [v|] eqn:Hv; [|done].
    destruct (JS.truthy (Some v)) eqn:Htruthy; [|done].
    destruct (String_empty toS v HtoS Htruthy Hempty) as [items ->].
    by exists items.
  - intros HtoS Hempty. rewrite Htype in Hempty.
    unfold JS.orElse in Hempty.
    destruct (_ !! "type") as [v|] eqn:Hv.
    + destruct (JS.truthy (Some v)) eqn:Htruthy.
      * destruct (String_empty toS v HtoS Htruthy Hempty) as [items ->].
        by exists items.
      * cbn in Hempty. by apply extractOsmType_nonempty in Hempty.
    + cbn in Hempty. by apply extractOsmType_nonempty in Hempty.
Qed.

Lemma numeral_nonempty n : numeral n <> "".
Proof.
  unfold numeral. destruct (Z.to_int _) as [d|d]; cbn; [|done].
  by destruct d.
Qed.

Lemma place_name_and_type_witness :
  Types.ProcessedPlace.name (placeAt "node/1" "Museum" 80 7 (sampleClock 0))
  = firstNonEmpty
      [(<["name" := "Museum"]> (<["tourism" := "museum"]> ∅)
          : gmap string string) !! "name";
       (<["name" := "Museum"]> (<["tourism" := "museum"]> ∅)
          : gmap string string) !! "name:en"]
      "Unnamed"
  /\ Types.ProcessedPlace.name (placeAt "node/1" "Museum" 80 7 (sampleClock 0))
     <> "".
Proof.
  destruct (place_name_and_type numeral sampleClock
              museumNode 0 (placeAt "node/1" "Museum" 80 7 (sampleClock 0)) 1)
    as (Hname & _); [reflexivity|].
  apply Hname. reflexivity.
Defined.

(** An empty array for [name] and for [type] gives a place whose [name]
    and [osm_type] are empty. *)
Example empty_array_name :
  exists p,
    OsmFetcher.processFeature numeral sampleClock arrayNamed 0
    = JS.Normal (p, 1%nat)
    /\ Types.ProcessedPlace.name p = ""
    /\ Types.ProcessedPlace.osm_type p = "".
Proof. eexists. split; [vm_compute; reflexivity|]. by split. Qed.

Lemma or_truthy_l a b : JS.truthy a = true -> JS.or a b = a.
Proof. unfold JS.or. by intros ->. Qed.

Lemma or_falsy_l a b : JS.truthy a = false -> JS.or a b = b.
Proof. unfold JS.or. by intros ->. Qed.

Lemma orElse_truthy v b :
  JS.truthy (Some v) = true -> JS.orElse (Some v) b = v.
Proof. unfold JS.orElse. by intros ->. Qed.

Lemma orElse_falsy a b : JS.truthy a = false -> JS.orElse a b = b.
Proof. unfold JS.orElse. intros H. destruct a; [by rewrite H|done]. Qed.

(** X13. Category and subcategory agree on every value of [tags],
    strings or not: the category is one of the five keys or "other";
    when it is a key, the subcategory is the truthy value the tags hold
    under that very key; when it is "other", none of the five keys
    holds a truthy value and the subcategory is "unknown". *)
Theorem category_names_subcategory_key :
  forall tags : Types.TagsRef,
    let category := OsmFetcher.determineCategory tags in
    let subcategory := OsmFetcher.determineSubcategory tags in
    (category = "other" \/ In category priority)
    /\ (category <> "other" ->
        OsmFetcher.get tags category = Some subcategory
        /\ JS.truthy (Some subcategory) = true)
    /\ (category = "other" ->
        subcategory = JS.VStr "unknown"
        /\ Forall (fun key => JS.truthy (OsmFetcher.get tags key) = false)
             priority).
Proof.
  intros tags. cbv zeta.
  unfold OsmFetcher.determineCategory, OsmFetcher.determineSubcategory,
    priority.
  destruct (JS.truthy (OsmFetcher.get tags "tourism")) eqn:H1.
  { rewrite !(or_truthy_l _ _ H1).
    destruct (OsmFetcher.get tags "tourism") as [v|] eqn:E; [|done].
    rewrite (orElse_truthy _ _ H1). cbn [In]. split; [tauto|]. done. }
  rewrite (or_falsy_l _ _ H1).
  destruct (JS.truthy (OsmFetcher.get tags "amenity")) eqn:H2.
  { rewrite !(or_truthy_l _ _ H2).
    destruct (OsmFetcher.get tags "amenity") as [v|] eqn:E; [|done].
    rewrite (orElse_truthy _ _ H2). cbn [In]. split; [tauto|]. done. }
  rewrite (or_falsy_l _ _ H2).
  destruct (JS.truthy (OsmFetcher.get tags "historic")) eqn:H3.
  { rewrite !(or_truthy_l _ _ H3).
    destruct (OsmFetcher.get tags "historic") as [v|] eqn:E; [|done].
    rewrite (orElse_truthy _ _ H3). cbn [In]. split; [tauto|]. done. }
  rewrite (or_falsy_l _ _ H3).
  destruct (JS.truthy (OsmFetcher.get tags "natural")) eqn:H4.
  { rewrite !(or_truthy_l _ _ H4).
    destruct (OsmFetcher.get tags "natural") as [v|] eqn:E; [|done].
    rewrite (orElse_truthy _ _ H4). cbn [In]. split; [tauto|]. done. }
  rewrite (or_falsy_l _ _ H4).
  destruct (JS.truthy (OsmFetcher.get tags "leisure")) eqn:H5.
  { destruct (OsmFetcher.get tags "leisure") as [v|] eqn:E; [|done].
    rewrite (orElse_truthy _ _ H5). cbn [In]. split; [tauto|]. done. }
  rewrite (orElse_falsy _ _ H5).
  split; [by left|]. split; [done|]. intros _. split; [done|].
  repeat constructor; done.
Qed.

Lemma category_names_subcategory_key_witness :
  OsmFetcher.get
    (Types.TagsObject
       (<["amenity" := JS.VNum (Q2Qc 3)]> (<["tourism" := JS.VStr ""]> ∅)))
    "amenity"
  = Some (OsmFetcher.determineSubcategory
            (Types.TagsObject
               (<["amenity" := JS.VNum (Q2Qc 3)]>
                  (<["tourism" := JS.VStr ""]> ∅))))
  /\ JS.truthy
       (Some (OsmFetcher.determineSubcategory
                (Types.TagsObject
                   (<["amenity" := JS.VNum (Q2Qc 3)]>
                      (<["tourism" := JS.VStr ""]> ∅))))) = true.
Proof.
  destruct (category_names_subcategory_key
              (Types.TagsObject
                 (<["amenity" := JS.VNum (Q2Qc 3)]>
                    (<["tourism" := JS.VStr ""]> ∅))))
    as (_ & Hkey & _).
  apply Hkey. vm_compute. discriminate.
Defined.

(** ** queryBuilder: one dimension against the comprehensive query *)

Lemma join_app sep (xs ys : list string) :
  xs <> [] -> ys <> [] ->
  join sep (xs ++ ys) = join sep xs +:+ sep +:+ join sep ys.
Proof.
  intros Hxs Hys. induction xs as [|x xs IH]; [done|].
  destruct xs as [|x' xs].
  - cbn [app join]. by destruct ys.
  - change (x +:+ sep +:+ join sep ((x' :: xs) ++ ys)
            = (x +:+ sep +:+ join sep (x' :: xs)) +:+ sep +:+ join sep ys).
    rewrite IH by done. by rewrite !append_assoc.
Qed.

Lemma interleaved_Permutation {A B} (f g : A -> B) (xs : list A) :
  Permutation (flat_map (fun x => [f x; g x]) xs) (map f xs ++ map g xs).
Proof.
  induction xs as [|x xs IH]; cbn; [done|].
  constructor. rewrite IH. apply Permutation_middle.
Qed.

(** X14. For a non-empty tag list, the query of a single-dimension
    builder is the clauses of the list, all node clauses before all way
    clauses, joined between the header with budget 180 and the footer;
    these are the clauses of the comprehensive query for that dimension
    alone, in another order (there node and way alternate).  For an
    empty list the single-dimension query still holds a lone
    separator. *)
Theorem single_dimension_query_clauses :
  forall (Number_toString : Qc -> string)
         (this : QueryBuilder.OverpassQueryBuilder)
         (d : QueryBuilder.Dimension) (tags : list string),
    (tags <> [] ->
     builderOf Number_toString d this tags
     = QueryBuilder.header "180"
         +:+ join QueryBuilder.sep
               (keyClauses Number_toString (keyOf d) this tags)
         +:+ QueryBuilder.footer)
    /\ Permutation
         (keyClauses Number_toString (keyOf d) this tags)
         (QueryBuilder.comprehensiveFilters Number_toString this (only d tags))
    /\ builderOf Number_toString d this []
       = QueryBuilder.header "180" +:+ QueryBuilder.sep +:+ QueryBuilder.footer.
Proof.
  intros toS this d tags. split; [|split].
  - intros Hne.
    assert (Hbuild : builderOf toS d this tags
                     = QueryBuilder.buildKeyQuery toS (keyOf d) this tags)
      by (by destruct d).
    rewrite Hbuild. unfold QueryBuilder.buildKeyQuery, keyClauses. cbv zeta.
    rewrite join_app by (by destruct tags).
    unfold QueryBuilder.sep. by rewrite !append_assoc.
  - unfold keyClauses. cbv zeta.
    rewrite <- interleaved_Permutation.
    unfold QueryBuilder.comprehensiveFilters, only.
    rewrite !pushTags_app. by destruct d; cbn; rewrite ?app_nil_r.
  - destruct d; unfold QueryBuilder.sep; cbn; by rewrite ?append_assoc.
Qed.

Lemma single_dimension_query_clauses_witness :
  QueryBuilder.buildTourismQuery QueryBuilder.intToString sampleBuilder
    ["museum"; "hotel"]
  = QueryBuilder.header "180"
      +:+ join QueryBuilder.sep
            (keyClauses QueryBuilder.intToString "tourism" sampleBuilder
               ["museum"; "hotel"])
      +:+ QueryBuilder.footer.
Proof.
  apply (single_dimension_query_clauses QueryBuilder.intToString sampleBuilder
           QueryBuilder.Tourism ["museum"; "hotel"]).
  discriminate.
Defined.

(** ** The fetch methods and the scripts *)

Lemma lowerAscii_idem c :
  Scripts.lowerAscii (Scripts.lowerAscii c) = Scripts.lowerAscii c.
Proof. by destruct c as [[] [] [] [] [] [] [] []]. Qed.

Lemma toLowerCase_idem s :
  Scripts.toLowerCase (Scripts.toLowerCase s) = Scripts.toLowerCase s.
Proof.
  induction s as [|c s IH]; [done|]. cbn. by rewrite lowerAscii_idem, IH.
Qed.

Lemma requests_app tr1 tr2 : requests (tr1 ++ tr2) = requests tr1 ++ requests tr2.
Proof. apply flat_map_app. Qed.

Lemma pauses_app tr1 tr2 : pauses (tr1 ++ tr2) = (pauses tr1 + pauses tr2)%nat.
Proof. unfold pauses. by rewrite List.filter_app, length_app. Qed.

Lemma categoryReports_app tr1 tr2 :
  categoryReports (tr1 ++ tr2)
  = (categoryReports tr1 + categoryReports tr2)%nat.
Proof. unfold categoryReports. by rewrite List.filter_app, length_app. Qed.

Section ScriptLemmas.
Import JS Types Scripts.

Variable w : World.t.

Abbreviation saveCategoryIn :=
  (saveCategory (World.OSMResponse w) (World.Number_toString w)
     (World.config w) (World.executeQuery w) (World.osmtogeojson w)
     (World.writeFileSync w)).
Abbreviation saveAllIn :=
  (saveAll (World.OSMResponse w) (World.Number_toString w) (World.clock w)
     (World.config w) (World.executeQuery w) (World.osmtogeojson w)
     (World.writeFileSync w)).

(** The four shapes of an iteration of the loop of [fetchOsmData]. *)
Lemma saveCategory_cases category :
  let sent := snd (fetchByCategoryIn w category) in
  let filename := "sri-lanka-" +:+ category +:+ ".geojson" in
  saveCategoryIn category = sent ++ [Sleep 2000]
  \/ saveCategoryIn category = sent ++ [WriteFile filename; Sleep 2000]
  \/ saveCategoryIn category = sent ++ [WriteFile filename; Report category]
  \/ saveCategoryIn category = sent ++ [Report category].
Proof.
  unfold saveCategory, fetchByCategoryIn.
  destruct (fetchByCategory _ _ _ _ _ category) as [[geojson|e] sent]; cbn.
  - destruct (features geojson); cbn; [by left|].
    destruct (World.writeFileSync w _); [right; by left|right; right; by left].
  - by repeat right.
Qed.

Lemma fetchByCategory_dimension (d : QueryBuilder.Dimension) :
  snd (fetchByCategoryIn w (keyOf d)) = [Request (categoryQuery w d)].
Proof. by destruct d. Qed.

Lemma saveCategory_dimension (d : QueryBuilder.Dimension) :
  keyOf d ∈ categories ->
  requests (saveCategoryIn (keyOf d)) = [categoryQuery w d]
  /\ (pauses (saveCategoryIn (keyOf d))
      + categoryReports (saveCategoryIn (keyOf d)) = 1)%nat
  /\ WriteFile "sri-lanka-processed.json" ∉ saveCategoryIn (keyOf d).
Proof.
  intros Hd.
  destruct (saveCategory_cases (keyOf d)) as [H|[H|[H|H]]];
    rewrite H, fetchByCategory_dimension; cbn;
    unfold pauses, categoryReports; cbn;
    rewrite ?bool_decide_eq_true_2 by done;
    (split; [done|split; [done|]]);
    intros Hin; repeat (apply elem_of_cons in Hin as [Hin|Hin]; 
                        [try discriminate|]); try (by apply elem_of_nil in Hin);
    destruct d; vm_compute in Hin; discriminate.
Qed.

(** The second part of [fetchOsmData] sends the combined query and
    neither pauses nor reports about a category. *)
Lemma saveAll_counts t :
  requests (saveAllIn t) = [comprehensiveQuery w]
  /\ pauses (saveAllIn t) = 0%nat
  /\ categoryReports (saveAllIn t) = 0%nat.
Proof.
  unfold saveAll, fetchAllData, fetchWith.
  destruct (World.executeQuery w _) as [osm|e]; [|done].
  destruct (World.osmtogeojson w osm) as [allData|e]; [|done].
  destruct (World.writeFileSync w "sri-lanka-all-tourism.geojson"); [|done].
  destruct (OsmFetcher.processForMongoDB _ _ allData t) as [[out t']|e];
    [|done].
  by destruct (World.writeFileSync w "sri-lanka-processed.json").
Qed.

End ScriptLemmas.

(** X15. [fetchOsmData] sends the same five queries in the same order
    whatever fails on the way: the tourism, historic, natural and
    leisure queries of the configured tags, then the combined query; no
    amenity query is sent.  After each of the four categories it either
    pauses or reports an error, never both, so a failed category is
    followed at once by the next request. *)
Theorem fetchOsmData_survives_failures :
  forall (w : World.t) (t : nat),
    World.ensureDir w = None ->
    Scripts.ending (fetchOsmDataIn w t) = Scripts.Returned
    /\ requests (Scripts.trace (fetchOsmDataIn w t))
       = [categoryQuery w QueryBuilder.Tourism;
          categoryQuery w QueryBuilder.Historic;
          categoryQuery w QueryBuilder.Natural;
          categoryQuery w QueryBuilder.Leisure;
          comprehensiveQuery w]
    /\ (pauses (Scripts.trace (fetchOsmDataIn w t))
        + categoryReports (Scripts.trace (fetchOsmDataIn w t)) = 4)%nat.
Proof.
  intros w t Hdir. unfold fetchOsmDataIn, Scripts.fetchOsmData.
  rewrite Hdir. cbn [Scripts.ending Scripts.trace].
  split; [done|].
  destruct (saveCategory_dimension w QueryBuilder.Tourism) as (R1 & P1 & _);
    [set_solver|].
  destruct (saveCategory_dimension w QueryBuilder.Historic) as (R2 & P2 & _);
    [set_solver|].
  destruct (saveCategory_dimension w QueryBuilder.Natural) as (R3 & P3 & _);
    [set_solver|].
  destruct (saveCategory_dimension w QueryBuilder.Leisure) as (R4 & P4 & _);
    [set_solver|].
  destruct (saveAll_counts w t) as (R5 & P5 & C5).
  cbn [keyOf] in *.
  change (Scripts.EnsureDir :: ?l) with ([Scripts.EnsureDir] ++ l).
  cbn [flat_map Scripts.categories].
  rewrite !requests_app, !pauses_app, !categoryReports_app.
  rewrite R1, R2, R3, R4, R5, P5, C5. split; [done|].
  change (pauses [Scripts.EnsureDir]) with 0%nat.
  change (categoryReports [Scripts.EnsureDir]) with 0%nat.
  change (pauses []) with 0%nat. change (categoryReports []) with 0%nat.
  lia.
Qed.

Lemma fetchOsmData_survives_failures_witness :
  Scripts.ending (fetchOsmDataIn (sampleWorld rateLimited None) 0)
  = Scripts.Returned
  /\ requests (Scripts.trace (fetchOsmDataIn (sampleWorld rateLimited None) 0))
     = [categoryQuery (sampleWorld rateLimited None) QueryBuilder.Tourism;
        categoryQuery (sampleWorld rateLimited None) QueryBuilder.Historic;
        categoryQuery (sampleWorld rateLimited None) QueryBuilder.Natural;
        categoryQuery (sampleWorld rateLimited None) QueryBuilder.Leisure;
        comprehensiveQuery (sampleWorld rateLimited None)]
  /\ (pauses (Scripts.trace (fetchOsmDataIn (sampleWorld rateLimited None) 0))
      + categoryReports
          (Scripts.trace (fetchOsmDataIn (sampleWorld rateLimited None) 0))
      = 4)%nat.
Proof.
  apply (fetchOsmData_survives_failures (sampleWorld rateLimited None) 0).
  reflexivity.
Defined.

Example fetchOsmData_rate_limited :
  pauses (Scripts.trace (fetchOsmDataIn (sampleWorld rateLimited None) 0))
  = 0%nat.
Proof. reflexivity. Qed.

(** [processForMongoDB] either throws a TypeError, on a collection with
    a Polygon without rings, or returns, on a collection without. *)
Lemma processForMongoDB_outcome
    (Number_toString : Qc -> string) (clock : nat -> JS.Date)
    (geojson : Types.GeoJSONFeatureCollection) (t : nat) :
  (Exists ringless (Types.features geojson)
   /\ OsmFetcher.processForMongoDB Number_toString clock geojson t
      = JS.Throw JS.TypeError)
  \/ (Forall (fun f => ~ ringless f) (Types.features geojson)
      /\ exists out,
           OsmFetcher.processForMongoDB Number_toString clock geojson t
           = JS.Normal (out, (t + length (Types.features geojson))%nat)).
Proof.
  destruct (Forall_Exists_dec (fun f => ~ ringless f) ringless
              (fun f => match decide (ringless f) with
                        | left H => right H
                        | right H => left H
                        end)
              (Types.features geojson)) as [Hall|Hex].
  - right. split; [done|]. by apply processForMongoDB_total.
  - left. split; [done|].
    unfold OsmFetcher.processForMongoDB, mbind, M_bind, JS.bind.
    by rewrite mapM_processFeature_throws.
Qed.

(** [storeFeatures] on a connected storage returns, and the keys of the
    collection before are a prefix of the keys after. *)
Lemma storeFeatures_keys
    (rejects : Types.ProcessedPlace.t -> bool) (clock : nat -> JS.Date)
    (coll : list MongoStorage.StoredPlace)
    (fs : list Types.ProcessedPlace.t) (t : nat) :
  exists results coll' added,
    MongoStorage.storeFeatures rejects clock
      {| MongoStorage.collection := Some coll |} fs t
    = JS.Normal
        ((results, {| MongoStorage.collection := Some coll' |}),
         (t + length fs)%nat)
    /\ keys coll' = keys coll ++ added
    /\ length added = Types.inserted results
    /\ (NoDup (ids coll) -> NoDup (ids coll')).
Proof.
  destruct (storeLoop_keys rejects clock fs
              {| Types.inserted := 0; Types.updated := 0; Types.errors := 0 |}
              coll t)
    as (results & coll' & added & Hloop & Hkeys & Hins & Hkeep).
  exists results, coll', added. cbn in Hins.
  split; [|done].
  unfold MongoStorage.storeFeatures. cbn.
  unfold mbind, M_bind, JS.bind. by rewrite Hloop.
Qed.

(** X16. [fetchOsmData] writes the normalised file only after the
    combined collection has been fetched, written raw and normalised
    without error: with a Polygon without rings in the combined
    collection the raw file is written, the normalised file is not, and
    the script ends on the report of that error. *)
Theorem fetchOsmData_processed_file :
  forall (w : World.t) (t : nat),
    World.ensureDir w = None ->
    (Scripts.WriteFile "sri-lanka-processed.json"
       ∈ Scripts.trace (fetchOsmDataIn w t) ->
     exists allData,
       fst (fetchAllDataIn w) = JS.Normal allData
       /\ Forall (fun f => ~ ringless f) (Types.features allData)
       /\ World.writeFileSync w "sri-lanka-all-tourism.geojson" = true)
    /\ (forall allData,
          fst (fetchAllDataIn w) = JS.Normal allData ->
          Exists ringless (Types.features allData) ->
          World.writeFileSync w "sri-lanka-all-tourism.geojson" = true ->
          (Scripts.WriteFile "sri-lanka-processed.json"
             ∉ Scripts.trace (fetchOsmDataIn w t))
          /\ Scripts.WriteFile "sri-lanka-all-tourism.geojson"
               ∈ Scripts.trace (fetchOsmDataIn w t)
          /\ last (Scripts.trace (fetchOsmDataIn w t))
             = Some (Scripts.Report "all")).
Proof.
  intros w t Hdir.
  assert (Hcats :
    Scripts.WriteFile "sri-lanka-processed.json"
      ∉ flat_map
          (Scripts.saveCategory (World.OSMResponse w) (World.Number_toString w)
             (World.config w) (World.executeQuery w) (World.osmtogeojson w)
             (World.writeFileSync w))
          Scripts.categories).
  { destruct (saveCategory_dimension w QueryBuilder.Tourism) as (_ & _ & N1);
      [set_solver|].
    destruct (saveCategory_dimension w QueryBuilder.Historic) as (_ & _ & N2);
      [set_solver|].
    destruct (saveCategory_dimension w QueryBuilder.Natural) as (_ & _ & N3);
      [set_solver|].
    destruct (saveCategory_dimension w QueryBuilder.Leisure) as (_ & _ & N4);
      [set_solver|].
    cbn [flat_map Scripts.categories]. cbn [keyOf] in *.
    rewrite !not_elem_of_app. repeat split; try done. apply not_elem_of_nil. }
  unfold fetchOsmDataIn, Scripts.fetchOsmData. rewrite Hdir.
  cbn [Scripts.trace]. revert Hcats.
  generalize (flat_map
          (Scripts.saveCategory (World.OSMResponse w) (World.Number_toString w)
             (World.config w) (World.executeQuery w) (World.osmtogeojson w)
             (World.writeFileSync w))
          Scripts.categories) as before.
  intros before Hcats.
  unfold Scripts.saveAll, fetchAllDataIn.
  destruct (Scripts.fetchAllData _ _ _ _ _) as [[allData|e] sent] eqn:Hfetch.
  2:{ split; [|by intros ? [=]]. cbn [fst].
      intros Hin. exfalso.
      apply elem_of_cons in Hin as [[=]|Hin].
      apply elem_of_app in Hin as [Hin|Hin]; [done|].
      unfold Scripts.fetchAllData, Scripts.fetchWith in Hfetch.
      injection Hfetch as _ <-.
      repeat (apply elem_of_cons in Hin as [[=]|Hin]).
      by apply elem_of_nil in Hin. }
  assert (Hsent : exists q, sent = [Scripts.Request q]).
  { unfold Scripts.fetchAllData, Scripts.fetchWith in Hfetch.
    injection Hfetch as _ <-. by eexists. }
  destruct Hsent as [q ->]. cbn [fst].
  destruct (World.writeFileSync w "sri-lanka-all-tourism.geojson") eqn:Hraw.
  2:{ split; [|by intros ? _ _ [=]].
      intros Hin. exfalso.
      apply elem_of_cons in Hin as [[=]|Hin].
      apply elem_of_app in Hin as [Hin|Hin]; [done|].
      repeat (apply elem_of_cons in Hin as [[=]|Hin]).
      by apply elem_of_nil in Hin. }
  destruct (processForMongoDB_outcome (World.Number_toString w)
              (World.clock w) allData t) as [[Hex Hrun]|[Hall [out Hrun]]];
    rewrite Hrun.
  - split.
    + intros Hin. exfalso.
      apply elem_of_cons in Hin as [[=]|Hin].
      apply elem_of_app in Hin as [Hin|Hin]; [done|].
      repeat (apply elem_of_cons in Hin as [[=]|Hin]).
      by apply elem_of_nil in Hin.
    + intros ? [= <-] _ _. split; [|split].
      * intros Hin.
        apply elem_of_cons in Hin as [[=]|Hin].
        apply elem_of_app in Hin as [Hin|Hin]; [done|].
        repeat (apply elem_of_cons in Hin as [[=]|Hin]).
        by apply elem_of_nil in Hin.
      * apply elem_of_cons. right. apply elem_of_app. right.
        apply elem_of_cons. right. apply elem_of_cons. by left.
      * change (Scripts.EnsureDir :: ?l) with ([Scripts.EnsureDir] ++ l).
        by rewrite !last_app.
  - split.
    + intros _. by exists allData.
    + intros ? [= <-] Hex. exfalso.
      by apply (Forall_not_Exists _ _ Hall).
Qed.

Lemma fetchOsmData_processed_file_witness :
  (Scripts.WriteFile "sri-lanka-processed.json"
     ∉ Scripts.trace
         (fetchOsmDataIn
            (sampleWorld
               (JS.Normal {| Types.features := [museumNode; ringlessWay] |})
               None) 0))
  /\ Scripts.WriteFile "sri-lanka-all-tourism.geojson"
       ∈ Scripts.trace
           (fetchOsmDataIn
              (sampleWorld
                 (JS.Normal {| Types.features := [museumNode; ringlessWay] |})
                 None) 0)
  /\ last (Scripts.trace
             (fetchOsmDataIn
                (sampleWorld
                   (JS.Normal {| Types.features := [museumNode; ringlessWay] |})
                   None) 0))
     = Some (Scripts.Report "all").
Proof.
  destruct (fetchOsmData_processed_file
              (sampleWorld
                 (JS.Normal {| Types.features := [museumNode; ringlessWay] |})
                 None) 0 eq_refl) as [_ Hringless].
  apply (Hringless {| Types.features := [museumNode; ringlessWay] |}).
  - reflexivity.
  - apply Exists_cons_tl, Exists_cons_hd. reflexivity.
  - reflexivity.
Defined.

(** The single request of [fetchAllData] and of [fetchTourismData]. *)
Lemma fetchAllData_sent (w : World.t) :
  snd (fetchAllDataIn w) = [Scripts.Request (comprehensiveQuery w)].
Proof. reflexivity. Qed.

Lemma fetchTourismData_sent (w : World.t) :
  snd (fetchTourismDataIn w)
  = [Scripts.Request (categoryQuery w QueryBuilder.Tourism)].
Proof. reflexivity. Qed.

Ltac not_in_trace :=
  let Hin := fresh "Hin" in
  intros Hin;
  repeat (apply elem_of_cons in Hin as [Hin|Hin]; [discriminate|]);
  by apply elem_of_nil in Hin.

(** X17. [main] ends in one of two ways.  It returns, having
    disconnected as its last call, exactly when the fetch, the output
    directory, the backup file, the normalisation, the connection and
    the statistics all succeed.  Otherwise it ends the process with
    exit code 1 and never calls [disconnect], also when the failure
    comes after the connection was opened. *)
Theorem main_exits_without_disconnect :
  forall (w : World.t) (t : nat),
    (Scripts.ending (mainIn w t) = Scripts.Returned <->
     exists geojson coll,
       fst (fetchAllDataIn w) = JS.Normal geojson
       /\ World.ensureDir w = None
       /\ World.writeFileSync w (backupPath w t) = true
       /\ Forall (fun f => ~ ringless f) (Types.features geojson)
       /\ World.connect w = JS.Normal coll
       /\ World.getStats w = None)
    /\ (Scripts.ending (mainIn w t) = Scripts.Returned ->
        last (Scripts.trace (mainIn w t)) = Some Scripts.Disconnect)
    /\ (Scripts.ending (mainIn w t) <> Scripts.Returned ->
        Scripts.ending (mainIn w t) = Scripts.Exited 1
        /\ last (Scripts.trace (mainIn w t)) = Some (Scripts.Exit 1)
        /\ Scripts.Disconnect ∉ Scripts.trace (mainIn w t)).
Proof.
  intros w t. unfold mainIn, Scripts.main.
  pose proof (fetchAllData_sent w) as Hsent. unfold fetchAllDataIn in *.
  destruct (Scripts.fetchAllData _ _ _ _ _) as [[geojson|e] sent].
  2:{ cbn in Hsent. subst sent. cbn.
      split; [split; [discriminate|by intros (? & ? & [=] & _)]|].
      split; [discriminate|]. intros _. repeat split. not_in_trace. }
  cbn in Hsent. subst sent. cbn [fst].
  destruct (World.ensureDir w) as [e|].
  { cbn. split; [split; [discriminate|by intros (? & ? & _ & [=] & _)]|].
    split; [discriminate|]. intros _. repeat split. not_in_trace. }
  fold (backupPath w t).
  destruct (World.writeFileSync w (backupPath w t)).
  2:{ cbn. split; [split; [discriminate|by intros (? & ? & _ & _ & [=] & _)]|].
      split; [discriminate|]. intros _. repeat split. not_in_trace. }
  cbn [negb].
  destruct (processForMongoDB_outcome (World.Number_toString w)
              (World.clock w) geojson (S t)) as [[Hex Hrun]|[Hall [out Hrun]]];
    rewrite Hrun.
  { cbn. split.
    - split; [discriminate|]. intros (g & ? & [= <-] & _ & _ & Hall & _).
      exfalso. by apply (Forall_not_Exists _ _ Hall).
    - split; [discriminate|]. intros _. repeat split. not_in_trace. }
  destruct (World.connect w) as [coll|e].
  2:{ cbn. split; [split; [discriminate|by intros (? & ? & _ & _ & _ & _ & [=] & _)]|].
      split; [discriminate|]. intros _. repeat split. not_in_trace. }
  destruct (storeFeatures_keys (World.rejects w) (World.clock w) coll out
              (S t + length (Types.features geojson)))
    as (results & coll' & added & -> & _).
  destruct (World.getStats w) as [e|].
  { cbn. split; [split; [discriminate|by intros (? & ? & _ & _ & _ & _ & _ & [=])]|].
    split; [discriminate|]. intros _. repeat split. not_in_trace. }
  cbn. split; [split; [|done]|split; [done|by intros []]].
  intros _. by exists geojson, coll.
Qed.

Lemma main_exits_without_disconnect_witness :
  Scripts.ending
    (mainIn (sampleWorld (JS.Normal {| Types.features := [museumNode] |})
               (Some (JS.Error "statistics"))) 0)
  = Scripts.Exited 1
  /\ last (Scripts.trace
             (mainIn (sampleWorld (JS.Normal {| Types.features := [museumNode] |})
                        (Some (JS.Error "statistics"))) 0))
     = Some (Scripts.Exit 1)
  /\ (Scripts.Disconnect
        ∉ Scripts.trace
            (mainIn (sampleWorld (JS.Normal {| Types.features := [museumNode] |})
                       (Some (JS.Error "statistics"))) 0)).
Proof.
  destruct (main_exits_without_disconnect
              (sampleWorld (JS.Normal {| Types.features := [museumNode] |})
                 (Some (JS.Error "statistics"))) 0) as (_ & _ & Hexit).
  apply Hexit. vm_compute. discriminate.
Defined.

Example main_leaves_connection_open :
  Scripts.Connect
    ∈ Scripts.trace
        (mainIn (sampleWorld (JS.Normal {| Types.features := [museumNode] |})
                   (Some (JS.Error "statistics"))) 0).
Proof. apply (bool_decide_unpack _). by vm_compute. Qed.

(** X18. [main] stores nothing it has not normalised, and removes
    nothing: a Polygon without rings in the fetched collection ends the
    run with exit code 1 before any connection is made; and once the
    statistics step is reached, the collection holds the source ids and
    creation timestamps the connection found, each as often, together
    with those of the documents added, and source ids are still unique
    if they were.  Nothing is said of the order of the documents. *)
Theorem main_stores_after_normalising :
  forall (w : World.t) (t : nat),
    (forall geojson,
       fst (fetchAllDataIn w) = JS.Normal geojson ->
       Exists ringless (Types.features geojson) ->
       Scripts.ending (mainIn w t) = Scripts.Exited 1
       /\ (Scripts.Connect ∉ Scripts.trace (mainIn w t))
       /\ Scripts.database (mainIn w t) = None)
    /\ (forall coll,
          World.connect w = JS.Normal coll ->
          Scripts.Stats ∈ Scripts.trace (mainIn w t) ->
          exists coll' added,
            Scripts.database (mainIn w t) = Some coll'
            /\ keys coll' ≡ₚ keys coll ++ added
            /\ (NoDup (ids coll) -> NoDup (ids coll'))).
Proof.
  intros w t. unfold mainIn, Scripts.main.
  pose proof (fetchAllData_sent w) as Hsent. unfold fetchAllDataIn in *.
  destruct (Scripts.fetchAllData _ _ _ _ _) as [[geojson|e] sent];
    cbn in Hsent; subst sent; cbn [fst].
  2:{ split; [by intros ? [=]|]. intros coll _ Hin. exfalso. revert Hin.
      cbn. not_in_trace. }
  destruct (World.ensureDir w) as [e|].
  { split.
    - intros _ _ _. cbn. repeat split. not_in_trace.
    - intros coll _ Hin. exfalso. revert Hin. cbn. not_in_trace. }
  fold (backupPath w t).
  destruct (World.writeFileSync w (backupPath w t)); cbn [negb].
  2:{ split.
      - intros _ _ _. cbn. repeat split. not_in_trace.
      - intros coll _ Hin. exfalso. revert Hin. cbn. not_in_trace. }
  destruct (processForMongoDB_outcome (World.Number_toString w)
              (World.clock w) geojson (S t)) as [[Hex Hrun]|[Hall [out Hrun]]];
    rewrite Hrun.
  { split.
    - intros _ _ _. cbn. repeat split. not_in_trace.
    - intros coll _ Hin. exfalso. revert Hin. cbn. not_in_trace. }
  split.
  { intros ? [= <-] Hex. exfalso. by apply (Forall_not_Exists _ _ Hall). }
  intros coll -> _.
  destruct (storeFeatures_keys (World.rejects w) (World.clock w) coll out
              (S t + length (Types.features geojson)))
    as (results & coll' & added & -> & Hkeys & _ & Hkeep).
  exists coll', added. rewrite <- Hkeys. by destruct (World.getStats w).
Qed.

Lemma main_stores_after_normalising_witness :
  Scripts.ending
    (mainIn (sampleWorld
               (JS.Normal {| Types.features := [museumNode; ringlessWay] |})
               None) 0)
  = Scripts.Exited 1
  /\ (Scripts.Connect
        ∉ Scripts.trace
            (mainIn (sampleWorld
                       (JS.Normal
                          {| Types.features := [museumNode; ringlessWay] |})
                       None) 0))
  /\ Scripts.database
       (mainIn (sampleWorld
                  (JS.Normal {| Types.features := [museumNode; ringlessWay] |})
                  None) 0)
     = None.
Proof.
  destruct (main_stores_after_normalising
              (sampleWorld
                 (JS.Normal {| Types.features := [museumNode; ringlessWay] |})
                 None) 0) as [Hringless _].
  apply (Hringless {| Types.features := [museumNode; ringlessWay] |}).
  - reflexivity.
  - apply Exists_cons_tl, Exists_cons_hd. reflexivity.
Defined.

(** X19. [fetchTourismOnly] calls [disconnect] as its last call however
    the run goes, also when it never connected, and lets the error go
    on: it sends the tourism query only, returns exactly when the fetch,
    the normalisation, the connection and the statistics succeed, and
    throws a TypeError without connecting when the fetched collection
    has a Polygon without rings. *)
Theorem fetchTourismOnly_always_disconnects :
  forall (w : World.t) (t : nat),
    last (Scripts.trace (fetchTourismOnlyIn w t)) = Some Scripts.Disconnect
    /\ requests (Scripts.trace (fetchTourismOnlyIn w t))
       = [categoryQuery w QueryBuilder.Tourism]
    /\ (Scripts.ending (fetchTourismOnlyIn w t) = Scripts.Returned <->
        exists geojson coll,
          fst (fetchTourismDataIn w) = JS.Normal geojson
          /\ Forall (fun f => ~ ringless f) (Types.features geojson)
          /\ World.connect w = JS.Normal coll
          /\ World.getStats w = None)
    /\ (forall geojson,
          fst (fetchTourismDataIn w) = JS.Normal geojson ->
          Exists ringless (Types.features geojson) ->
          Scripts.ending (fetchTourismOnlyIn w t) = Scripts.Thrown JS.TypeError
          /\ Scripts.trace (fetchTourismOnlyIn w t)
             = [Scripts.Request (categoryQuery w QueryBuilder.Tourism);
                Scripts.Disconnect]).
Proof.
  intros w t. unfold fetchTourismOnlyIn, Scripts.fetchTourismOnly.
  cbn [Scripts.trace Scripts.ending]. split; [apply last_snoc|].
  unfold Scripts.tourismOnlyBody.
  pose proof (fetchTourismData_sent w) as Hsent.
  unfold fetchTourismDataIn in *.
  destruct (Scripts.fetchTourismData _ _ _ _ _) as [[geojson|e] sent];
    cbn in Hsent; subst sent; cbn [fst].
  2:{ cbn. split; [done|]. split; [|by intros ? [=]].
      split; [discriminate|by intros (? & ? & [=] & _)]. }
  destruct (processForMongoDB_outcome (World.Number_toString w)
              (World.clock w) geojson t) as [[Hex Hrun]|[Hall [out Hrun]]];
    rewrite Hrun.
  { cbn. split; [done|]. split; [|done].
    split; [discriminate|]. intros (g & ? & [= <-] & Hall & _).
    exfalso. by apply (Forall_not_Exists _ _ Hall). }
  destruct (World.connect w) as [coll|e].
  2:{ cbn. split; [done|]. split.
      - split; [discriminate|by intros (? & ? & _ & _ & [=] & _)].
      - intros ? [= <-] Hex. exfalso. by apply (Forall_not_Exists _ _ Hall). }
  destruct (storeFeatures_keys (World.rejects w) (World.clock w) coll out
              (t + length (Types.features geojson)))
    as (results & coll' & added & -> & _).
  cbn. split; [done|]. split.
  - destruct (World.getStats w) as [e|].
    + split; [discriminate|by intros (? & ? & _ & _ & _ & [=])].
    + split; [|done]. intros _. by exists geojson, coll.
  - intros ? [= <-] Hex. exfalso. by apply (Forall_not_Exists _ _ Hall).
Qed.

Lemma fetchTourismOnly_always_disconnects_witness :
  Scripts.ending
    (fetchTourismOnlyIn
       (sampleWorld
          (JS.Normal {| Types.features := [museumNode; ringlessWay] |})
          None) 0)
  = Scripts.Thrown JS.TypeError
  /\ Scripts.trace
       (fetchTourismOnlyIn
          (sampleWorld
             (JS.Normal {| Types.features := [museumNode; ringlessWay] |})
             None) 0)
     = [Scripts.Request
          (categoryQuery
             (sampleWorld
                (JS.Normal {| Types.features := [museumNode; ringlessWay] |})
                None) QueryBuilder.Tourism);
        Scripts.Disconnect].
Proof.
  destruct (fetchTourismOnly_always_disconnects
              (sampleWorld
                 (JS.Normal {| Types.features := [museumNode; ringlessWay] |})
                 None) 0) as (_ & _ & _ & Hringless).
  apply (Hringless {| Types.features := [museumNode; ringlessWay] |}).
  - reflexivity.
  - apply Exists_cons_tl, Exists_cons_hd. reflexivity.
Defined.

(** X20. [fetchByCategory] matches the category name without regard to
    the case of its letters, and sends one query for a name it knows;
    for any other name it throws an error that quotes the name as given,
    and sends nothing. *)
Theorem fetchByCategory_ignores_case :
  forall (w : World.t) (category : string),
    (Scripts.toLowerCase category ∈ knownCategories ->
     fetchByCategoryIn w category
     = fetchByCategoryIn w (Scripts.toLowerCase category)
     /\ exists query,
          snd (fetchByCategoryIn w category) = [Scripts.Request query])
    /\ (Scripts.toLowerCase category ∉ knownCategories ->
        fetchByCategoryIn w category
        = (JS.Throw (JS.Error ("Unknown category: " +:+ category)), []))
    /\ (forall d, Scripts.toLowerCase category = keyOf d ->
          snd (fetchByCategoryIn w category)
          = [Scripts.Request (categoryQuery w d)])
    /\ (Scripts.toLowerCase category = "all" ->
        fetchByCategoryIn w category = fetchAllDataIn w).
Proof.
  intros w category. unfold fetchByCategoryIn, Scripts.fetchByCategory.
  rewrite toLowerCase_idem. cbv zeta.
  generalize (Scripts.toLowerCase category) as lowered. intros lowered.
  split; [|split; [|split]].
  - intros Hin. unfold knownCategories in Hin.
    repeat (apply elem_of_cons in Hin as [->|Hin]; [split; [done|by eexists]|]).
    by apply elem_of_nil in Hin.
  - intros Hnotin.
    repeat match goal with
           | |- context [String.eqb lowered ?name] =>
               destruct (String.eqb_spec lowered name) as [->|_];
               [exfalso; apply Hnotin; unfold knownCategories; set_solver|]
           end.
    done.
  - by intros [] ->.
  - by intros ->.
Qed.

Lemma fetchByCategory_ignores_case_witness :
  fetchByCategoryIn (sampleWorld rateLimited None) "Historic"
  = fetchByCategoryIn (sampleWorld rateLimited None)
      (Scripts.toLowerCase "Historic")
  /\ exists query,
       snd (fetchByCategoryIn (sampleWorld rateLimited None) "Historic")
       = [Scripts.Request query].
Proof.
  destruct (fetchByCategory_ignores_case (sampleWorld rateLimited None)
              "Historic") as [Hknown _].
  apply Hknown. apply (bool_decide_unpack _). by vm_compute.
Defined.
